(** * AttendanceManagement: the data layer of [app.py]

    A shallow embedding of the request handlers of [app.py] that write to
    or aggregate over the SQLite store, together with the properties of
    the store that the handlers maintain.

    The store is modelled table by table, every table a list of rows in
    rowid order with its AUTOINCREMENT counter.  Every SQL statement the
    handlers issue is a function on the connection; a constraint
    violation is the [IntegrityError] result that [sqlite3] raises.  A
    handler is a function from the freshly opened connection to the
    connection it leaves behind, the messages it flashes and its
    response. *)

From Stdlib Require Import ZArith List String Ascii Bool Lia.
From Stdlib Require Import Decimal DecimalString.
From Stdlib Require Import Floats.SpecFloat.
From Stdlib Require Import Permutation.
Import ListNotations.

Local Open Scope string_scope.
Local Open Scope Z_scope.

Set Implicit Arguments.

(* ================================================================= *)
(** ** Python strings *)

(** [str.isspace] on the ASCII range: tab, line feed, vertical tab, form
    feed, carriage return, the four separators 28..31 and the space. *)
Definition is_space (c : ascii) : bool :=
  let n := nat_of_ascii c in
  ((9 <=? n) && (n <=? 13))%nat || ((28 <=? n) && (n <=? 32))%nat.

(** The whitespace that [int] skips around a literal: the same without
    the four separators. *)
Definition is_literal_space (c : ascii) : bool :=
  let n := nat_of_ascii c in
  ((9 <=? n) && (n <=? 13))%nat || (n =? 32)%nat.

Fixpoint lstrip_of (space : ascii -> bool) (s : string) : string :=
  match s with
  | String c s' => if space c then lstrip_of space s' else s
  | EmptyString => EmptyString
  end.

Fixpoint string_rev (s : string) : string :=
  match s with
  | EmptyString => EmptyString
  | String c s' => string_rev s' ++ String c EmptyString
  end.

Definition strip_of (space : ascii -> bool) (s : string) : string :=
  string_rev (lstrip_of space (string_rev (lstrip_of space s))).

(** [s.strip()] *)
Definition strip (s : string) : string := strip_of is_space s.

(** Truthiness of a string: [not s] holds of the empty string only. *)
Definition truthy (s : string) : bool :=
  match s with EmptyString => false | _ => true end.

(** [str(n)] of an integer, as an f-string prints it. *)
Definition str_of_Z (n : Z) : string := NilZero.string_of_int (Z.to_int n).
Definition str_of_nat (n : nat) : string := NilZero.string_of_uint (Nat.to_uint n).

Definition is_digit (c : ascii) : bool :=
  let n := nat_of_ascii c in ((48 <=? n) && (n <=? 57))%nat.

Definition digit_value (c : ascii) : Z := Z.of_nat (nat_of_ascii c) - 48.

(** The digits of an integer literal: single underscores are allowed
    between digits and nowhere else. *)
Fixpoint digits_value (s : string) (acc : Z) (after_digit : bool) : option Z :=
  match s with
  | EmptyString => if after_digit then Some acc else None
  | String c s' =>
      if is_digit c then digits_value s' (10 * acc + digit_value c) true
      else if Ascii.eqb c "_" && after_digit
           then match s' with
                | EmptyString => None
                | _ => digits_value s' acc false
                end
           else None
  end.

(** [int(s)] on a string of ASCII characters: surrounding whitespace is
    dropped and one sign is accepted; [None] is the [ValueError]. *)
Definition py_int (s : string) : option Z :=
  match strip_of is_literal_space s with
  | String "-" d => option_map Z.opp (digits_value d 0 false)
  | String "+" d => digits_value d 0 false
  | d => digits_value d 0 false
  end.

(** [[int(id) for id in ids]]: the first failure aborts the comprehension. *)
Fixpoint py_int_list (ids : list string) : option (list Z) :=
  match ids with
  | [] => Some []
  | s :: rest =>
      match py_int s, py_int_list rest with
      | Some n, Some ns => Some (n :: ns)
      | _, _ => None
      end
  end.

(** [strip] and [py_int] are [str.strip] and [int] on ASCII text.
    Beyond it Python also strips the spaces of Unicode and reads the
    decimal digits of every script, and [int] refuses a text of more
    than 4300 digits whatever it spells.  What a handler answers to a
    form is therefore stated for forms of ASCII text, and what it does
    with a list of ids for texts within that length. *)
Definition is_ascii (s : string) : bool :=
  forallb (fun c => (nat_of_ascii c <? 128)%nat) (list_ascii_of_string s).

Definition max_str_digits : nat := 4300.

Definition int_text (s : string) : bool :=
  is_ascii s && (String.length s <=? max_str_digits)%nat.

(* ================================================================= *)
(** ** The submitted form

    [request.form] is a multi-dictionary: the pairs of the request body
    in order.  [form['k']] is the first value of the key and fails (a
    400 response) when the key is absent, [form.get] falls back on a
    default and [form.getlist] collects every value of the key. *)

Definition form := list (string * string).

Fixpoint form_item (f : form) (k : string) : option string :=
  match f with
  | [] => None
  | (k', v) :: rest => if String.eqb k' k then Some v else form_item rest k
  end.

Definition form_get (f : form) (k : string) (default : string) : string :=
  match form_item f k with Some v => v | None => default end.

Definition form_getlist (f : form) (k : string) : list string :=
  map snd (filter (fun kv => String.eqb (fst kv) k) f).

(** A form all of whose values are ASCII text. *)
Definition ascii_form (f : form) : bool :=
  forallb (fun kv => is_ascii (snd kv)) f.

(* ================================================================= *)
(** ** Stored values

    SQLite types values, not columns.  An id that the application binds
    as a Python [int] is stored as an integer; a form field bound as a
    string to an INTEGER column goes through the column's affinity
    first, which turns the text into an integer when it reads as one
    and keeps it as text otherwise. *)

Inductive value : Type :=
| VInt (n : Z)
| VText (s : string).

Definition value_eqb (a b : value) : bool :=
  match a, b with
  | VInt n, VInt m => Z.eqb n m
  | VText s, VText t => String.eqb s t
  | _, _ => false
  end.

(** The affinity on the plain decimal literals that the pages of the
    application submit (option values and number inputs). *)
Definition literal_affinity (s : string) : value :=
  match s with
  | String "-" d =>
      match digits_value d 0 false with
      | Some n => if forallb is_digit (list_ascii_of_string d) then VInt (- n) else VText s
      | None => VText s
      end
  | _ =>
      match digits_value s 0 false with
      | Some n => if forallb is_digit (list_ascii_of_string s) then VInt n else VText s
      | None => VText s
      end
  end.

(* ================================================================= *)
(** ** Rows and tables *)

Record student_row := {
  usn : string;
  name : string;
  email : string;
  phone : string;
  class_ : string;
  department : string;
  parent_name : string;
  parent_phone : string;
  parent_email : string
}.

Record attendance_row := {
  a_student_id : value;
  a_date : string;
  a_status : string
}.

Record student_task_row := {
  st_task_id : Z;
  st_student_id : Z;
  st_status : string;
  st_completed_date : option string
}.

Record task_row := {
  title : string;
  t_description : string;
  due_date : string
}.

Record subject_row := {
  s_name : string;
  s_course : string;
  s_semester : value;
  s_description : string
}.

Record mark_row := {
  m_student_id : value;
  m_subject_id : value;
  m_exam_type : string;
  m_marks_obtained : string;
  m_max_marks : string;
  m_exam_date : option string;
  m_remarks : string
}.

(** A table with [id INTEGER PRIMARY KEY AUTOINCREMENT]: the rows with
    their ids, in rowid order, and the largest id ever handed out (the
    table's entry in [sqlite_sequence]). *)
Record table (R : Type) := {
  rows : list (Z * R);
  autoinc : Z
}.

Definition empty_table (R : Type) : table R := {| rows := []; autoinc := 0 |}.

Definition max_rowid (R : Type) (l : list (Z * R)) : Z :=
  fold_right (fun r m => Z.max (fst r) m) 0 l.

Definition next_rowid (R : Type) (t : table R) : Z :=
  Z.max (autoinc t) (max_rowid (rows t)) + 1.

Definition append_row (R : Type) (t : table R) (r : R) : table R :=
  let i := next_rowid t in {| rows := rows t ++ [(i, r)]; autoinc := i |}.

Definition delete_where (R : Type) (p : Z * R -> bool) (t : table R) : table R :=
  {| rows := filter (fun r => negb (p r)) (rows t); autoinc := autoinc t |}.

Definition update_where (R : Type) (p : Z * R -> bool) (f : R -> R) (t : table R) : table R :=
  {| rows := map (fun r => if p r then (fst r, f (snd r)) else r) (rows t);
     autoinc := autoinc t |}.

Definition ids (R : Type) (t : table R) : list Z := map fst (rows t).

Record database := {
  t_students : table student_row;
  t_attendance : table attendance_row;
  t_tasks : table task_row;
  t_student_tasks : table student_task_row;
  t_subjects : table subject_row;
  t_marks : table mark_row
}.

Definition empty_database : database :=
  {| t_students := empty_table _; t_attendance := empty_table _;
     t_tasks := empty_table _; t_student_tasks := empty_table _;
     t_subjects := empty_table _; t_marks := empty_table _ |}.

Definition set_students (d : database) (t : table student_row) : database :=
  {| t_students := t; t_attendance := t_attendance d; t_tasks := t_tasks d;
     t_student_tasks := t_student_tasks d; t_subjects := t_subjects d;
     t_marks := t_marks d |}.

Definition set_attendance (d : database) (t : table attendance_row) : database :=
  {| t_students := t_students d; t_attendance := t; t_tasks := t_tasks d;
     t_student_tasks := t_student_tasks d; t_subjects := t_subjects d;
     t_marks := t_marks d |}.

Definition set_student_tasks (d : database) (t : table student_task_row) : database :=
  {| t_students := t_students d; t_attendance := t_attendance d;
     t_tasks := t_tasks d; t_student_tasks := t; t_subjects := t_subjects d;
     t_marks := t_marks d |}.

Definition set_subjects (d : database) (t : table subject_row) : database :=
  {| t_students := t_students d; t_attendance := t_attendance d;
     t_tasks := t_tasks d; t_student_tasks := t_student_tasks d;
     t_subjects := t; t_marks := t_marks d |}.

Definition set_marks (d : database) (t : table mark_row) : database :=
  {| t_students := t_students d; t_attendance := t_attendance d;
     t_tasks := t_tasks d; t_student_tasks := t_student_tasks d;
     t_subjects := t_subjects d; t_marks := t |}.

(* ================================================================= *)
(** ** The connection

    [get_db] opens [database.db] with [sqlite3.connect] and sets the row
    factory; it issues no [PRAGMA foreign_keys = ON], so the connection
    keeps SQLite's default and the FOREIGN KEY clauses of the schema are
    parsed but not enforced.  The flag is part of the connection so that
    each statement below says what the engine does either way.

    Statements run inside the connection's transaction: [commit] makes
    them durable, and [close_connection], which runs at the end of every
    request, drops whatever was not committed. *)

Record connection := {
  stored : database;
  current : database;
  foreign_keys : bool
}.

Definition connect (d : database) : connection :=
  {| stored := d; current := d; foreign_keys := false |}.

Definition get_db (d : database) : connection := connect d.

Definition commit (c : connection) : connection :=
  {| stored := current c; current := current c; foreign_keys := foreign_keys c |}.

Definition close_connection (c : connection) : database := stored c.

Definition with_current (c : connection) (d : database) : connection :=
  {| stored := stored c; current := d; foreign_keys := foreign_keys c |}.

(** [PRAGMA foreign_keys = ON], which [app.py] never executes. *)
Definition pragma_foreign_keys_on (c : connection) : connection :=
  {| stored := stored c; current := current c; foreign_keys := true |}.

(* ================================================================= *)
(** ** The statements

    The result of [db.execute]: the connection after the statement, or
    the [sqlite3.IntegrityError] of the constraint that failed, in which
    case the statement changed nothing. *)

Inductive constraint := UNIQUE | CHECK | FOREIGN_KEY.

Inductive exec : Type :=
| Done (c : connection)
| IntegrityError (k : constraint).

(** The integers that [sqlite3] binds to a parameter are those of 64
    bits; for any other it raises [OverflowError] before the statement
    runs.  The ids of stored rows are within the range; an id that comes
    from the URL or from the form need not be, and the statements below
    are those of an id that is.  What a handler answers is therefore
    stated for ids within the range. *)
Definition int64 (n : Z) : bool := (- 2 ^ 63 <=? n) && (n <? 2 ^ 63).

Definition has_rowid (R : Type) (t : table R) (i : Z) : bool :=
  existsb (fun r => fst r =? i) (rows t).

(** Does a child column refer to a row of the parent table? *)
Definition refers_to (R : Type) (t : table R) (v : value) : bool :=
  match v with
  | VInt i => has_rowid t i
  | VText _ => false
  end.

(** [INSERT INTO students (usn, name, email, ...)]: [usn] and [email]
    are UNIQUE. *)
Definition insert_student (c : connection) (r : student_row) : exec :=
  let d := current c in
  if existsb (fun x => (usn (snd x) =? usn r) || (email (snd x) =? email r))%string
             (rows (t_students d))
  then IntegrityError UNIQUE
  else Done (with_current c (set_students d (append_row (t_students d) r))).

(** [SELECT id FROM students WHERE (usn = ? OR email = ?) AND id != ?],
    [fetchone]. *)
Definition select_other_student (c : connection) (u e : string) (id : Z) : option Z :=
  option_map fst
    (find (fun x => ((usn (snd x) =? u) || (email (snd x) =? e))%string && negb (fst x =? id))
          (rows (t_students (current c)))).

(** [UPDATE students SET ... WHERE id = ?] *)
Definition update_student (c : connection) (id : Z) (r : student_row) : exec :=
  let d := current c in
  if has_rowid (t_students d) id
     && existsb (fun x => negb (fst x =? id)
                          && ((usn (snd x) =? usn r) || (email (snd x) =? email r))%string)
                (rows (t_students d))
  then IntegrityError UNIQUE
  else Done (with_current c
               (set_students d (update_where (fun x => fst x =? id) (fun _ => r)
                                             (t_students d)))).

(** [DELETE FROM students WHERE id = ?].  With foreign keys enforced the
    ON DELETE CASCADE clauses of [attendance], [student_tasks] and
    [marks] delete the children of the deleted row; without, the
    statement touches [students] only. *)
Definition delete_from_students (c : connection) (id : Z) : connection :=
  let d := current c in
  let d1 := set_students d (delete_where (fun x => fst x =? id) (t_students d)) in
  if foreign_keys c && has_rowid (t_students d) id
  then
    let d2 := set_attendance d1
                (delete_where (fun x => value_eqb (a_student_id (snd x)) (VInt id))
                              (t_attendance d1)) in
    let d3 := set_student_tasks d2
                (delete_where (fun x => st_student_id (snd x) =? id)
                              (t_student_tasks d2)) in
    let d4 := set_marks d3
                (delete_where (fun x => value_eqb (m_student_id (snd x)) (VInt id))
                              (t_marks d3)) in
    with_current c d4
  else with_current c d1.

Definition valid_status (s : string) : bool :=
  ((s =? "Present") || (s =? "Absent"))%string.

Definition same_mark (sid : value) (date : string) (x : Z * attendance_row) : bool :=
  value_eqb (a_student_id (snd x)) sid && (a_date (snd x) =? date)%string.

(** [INSERT INTO attendance (student_id, date, status)]: the CHECK on
    [status], UNIQUE(student_id, date) and, when enforced, the foreign
    key. *)
Definition insert_attendance (c : connection) (sid : value) (date status : string) : exec :=
  let d := current c in
  if negb (valid_status status) then IntegrityError CHECK
  else if existsb (same_mark sid date) (rows (t_attendance d)) then IntegrityError UNIQUE
  else if foreign_keys c && negb (refers_to (t_students d) sid) then IntegrityError FOREIGN_KEY
  else Done (with_current c
               (set_attendance d
                  (append_row (t_attendance d)
                     {| a_student_id := sid; a_date := date; a_status := status |}))).

Definition same_assignment (task_id sid : Z) (x : Z * student_task_row) : bool :=
  (st_task_id (snd x) =? task_id) && (st_student_id (snd x) =? sid).

(** [INSERT INTO student_tasks (task_id, student_id, status) VALUES
    (?, ?, 'Pending')]: UNIQUE(task_id, student_id) and, when enforced,
    the two foreign keys. *)
Definition insert_student_task (c : connection) (task_id sid : Z) : exec :=
  let d := current c in
  if existsb (same_assignment task_id sid) (rows (t_student_tasks d))
  then IntegrityError UNIQUE
  else if foreign_keys c
          && negb (has_rowid (t_tasks d) task_id && has_rowid (t_students d) sid)
  then IntegrityError FOREIGN_KEY
  else Done (with_current c
               (set_student_tasks d
                  (append_row (t_student_tasks d)
                     {| st_task_id := task_id; st_student_id := sid;
                        st_status := "Pending"; st_completed_date := None |}))).

(** [DELETE FROM student_tasks WHERE task_id = ? AND student_id = ?] *)
Definition delete_student_task (c : connection) (task_id sid : Z) : connection :=
  let d := current c in
  with_current c
    (set_student_tasks d (delete_where (same_assignment task_id sid) (t_student_tasks d))).

(** [SELECT student_id FROM student_tasks WHERE task_id = ?] *)
Definition select_assigned (c : connection) (task_id : Z) : list Z :=
  map (fun x => st_student_id (snd x))
      (filter (fun x => st_task_id (snd x) =? task_id) (rows (t_student_tasks (current c)))).

Definition same_subject (n co : string) (sem : value) (x : Z * subject_row) : bool :=
  (s_name (snd x) =? n)%string && (s_course (snd x) =? co)%string
  && value_eqb (s_semester (snd x)) sem.

(** [INSERT INTO subjects (name, course, semester, description)], under
    the unique index [idx_subjects_unique] on (name, course, semester)
    that [migrate_db] creates. *)
Definition insert_subject (c : connection) (r : subject_row) : exec :=
  let d := current c in
  if existsb (same_subject (s_name r) (s_course r) (s_semester r)) (rows (t_subjects d))
  then IntegrityError UNIQUE
  else Done (with_current c (set_subjects d (append_row (t_subjects d) r))).

(** [SELECT id FROM subjects WHERE name = ? AND course = ? AND
    semester = ? AND id != ?], [fetchone]. *)
Definition select_other_subject (c : connection) (n co : string) (sem : value) (id : Z)
  : option Z :=
  option_map fst
    (find (fun x => same_subject n co sem x && negb (fst x =? id))
          (rows (t_subjects (current c)))).

(** [UPDATE subjects SET name = ?, course = ?, semester = ?,
    description = ? WHERE id = ?] *)
Definition update_subject (c : connection) (id : Z) (r : subject_row) : exec :=
  let d := current c in
  if has_rowid (t_subjects d) id
     && existsb (fun x => negb (fst x =? id)
                          && same_subject (s_name r) (s_course r) (s_semester r) x)
                (rows (t_subjects d))
  then IntegrityError UNIQUE
  else Done (with_current c
               (set_subjects d (update_where (fun x => fst x =? id) (fun _ => r)
                                             (t_subjects d)))).

(** [INSERT INTO marks (...)]: no uniqueness; the two foreign keys when
    enforced. *)
Definition insert_mark (c : connection) (r : mark_row) : exec :=
  let d := current c in
  if foreign_keys c
     && negb (refers_to (t_students d) (m_student_id r)
              && refers_to (t_subjects d) (m_subject_id r))
  then IntegrityError FOREIGN_KEY
  else Done (with_current c (set_marks d (append_row (t_marks d) r))).

(* ================================================================= *)
(** ** Attendance percentage

    [round((present / total * 100), 2) if total > 0 else 0]: the true
    division and the product are binary64 operations, [round] returns
    the double nearest to the decimal with two places that is nearest
    to its argument (ties to the even last place), and the else branch
    is the integer [0]. *)

Definition binary64_of_Z (n : Z) : spec_float := binary_normalize 53 1024 n 0 false.

(** An integer as the operand of a division: its magnitude with
    exponent 0, however many bits it has. *)
Definition int_operand (n : Z) : spec_float :=
  match n with
  | Z0 => S754_zero false
  | Zpos p => S754_finite false p 0
  | Zneg p => S754_finite true p 0
  end.

(** [a / b] on integers, for [b] other than 0: the double nearest to the
    quotient. *)
Definition truediv (a b : Z) : spec_float :=
  SFdiv 53 1024 (int_operand a) (int_operand b).

Definition float_mul (x y : spec_float) : spec_float := SFmul 53 1024 x y.

(** The integer nearest to [num / den], ties to even, for [den > 0]. *)
Definition round_half_even (num den : Z) : Z :=
  let q := num / den in
  let r := num mod den in
  match 2 * r ?= den with
  | Lt => q
  | Gt => q + 1
  | Eq => if Z.even q then q else q + 1
  end.

(** The number of hundredths nearest to the magnitude [m * 2^e]. *)
Definition hundredths (m : positive) (e : Z) : Z :=
  match e with
  | Zneg k => round_half_even (Zpos m * 100) (2 ^ Zpos k)
  | _ => Zpos m * 100 * 2 ^ e
  end.

(** [round(x, 2)] *)
Definition round2 (x : spec_float) : spec_float :=
  match x with
  | S754_finite s m e =>
      SFdiv 53 1024
        (binary_normalize 53 1024 (cond_Zopp s (hundredths m e)) 0 s)
        (binary64_of_Z 100)
  | _ => x
  end.

Inductive number : Type :=
| PyInt (n : Z)
| PyFloat (x : spec_float).

Definition percentage (present total : Z) : number :=
  if 0 <? total
  then PyFloat (round2 (float_mul (truediv present total) (binary64_of_Z 100)))
  else PyInt 0.

(* ================================================================= *)
(** ** Replies *)

(** The attendance part of the context that [student_report] hands to
    its template. *)
Record attendance_summary := {
  total_days : Z;
  present : Z;
  absent : Z;
  attendance_percent : number
}.

Inductive response : Type :=
| Redirect (endpoint : string)
| BadRequest
| InternalServerError
| StudentReport (student : Z * student_row) (summary : attendance_summary).

Definition flash := (string * string)%type.

Record reply := {
  conn : connection;
  flashed : list flash;
  resp : response
}.

Definition redirect (c : connection) (msgs : list flash) (endpoint : string) : reply :=
  {| conn := c; flashed := msgs; resp := Redirect endpoint |}.

(** A missing key in [request.form[...]] aborts the request with 400. *)
Definition bad_request (c : connection) : reply :=
  {| conn := c; flashed := []; resp := BadRequest |}.

(** An exception that no handler catches. *)
Definition server_error (c : connection) : reply :=
  {| conn := c; flashed := []; resp := InternalServerError |}.

Notation "'let?' x ':=' f '@' k 'on' c 'in' rest" :=
  (match form_item f k with
   | Some x => rest
   | None => bad_request c
   end)
  (at level 10, x name, f at level 9, k at level 9, c at level 9,
   rest at level 200, only parsing).

(** One request: open the connection, run the handler, and close the
    connection whatever the handler did. *)
Definition serve (handler : connection -> reply) (d : database)
  : database * list flash * response :=
  let r := handler (get_db d) in
  (close_connection (conn r), flashed r, resp r).

Section Handlers.

(** The INTEGER column affinity of the engine, applied to a bound
    string. *)
Variable integer_affinity : string -> value.

(* ----------------------------------------------------------------- *)
(** *** Students *)

Definition add_student (f : form) (c : connection) : reply :=
  let? usn_ := f @ "usn" on c in
  let? name_ := f @ "name" on c in
  let? email_ := f @ "email" on c in
  let? phone_ := f @ "phone" on c in
  let? cls := f @ "class" on c in
  let? dept := f @ "department" on c in
  let r := {| usn := strip usn_; name := strip name_; email := strip email_;
              phone := strip phone_; class_ := strip cls; department := strip dept;
              parent_name := strip (form_get f "parent_name" "");
              parent_phone := strip (form_get f "parent_phone" "");
              parent_email := strip (form_get f "parent_email" "") |} in
  if negb (truthy (usn r)) || negb (truthy (name r)) || negb (truthy (email r))
     || negb (truthy (class_ r)) || negb (truthy (department r))
  then redirect c [("USN, Name, Email, Class, and Department are required.", "danger")]
                "students"
  else
    match insert_student c r with
    | Done c' => redirect (commit c') [("Student added successfully.", "success")] "students"
    | IntegrityError UNIQUE =>
        redirect c [("USN or Email already exists.", "danger")] "students"
    | IntegrityError _ => redirect c [("Error adding student.", "danger")] "students"
    end.

Definition edit_student (id : Z) (f : form) (c : connection) : reply :=
  let? usn_ := f @ "usn" on c in
  let? name_ := f @ "name" on c in
  let? email_ := f @ "email" on c in
  let? phone_ := f @ "phone" on c in
  let? cls := f @ "class" on c in
  let? dept := f @ "department" on c in
  let r := {| usn := strip usn_; name := strip name_; email := strip email_;
              phone := strip phone_; class_ := strip cls; department := strip dept;
              parent_name := strip (form_get f "parent_name" "");
              parent_phone := strip (form_get f "parent_phone" "");
              parent_email := strip (form_get f "parent_email" "") |} in
  if negb (truthy (usn r)) || negb (truthy (name r)) || negb (truthy (email r))
     || negb (truthy (class_ r)) || negb (truthy (department r))
  then redirect c [("All fields except phone and parent details are required.", "danger")]
                "students"
  else
    match select_other_student c (usn r) (email r) id with
    | Some _ =>
        redirect c [("USN or Email already in use by another student.", "danger")]
                 "students"
    | None =>
        match update_student c id r with
        | Done c' =>
            redirect (commit c') [("Student updated successfully.", "success")] "students"
        | IntegrityError _ => server_error c
        end
    end.

Definition delete_student (id : Z) (c : connection) : reply :=
  redirect (commit (delete_from_students c id))
           [("Student deleted successfully.", "success")] "students".

(* ----------------------------------------------------------------- *)
(** *** Attendance *)

(** The POST branch of [attendance]; [today] is the default of the
    date field. *)
Definition attendance (today : string) (f : form) (c : connection) : reply :=
  let? student_id := f @ "student_id" on c in
  let? status := f @ "status" on c in
  let date := form_get f "date" today in
  match insert_attendance c (integer_affinity student_id) date status with
  | Done c' => redirect (commit c') [("Attendance marked successfully.", "success")]
                        "attendance"
  | IntegrityError _ =>
      redirect c [("Attendance for this student on this date already exists.", "danger")]
               "attendance"
  end.

(** A filter of the bulk form is in force when it is present, not empty
    and not the word [All]. *)
Definition filter_on (o : option string) : option string :=
  match o with
  | Some s => if truthy s && negb (s =? "All")%string then Some s else None
  | None => None
  end.

Definition matches (o : option string) (s : string) : bool :=
  match o with
  | Some v => (s =? v)%string
  | None => true
  end.

(** [SELECT id FROM students] with the conditions the filters add.  The
    statement has no ORDER BY: the ids come in the order of the scan
    the engine chooses, that of the table here.  What is stated of the
    loops over them holds of every order. *)
Definition select_student_ids (c : connection) (class_filter dept_filter : option string)
  : list Z :=
  map fst
    (filter (fun x => matches (filter_on class_filter) (class_ (snd x))
                      && matches (filter_on dept_filter) (department (snd x)))
            (rows (t_students (current c)))).

(** The loop of [bulk_attendance] over the selected ids. *)
Fixpoint mark_each (f : form) (date : string) (student_ids : list Z)
         (c : connection) (success_count exists_count : nat) : connection * nat * nat :=
  match student_ids with
  | [] => (c, success_count, exists_count)
  | sid :: rest =>
      let status := form_get f ("status_" ++ str_of_Z sid) "Present" in
      match insert_attendance c (VInt sid) date status with
      | Done c' => mark_each f date rest c' (S success_count) exists_count
      | IntegrityError _ => mark_each f date rest c success_count (S exists_count)
      end
  end.

Definition bulk_attendance_message (success_count exists_count : nat) : string :=
  "Bulk attendance marked: " ++ str_of_nat success_count ++ " new records, "
  ++ str_of_nat exists_count ++ " already existed.".

(** The POST branch of [bulk_attendance]. *)
Definition bulk_attendance (f : form) (c : connection) : reply :=
  let? date := f @ "date" on c in
  let student_ids :=
    select_student_ids c (form_item f "class_filter") (form_item f "dept_filter") in
  let '(c', success_count, exists_count) := mark_each f date student_ids c 0%nat 0%nat in
  redirect (commit c') [(bulk_attendance_message success_count exists_count, "success")]
           "attendance".

(* ----------------------------------------------------------------- *)
(** *** Task assignments *)

Definition mem (x : Z) (l : list Z) : bool := existsb (Z.eqb x) l.

(** The assignment loop: an insert that fails is passed over. *)
Fixpoint assign_each (task_id : Z) (to_assign : list Z) (c : connection)
         (assign_count : nat) : connection * nat :=
  match to_assign with
  | [] => (c, assign_count)
  | sid :: rest =>
      match insert_student_task c task_id sid with
      | Done c' => assign_each task_id rest c' (S assign_count)
      | IntegrityError _ => assign_each task_id rest c assign_count
      end
  end.

(** The unassignment loop. *)
Fixpoint unassign_each (task_id : Z) (to_unassign : list Z) (c : connection)
         (unassign_count : nat) : connection * nat :=
  match to_unassign with
  | [] => (c, unassign_count)
  | sid :: rest =>
      unassign_each task_id rest (delete_student_task c task_id sid) (S unassign_count)
  end.

Definition assigned_message (n : nat) : flash :=
  ("Task assigned to " ++ str_of_nat n ++ " new student(s).", "success").

Definition unassigned_message (n : nat) : flash :=
  ("Task unassigned from " ++ str_of_nat n ++ " student(s).", "info").

Definition no_changes_message : flash :=
  ("No changes made to assignments.", "info").

Definition assignment_messages (assign_count unassign_count : nat) : list flash :=
  (if (0 <? assign_count)%nat then [assigned_message assign_count] else [])
  ++ (if (0 <? unassign_count)%nat then [unassigned_message unassign_count] else [])
  ++ (if (assign_count =? 0)%nat && (unassign_count =? 0)%nat
      then [no_changes_message] else []).

Definition update_task_assignments (task_id : Z) (f : form) (c : connection) : reply :=
  match py_int_list (form_getlist f "student_ids") with
  | None => server_error c
  | Some selected_student_ids =>
      let currently_assigned_ids := select_assigned c task_id in
      let to_assign :=
        filter (fun sid => negb (mem sid currently_assigned_ids)) selected_student_ids in
      let to_unassign :=
        filter (fun sid => negb (mem sid selected_student_ids)) currently_assigned_ids in
      let '(c1, assign_count) := assign_each task_id to_assign c 0%nat in
      let '(c2, unassign_count) := unassign_each task_id to_unassign c1 0%nat in
      {| conn := commit c2;
         flashed := assignment_messages assign_count unassign_count;
         resp := Redirect "task_detail" |}
  end.

(* ----------------------------------------------------------------- *)
(** *** Subjects *)

(** The POST branch of [subjects]. *)
Definition subjects (f : form) (c : connection) : reply :=
  let? name_ := f @ "name" on c in
  let? course_ := f @ "course" on c in
  let? semester := f @ "semester" on c in
  let? description_ := f @ "description" on c in
  let r := {| s_name := strip name_; s_course := strip course_;
              s_semester := integer_affinity semester;
              s_description := strip description_ |} in
  if negb (truthy (s_name r)) || negb (truthy (s_course r)) || negb (truthy semester)
  then redirect c [("Subject name, course, and semester are required.", "danger")]
                "subjects"
  else
    match insert_subject c r with
    | Done c' => redirect (commit c') [("Subject added successfully.", "success")] "subjects"
    | IntegrityError _ =>
        redirect c [("Subject with this name, course, and semester already exists.",
                     "danger")] "subjects"
    end.

Definition edit_subject (id : Z) (f : form) (c : connection) : reply :=
  let? name_ := f @ "name" on c in
  let? course_ := f @ "course" on c in
  let? semester := f @ "semester" on c in
  let? description_ := f @ "description" on c in
  let r := {| s_name := strip name_; s_course := strip course_;
              s_semester := integer_affinity semester;
              s_description := strip description_ |} in
  if negb (truthy (s_name r)) || negb (truthy (s_course r)) || negb (truthy semester)
  then redirect c [("Subject name, course, and semester are required.", "danger")]
                "subjects"
  else
    match select_other_subject c (s_name r) (s_course r) (s_semester r) id with
    | Some _ =>
        redirect c [("Subject with this name, course, and semester already exists.",
                     "danger")] "subjects"
    | None =>
        match update_subject c id r with
        | Done c' =>
            redirect (commit c') [("Subject updated successfully.", "success")] "subjects"
        | IntegrityError _ => server_error c
        end
    end.

(* ----------------------------------------------------------------- *)
(** *** Marks *)

(** [exam_date = request.form.get('exam_date') or None] *)
Definition or_none (o : option string) : option string :=
  match o with
  | Some s => if truthy s then Some s else None
  | None => None
  end.

(** The loop of [bulk_marks]; [i] is the index [enumerate] is at. *)
Fixpoint insert_each (subject_id exam_type : string) (exam_date : option string)
         (remarks : string) (marks_obtained_list max_marks_list : list string)
         (i : nat) (student_ids : list string) (c : connection) (success_count : nat)
  : connection * nat :=
  match student_ids with
  | [] => (c, success_count)
  | student_id :: rest =>
      let marks_obtained := nth i marks_obtained_list "" in
      let max_marks := nth i max_marks_list "" in
      let continue c' n :=
        insert_each subject_id exam_type exam_date remarks marks_obtained_list
                    max_marks_list (S i) rest c' n in
      if negb (truthy marks_obtained) || negb (truthy max_marks)
      then continue c success_count
      else
        match insert_mark c {| m_student_id := integer_affinity student_id;
                               m_subject_id := integer_affinity subject_id;
                               m_exam_type := exam_type;
                               m_marks_obtained := marks_obtained;
                               m_max_marks := max_marks;
                               m_exam_date := exam_date;
                               m_remarks := remarks |} with
        | Done c' => continue c' (S success_count)
        | IntegrityError _ => continue c success_count
        end
  end.

Definition bulk_marks_message (success_count : nat) : flash :=
  ("Bulk marks added: " ++ str_of_nat success_count ++ " records inserted.", "success").

(** The POST branch of [bulk_marks]. *)
Definition bulk_marks (f : form) (c : connection) : reply :=
  let? subject_id := f @ "subject_id" on c in
  let? exam_type_ := f @ "exam_type" on c in
  let exam_type := strip exam_type_ in
  let exam_date := or_none (form_item f "exam_date") in
  let remarks := strip (form_get f "remarks" "") in
  let student_ids := form_getlist f "student_ids" in
  let marks_obtained_list := form_getlist f "marks_obtained" in
  let max_marks_list := form_getlist f "max_marks" in
  if negb (truthy subject_id) || negb (truthy exam_type)
  then redirect c [("Subject and exam type are required.", "danger")] "bulk_marks"
  else
    let '(c', success_count) :=
      insert_each subject_id exam_type exam_date remarks marks_obtained_list
                  max_marks_list 0 student_ids c 0%nat in
    redirect (commit c') [bulk_marks_message success_count] "marks".

(* ----------------------------------------------------------------- *)
(** *** The student report *)

(** [SELECT * FROM students WHERE id = ?], [fetchone]. *)
Definition select_student (c : connection) (id : Z) : option (Z * student_row) :=
  find (fun x => fst x =? id) (rows (t_students (current c))).

(** [SUM(CASE WHEN status = ? THEN 1 ELSE 0 END)]: NULL over no rows. *)
Definition sum_case (status : string) (l : list (Z * attendance_row)) : option Z :=
  match l with
  | [] => None
  | _ => Some (fold_right (fun x n => (if (a_status (snd x) =? status)%string
                                       then 1 else 0) + n) 0 l)
  end.

(** [value or 0] on a column that may be NULL. *)
Definition or_zero (o : option Z) : Z :=
  match o with
  | Some n => n
  | None => 0
  end.

(** The aggregate of [student_report] over [attendance WHERE
    student_id = ?] and the arithmetic that follows it. *)
Definition attendance_of (c : connection) (student_id : Z) : attendance_summary :=
  let mine := filter (fun x => value_eqb (a_student_id (snd x)) (VInt student_id))
                     (rows (t_attendance (current c))) in
  let total := or_zero (Some (Z.of_nat (List.length mine))) in
  let pres := or_zero (sum_case "Present" mine) in
  let abs_ := or_zero (sum_case "Absent" mine) in
  {| total_days := total; present := pres; absent := abs_;
     attendance_percent := percentage pres total |}.

Definition student_report (student_id : Z) (c : connection) : reply :=
  match select_student c student_id with
  | None => redirect c [("Student not found.", "danger")] "students"
  | Some student =>
      {| conn := c; flashed := [];
         resp := StudentReport student (attendance_of c student_id) |}
  end.

(** One turn of the loop of [reports] over a row of its grouped query:
    the columns [total_days], [present_count] and [absent_count]. *)
Definition report_row (total_days present_count absent_count : option Z)
  : attendance_summary :=
  let total := or_zero total_days in
  let pres := or_zero present_count in
  {| total_days := total; present := pres; absent := or_zero absent_count;
     attendance_percent := percentage pres total |}.

End Handlers.

(* ================================================================= *)
(** ** Constraints of the schema as properties of a store *)

Fixpoint distinct (A : Type) (same : A -> A -> bool) (l : list A) : bool :=
  match l with
  | [] => true
  | x :: rest => negb (existsb (same x) rest) && distinct same rest
  end.

(** [id INTEGER PRIMARY KEY] of [students]. *)
Definition student_ids_unique (d : database) : Prop :=
  distinct Z.eqb (ids (t_students d)) = true.

(** [UNIQUE(student_id, date)] of [attendance]. *)
Definition attendance_unique (d : database) : Prop :=
  distinct (fun x => same_mark (a_student_id (snd x)) (a_date (snd x)))
           (rows (t_attendance d)) = true.

(** [CHECK(status IN ('Present','Absent'))] of [attendance]. *)
Definition statuses_valid (d : database) : Prop :=
  forallb (fun x => valid_status (a_status (snd x))) (rows (t_attendance d)) = true.

(** The attendance records of one date. *)
Definition records_on (date : string) (d : database) : list (Z * attendance_row) :=
  filter (fun x => (a_date (snd x) =? date)%string) (rows (t_attendance d)).

(** Is a student marked on a date? *)
Definition marked (d : database) (date : string) (sid : Z) : bool :=
  existsb (same_mark (VInt sid) date) (rows (t_attendance d)).

(** The row that [bulk_attendance] inserts for a student. *)
Definition bulk_row (f : form) (date : string) (sid : Z) : attendance_row :=
  {| a_student_id := VInt sid; a_date := date;
     a_status := form_get f ("status_" ++ str_of_Z sid) "Present" |}.

(** The join row of a fresh assignment. *)
Definition pending_row (task_id sid : Z) : student_task_row :=
  {| st_task_id := task_id; st_student_id := sid;
     st_status := "Pending"; st_completed_date := None |}.

(** Is a student assigned to a task? *)
Definition assigned (d : database) (task_id sid : Z) : bool :=
  existsb (same_assignment task_id sid) (rows (t_student_tasks d)).

(** [enumerate(l)], counting from [i]. *)
Fixpoint enumerate_from (A : Type) (i : nat) (l : list A) : list (nat * A) :=
  match l with
  | [] => []
  | x :: rest => (i, x) :: enumerate_from (S i) rest
  end.

(** Does an index position of a bulk marks form carry both scores? *)
Definition has_scores (marks_obtained_list max_marks_list : list string)
           (p : nat * string) : bool :=
  truthy (nth (fst p) marks_obtained_list "") && truthy (nth (fst p) max_marks_list "").

(** The positions of a bulk marks form that carry both scores, each
    with its student id. *)
Definition scored_entries (student_ids marks_obtained_list max_marks_list : list string)
  : list (nat * string) :=
  filter (has_scores marks_obtained_list max_marks_list) (enumerate_from 0 student_ids).

(** The mark row that [bulk_marks] inserts for a position. *)
Definition bulk_mark_row (integer_affinity : string -> value)
           (subject_id exam_type : string) (exam_date : option string) (remarks : string)
           (marks_obtained_list max_marks_list : list string) (p : nat * string)
  : mark_row :=
  {| m_student_id := integer_affinity (snd p);
     m_subject_id := integer_affinity subject_id;
     m_exam_type := exam_type;
     m_marks_obtained := nth (fst p) marks_obtained_list "";
     m_max_marks := nth (fst p) max_marks_list "";
     m_exam_date := exam_date;
     m_remarks := remarks |}.

(** The task and the student of a join row. *)
Definition task_of (x : Z * student_task_row) : Z := st_task_id (snd x).
Definition student_of (x : Z * student_task_row) : Z := st_student_id (snd x).

(** The join rows that reconciling task [task_id] with the selection
    [selected] deletes, and those it keeps. *)
Definition dropped (task_id : Z) (selected : list Z) (x : Z * student_task_row) : bool :=
  (task_of x =? task_id) && negb (mem (student_of x) selected).

Definition kept (task_id : Z) (selected : list Z) (x : Z * student_task_row) : bool :=
  negb (dropped task_id selected x).

(** The fields a student form must carry, and carry non-empty once
    stripped, to get past validation. *)
Definition student_form_ok (f : form) (u e : string) : Prop :=
  exists usn_ name_ email_ phone_ cls dept,
    form_item f "usn" = Some usn_ /\ form_item f "name" = Some name_ /\
    form_item f "email" = Some email_ /\ form_item f "phone" = Some phone_ /\
    form_item f "class" = Some cls /\ form_item f "department" = Some dept /\
    strip usn_ = u /\ strip email_ = e /\
    truthy u = true /\ truthy (strip name_) = true /\ truthy e = true /\
    truthy (strip cls) = true /\ truthy (strip dept) = true.


(* ================================================================= *)
(** ** Sample stores *)

Module Sample.

Definition student (u e cls dept : string) : student_row :=
  {| usn := u; name := "Asha"; email := e; phone := ""; class_ := cls;
     department := dept; parent_name := ""; parent_phone := ""; parent_email := "" |}.

Definition mark_of (sid : Z) (date status : string) : attendance_row :=
  {| a_student_id := VInt sid; a_date := date; a_status := status |}.

(** Two students in different classes; the second is marked present on
    one date, is assigned to task 1 and has one mark. *)
Definition store : database :=
  {| t_students :=
       {| rows := [(1, student "U1" "a@x.org" "A" "BCA");
                   (2, student "U2" "b@x.org" "B" "BCA")];
          autoinc := 2 |};
     t_attendance :=
       {| rows := [(1, mark_of 2 "2024-01-01" "Present")]; autoinc := 1 |};
     t_tasks :=
       {| rows := [(1, {| title := "Essay"; t_description := "";
                          due_date := "2024-02-01" |})];
          autoinc := 1 |};
     t_student_tasks :=
       {| rows := [(1, {| st_task_id := 1; st_student_id := 2;
                          st_status := "Completed";
                          st_completed_date := Some "2024-01-15" |})];
          autoinc := 1 |};
     t_subjects :=
       {| rows := [(1, {| s_name := "Algebra"; s_course := "BSc";
                          s_semester := VInt 1; s_description := "" |})];
          autoinc := 1 |};
     t_marks :=
       {| rows := [(1, {| m_student_id := VInt 2; m_subject_id := VInt 1;
                          m_exam_type := "Midterm"; m_marks_obtained := "40";
                          m_max_marks := "50"; m_exam_date := None;
                          m_remarks := "" |})];
          autoinc := 1 |} |}.

(** Three days present and one absent for student 1. *)
Definition four_days : database :=
  set_attendance store
    {| rows := [(1, mark_of 1 "2024-01-01" "Present");
                (2, mark_of 1 "2024-01-02" "Absent");
                (3, mark_of 1 "2024-01-03" "Present");
                (4, mark_of 1 "2024-01-04" "Present")];
       autoinc := 4 |}.

(** One day present and two absent for student 1. *)
Definition three_days : database :=
  set_attendance store
    {| rows := [(1, mark_of 1 "2024-01-01" "Present");
                (2, mark_of 1 "2024-01-02" "Absent");
                (3, mark_of 1 "2024-01-03" "Absent")];
       autoinc := 3 |}.

Definition student_form (u e : string) : form :=
  [("usn", u); ("name", "Ravi"); ("email", e); ("phone", "");
   ("class", "A"); ("department", "BCA")].

Definition subject_form (n co semester : string) : form :=
  [("name", n); ("course", co); ("semester", semester); ("description", "")].

(** A bulk attendance form for one date, for every student. *)
Definition bulk_form : form := [("date", "2024-01-01")].

(** The same restricted to class A, which student 1 alone is in. *)
Definition class_a_form : form := [("date", "2024-01-01"); ("class_filter", "A")].

(** A bulk form that submits a status outside the CHECK for student 1. *)
Definition late_form : form := [("date", "2024-01-01"); ("status_1", "Late")].

(** A second mark for student 2 on the date that is already recorded. *)
Definition mark_form : form := [("student_id", "2"); ("status", "Absent")].

(** Selections for task 1, to which student 2 alone is assigned: both
    students, and student 1 only. *)
Definition both_selected : form := [("student_ids", "2"); ("student_ids", " 1 ")].
Definition first_selected : form := [("student_ids", "1")].

(** A bulk marks form with two students, one score obtained and two
    maximum scores. *)
Definition marks_form : form :=
  [("subject_id", "1"); ("exam_type", " Quiz "); ("student_ids", "1");
   ("student_ids", "2"); ("marks_obtained", "7"); ("max_marks", "10");
   ("max_marks", "10")].

End Sample.

(* ================================================================= *)
(** ** Tasks, marks and deletions: the statements *)

Definition set_tasks (d : database) (t : table task_row) : database :=
  {| t_students := t_students d; t_attendance := t_attendance d; t_tasks := t;
     t_student_tasks := t_student_tasks d; t_subjects := t_subjects d;
     t_marks := t_marks d |}.

(** [INSERT INTO tasks (title, description, due_date)], with the
    [lastrowid] of the cursor.  The three columns are bound as strings
    and the table has no other constraint, so the statement cannot
    fail. *)
Definition insert_task (c : connection) (r : task_row) : connection * Z :=
  let d := current c in
  (with_current c (set_tasks d (append_row (t_tasks d) r)), next_rowid (t_tasks d)).

(** [UPDATE student_tasks SET status = ?, completed_date = ? WHERE ...]
    on the rows that [p] selects; both statuses the handlers write
    satisfy the CHECK. *)
Definition update_student_tasks (c : connection) (p : Z * student_task_row -> bool)
           (status : string) (completed_date : option string) : connection :=
  let d := current c in
  with_current c
    (set_student_tasks d
       (update_where p
          (fun r => {| st_task_id := st_task_id r; st_student_id := st_student_id r;
                       st_status := status; st_completed_date := completed_date |})
          (t_student_tasks d))).

(** The rows of [WHERE task_id = ? AND status = 'Pending']. *)
Definition pending_of (task_id : Z) (x : Z * student_task_row) : bool :=
  (st_task_id (snd x) =? task_id) && (st_status (snd x) =? "Pending")%string.

(** [DELETE FROM tasks WHERE id = ?], cascading to [student_tasks] when
    foreign keys are enforced. *)
Definition delete_from_tasks (c : connection) (id : Z) : connection :=
  let d := current c in
  let d1 := set_tasks d (delete_where (fun x => fst x =? id) (t_tasks d)) in
  if foreign_keys c && has_rowid (t_tasks d) id
  then with_current c
         (set_student_tasks d1
            (delete_where (fun x => st_task_id (snd x) =? id) (t_student_tasks d1)))
  else with_current c d1.

(** [DELETE FROM subjects WHERE id = ?], cascading to [marks] when
    foreign keys are enforced. *)
Definition delete_from_subjects (c : connection) (id : Z) : connection :=
  let d := current c in
  let d1 := set_subjects d (delete_where (fun x => fst x =? id) (t_subjects d)) in
  if foreign_keys c && has_rowid (t_subjects d) id
  then with_current c
         (set_marks d1
            (delete_where (fun x => value_eqb (m_subject_id (snd x)) (VInt id))
                          (t_marks d1)))
  else with_current c d1.

(** [DELETE FROM marks WHERE id = ?] *)
Definition delete_from_marks (c : connection) (id : Z) : connection :=
  let d := current c in
  with_current c (set_marks d (delete_where (fun x => fst x =? id) (t_marks d))).

(** [UPDATE marks SET ... WHERE id = ?]: the two foreign keys when
    enforced and a row is updated. *)
Definition update_mark (c : connection) (id : Z) (r : mark_row) : exec :=
  let d := current c in
  if foreign_keys c && has_rowid (t_marks d) id
     && negb (refers_to (t_students d) (m_student_id r)
              && refers_to (t_subjects d) (m_subject_id r))
  then IntegrityError FOREIGN_KEY
  else Done (with_current c
               (set_marks d (update_where (fun x => fst x =? id) (fun _ => r) (t_marks d)))).

(** The text of the exception, [str(e)], up to the names of the columns
    that follow it for UNIQUE and CHECK; [marks] can only raise the
    foreign key failure. *)
Definition error_text (k : constraint) : string :=
  match k with
  | UNIQUE => "UNIQUE constraint failed"
  | CHECK => "CHECK constraint failed"
  | FOREIGN_KEY => "FOREIGN KEY constraint failed"
  end.

(* ================================================================= *)
(** ** Tasks, marks and deletions: the handlers *)

(** The loop of [tasks] over the students: a failed insert is passed
    over. *)
Fixpoint assign_all_each (task_id : Z) (students : list Z) (c : connection) : connection :=
  match students with
  | [] => c
  | sid :: rest =>
      match insert_student_task c task_id sid with
      | Done c' => assign_all_each task_id rest c'
      | IntegrityError _ => assign_all_each task_id rest c
      end
  end.

(** Is the optional field of a form present and not empty? *)
Definition checked (f : form) (k : string) : bool :=
  match form_item f k with
  | Some s => truthy s
  | None => false
  end.

Definition double_quote : string := String (ascii_of_nat 34) EmptyString.

Definition task_added_message : flash :=
  ("Task added. Use " ++ double_quote ++ "Assign" ++ double_quote
   ++ " to assign to students.", "success").

(** The POST branch of [tasks].  The insert of the task is committed
    only on the branch that assigns it to all students. *)
Definition tasks (f : form) (c : connection) : reply :=
  let? title_ := f @ "title" on c in
  let? description_ := f @ "description" on c in
  let? due_date_ := f @ "due_date" on c in
  if negb (truthy (strip title_)) || negb (truthy due_date_)
  then redirect c [("Title and due date are required.", "danger")] "tasks"
  else
    let '(c1, task_id) :=
      insert_task c {| title := strip title_; t_description := strip description_;
                       due_date := due_date_ |} in
    if checked f "assign_all"
    then
      let students := map fst (rows (t_students (current c1))) in
      let c2 := assign_all_each task_id students c1 in
      redirect (commit c2) [("Task added and assigned to all students.", "success")] "tasks"
    else redirect c1 [task_added_message] "tasks".

(** [today] is [datetime.today().strftime('%Y-%m-%d')]. *)
Definition complete_task (today : string) (task_id student_id : Z) (c : connection) : reply :=
  redirect (commit (update_student_tasks c (same_assignment task_id student_id)
                                         "Completed" (Some today)))
           [("Task marked as completed.", "success")] "task_detail".

Definition reset_task (task_id student_id : Z) (c : connection) : reply :=
  redirect (commit (update_student_tasks c (same_assignment task_id student_id)
                                         "Pending" None))
           [("Task status reset.", "success")] "task_detail".

Definition bulk_complete_task (today : string) (task_id : Z) (c : connection) : reply :=
  redirect (commit (update_student_tasks c (pending_of task_id) "Completed" (Some today)))
           [("All pending students marked as completed.", "success")] "task_detail".

Definition assign_task_to_student (task_id student_id : Z) (c : connection) : reply :=
  match insert_student_task c task_id student_id with
  | Done c' => redirect (commit c') [("Task assigned to student.", "success")] "task_detail"
  | IntegrityError _ =>
      redirect c [("Task already assigned to this student.", "warning")] "task_detail"
  end.

Definition delete_task (id : Z) (c : connection) : reply :=
  redirect (commit (delete_from_tasks c id)) [("Task deleted.", "success")] "tasks".

Definition delete_subject (id : Z) (c : connection) : reply :=
  redirect (commit (delete_from_subjects c id)) [("Subject deleted.", "success")] "subjects".

Definition delete_mark (id : Z) (c : connection) : reply :=
  redirect (commit (delete_from_marks c id)) [("Marks deleted.", "success")] "marks".

Section MarkHandlers.

Variable integer_affinity : string -> value.

(** The row that [marks] and [edit_mark] bind from the form. *)
Definition mark_of_form (f : form) (student_id subject_id exam_type_ marks_obtained
                         max_marks : string) : mark_row :=
  {| m_student_id := integer_affinity student_id;
     m_subject_id := integer_affinity subject_id;
     m_exam_type := strip exam_type_;
     m_marks_obtained := marks_obtained;
     m_max_marks := max_marks;
     m_exam_date := or_none (form_item f "exam_date");
     m_remarks := strip (form_get f "remarks" "") |}.

(** [all([student_id, subject_id, exam_type, marks_obtained, max_marks])] *)
Definition all_given (student_id subject_id exam_type_ marks_obtained max_marks : string)
  : bool :=
  truthy student_id && truthy subject_id && truthy (strip exam_type_)
  && truthy marks_obtained && truthy max_marks.

(** The POST branch of [marks]. *)
Definition marks (f : form) (c : connection) : reply :=
  let? student_id := f @ "student_id" on c in
  let? subject_id := f @ "subject_id" on c in
  let? exam_type_ := f @ "exam_type" on c in
  let? marks_obtained := f @ "marks_obtained" on c in
  let? max_marks := f @ "max_marks" on c in
  if negb (all_given student_id subject_id exam_type_ marks_obtained max_marks)
  then redirect c [("All fields except remarks are required.", "danger")] "marks"
  else
    match insert_mark c (mark_of_form f student_id subject_id exam_type_ marks_obtained
                                      max_marks) with
    | Done c' => redirect (commit c') [("Marks added successfully.", "success")] "marks"
    | IntegrityError k =>
        redirect c [("Error adding marks: " ++ error_text k, "danger")] "marks"
    end.

Definition edit_mark (id : Z) (f : form) (c : connection) : reply :=
  let? student_id := f @ "student_id" on c in
  let? subject_id := f @ "subject_id" on c in
  let? exam_type_ := f @ "exam_type" on c in
  let? marks_obtained := f @ "marks_obtained" on c in
  let? max_marks := f @ "max_marks" on c in
  if negb (all_given student_id subject_id exam_type_ marks_obtained max_marks)
  then redirect c [("All fields except remarks are required.", "danger")] "marks"
  else
    match update_mark c id (mark_of_form f student_id subject_id exam_type_ marks_obtained
                                         max_marks) with
    | Done c' => redirect (commit c') [("Marks updated successfully.", "success")] "marks"
    | IntegrityError _ => server_error c
    end.

End MarkHandlers.

(* ================================================================= *)
(** ** The class report *)

(** [ORDER BY] on text columns compares bytes.  Rows that compare equal
    keep the order they come in; the engine promises no order for
    them. *)
Fixpoint insert_sorted (A : Type) (le : A -> A -> bool) (x : A) (l : list A) : list A :=
  match l with
  | [] => [x]
  | y :: rest => if le x y then x :: l else y :: insert_sorted le x rest
  end.

Definition order_by (A : Type) (le : A -> A -> bool) (l : list A) : list A :=
  fold_right (insert_sorted le) [] l.

(** [ORDER BY s.class, s.department, s.name] *)
Definition by_class_department_name (x y : Z * student_row) : bool :=
  match String.compare (class_ (snd x)) (class_ (snd y)) with
  | Lt => true
  | Gt => false
  | Eq =>
      match String.compare (department (snd x)) (department (snd y)) with
      | Lt => true
      | Gt => false
      | Eq => String.leb (name (snd x)) (name (snd y))
      end
  end.

(** The attendance rows that the LEFT JOIN pairs with a student. *)
Definition joined (c : connection) (student_id : Z) : list (Z * attendance_row) :=
  filter (fun a => value_eqb (a_student_id (snd a)) (VInt student_id))
         (rows (t_attendance (current c))).

(** [SUM(CASE WHEN a.status = ? THEN 1 ELSE 0 END)] over the group of a
    student: a student without attendance is one row of the join with
    a NULL status, so the sum is 0 and never NULL. *)
Definition sum_case_joined (status : string) (l : list (Z * attendance_row)) : option Z :=
  Some (fold_right (fun x n => (if (a_status (snd x) =? status)%string then 1 else 0) + n)
                   0 l).

Record report_entry := {
  r_id : Z;
  r_name : string;
  r_class : string;
  r_department : string;
  r_summary : attendance_summary
}.

(** The value of [report] that [reports] hands to its template;
    [args] is the query string. *)
Definition reports (args : form) (c : connection) : list report_entry :=
  let class_filter := form_get args "class_filter" "All" in
  let dept_filter := form_get args "dept_filter" "All" in
  let students_data :=
    order_by by_class_department_name
      (filter (fun x => matches (filter_on (Some class_filter)) (class_ (snd x))
                        && matches (filter_on (Some dept_filter)) (department (snd x)))
              (rows (t_students (current c)))) in
  map (fun x =>
         {| r_id := fst x; r_name := name (snd x); r_class := class_ (snd x);
            r_department := department (snd x);
            r_summary :=
              report_row (Some (Z.of_nat (List.length (joined c (fst x)))))
                         (sum_case_joined "Present" (joined c (fst x)))
                         (sum_case_joined "Absent" (joined c (fst x))) |})
      students_data.

(* ================================================================= *)
(** ** The dashboard *)

(** The totals of the dashboard over all students and all attendance
    records. *)
Record dashboard_totals := {
  total_students : Z;
  total_attendance : Z;
  present_count : Z;
  absent_count : Z;
  overall_percent : number
}.

Definition dashboard_overall (c : connection) : dashboard_totals :=
  let students := Z.of_nat (List.length (rows (t_students (current c)))) in
  let total := Z.of_nat (List.length (rows (t_attendance (current c)))) in
  let pres :=
    Z.of_nat (List.length (filter (fun a => (a_status (snd a) =? "Present")%string)
                                  (rows (t_attendance (current c))))) in
  {| total_students := students; total_attendance := total; present_count := pres;
     absent_count := total - pres; overall_percent := percentage pres total |}.

(** A row of the breakdown by department for the selected date. *)
Record department_row := {
  dr_department : string;
  dr_total_students : Z;
  dr_present : Z;
  dr_absent : Z
}.

(** The attendance rows that [LEFT JOIN attendance a ON s.id =
    a.student_id AND a.date = ?] pairs with a student. *)
Definition marks_on (c : connection) (date : string) (student_id : Z)
  : list (Z * attendance_row) :=
  filter (same_mark (VInt student_id) date) (rows (t_attendance (current c))).

(** The rows of the join for one student: one per attendance row, and
    one with NULLs when there is none. *)
Definition join_rows (c : connection) (date : string) (student_id : Z) : Z :=
  Z.max 1 (Z.of_nat (List.length (marks_on c date student_id))).

Definition count_status (status : string) (l : list (Z * attendance_row)) : Z :=
  Z.of_nat (List.length (filter (fun a => (a_status (snd a) =? status)%string) l)).

Definition sum_over (A : Type) (g : A -> Z) (l : list A) : Z :=
  fold_right (fun x n => g x + n) 0 l.

Definition in_department (dept : string) (x : Z * student_row) : bool :=
  (department (snd x) =? dept)%string.

(** The groups of [GROUP BY s.department ORDER BY s.department]. *)
Definition departments (c : connection) : list string :=
  order_by String.leb
           (nodup string_dec (map (fun x => department (snd x))
                                  (rows (t_students (current c))))).

(** The value of [dept_attendance] that [dashboard] hands to its
    template. *)
Definition dept_attendance (selected_date : string) (c : connection)
  : list department_row :=
  map (fun dept =>
         let members := filter (in_department dept) (rows (t_students (current c))) in
         {| dr_department := dept;
            dr_total_students := sum_over (fun x => join_rows c selected_date (fst x)) members;
            dr_present :=
              sum_over (fun x => count_status "Present" (marks_on c selected_date (fst x)))
                       members;
            dr_absent :=
              sum_over (fun x => count_status "Absent" (marks_on c selected_date (fst x)))
                       members |})
      (departments c).

(* ================================================================= *)
(** ** More sample forms *)

Module Cases.

Definition task_form : form :=
  [("title", " Essay 2 "); ("description", ""); ("due_date", "2024-03-01")].

Definition task_form_for_all : form := (task_form ++ [("assign_all", "on")])%list.

Definition new_student : form := Sample.student_form "U9" "z@x.org".


Definition blank_usn : form := Sample.student_form "   " "z@x.org".

Definition mark_entry : form :=
  [("student_id", "1"); ("subject_id", "1"); ("exam_type", "Final");
   ("marks_obtained", "61"); ("max_marks", "100")].

Definition first_present : form :=
  [("student_id", "1"); ("status", "Present"); ("date", "2024-01-05")].

(** A selection one of whose ids does not read as an integer, and the
    selection of no student. *)
Definition unparsed_selection : form := [("student_ids", "1"); ("student_ids", "two")].
Definition nobody_selected : form := [].

End Cases.

(* ================================================================= *)
(** ** Further constraints of the schema *)

(** [usn TEXT UNIQUE] and [email TEXT UNIQUE] of [students]. *)
Definition usn_unique (d : database) : Prop :=
  distinct (fun x y => (usn (snd x) =? usn (snd y))%string) (rows (t_students d)) = true.

Definition email_unique (d : database) : Prop :=
  distinct (fun x y => (email (snd x) =? email (snd y))%string) (rows (t_students d))
  = true.

(** [UNIQUE(task_id, student_id)] of [student_tasks]. *)
Definition assignments_unique (d : database) : Prop :=
  distinct (fun x => same_assignment (st_task_id (snd x)) (st_student_id (snd x)))
           (rows (t_student_tasks d)) = true.

(** The unique index of [subjects] on (name, course, semester). *)
Definition subjects_unique (d : database) : Prop :=
  distinct (fun x => same_subject (s_name (snd x)) (s_course (snd x)) (s_semester (snd x)))
           (rows (t_subjects d)) = true.

(** No id of the table is above the counter of [sqlite_sequence], as in
    every table that only AUTOINCREMENT has filled. *)
Definition sequenced (R : Type) (t : table R) : Prop :=
  forallb (fun x => fst x <=? autoinc t) (rows t) = true.

(** The constraints of [students] together. *)
Definition students_ok (d : database) : Prop :=
  student_ids_unique d /\ usn_unique d /\ email_unique d /\ sequenced (t_students d).

(** The keys of the two constraints. *)
Definition pair_of (x : Z * student_task_row) : Z * Z := (task_of x, student_of x).

Definition triple_of (r : subject_row) : string * string * value :=
  (s_name r, s_course r, s_semester r).

(** The primary key and the unique index of [subjects] together. *)
Definition subjects_ok (d : database) : Prop :=
  distinct Z.eqb (ids (t_subjects d)) = true /\ subjects_unique d.

(* ================================================================= *)
(** ** Basic facts *)

Unset Implicit Arguments.
Local Open Scope list_scope.

(** A fresh connection sees the stored database. *)
Ltac fresh_connection :=
  repeat match goal with
         | |- context [current (get_db ?d)] => change (current (get_db d)) with d
         | |- context [stored (get_db ?d)] => change (stored (get_db d)) with d
         | |- context [foreign_keys (get_db ?d)] =>
             change (foreign_keys (get_db d)) with false
         end.

Lemma value_eqb_spec (a b : value) : reflect (a = b) (value_eqb a b).
Proof.
  destruct a as [n|s], b as [m|t]; simpl; try (constructor; congruence).
  - destruct (Z.eqb_spec n m); constructor; congruence.
  - destruct (String.eqb_spec s t); constructor; congruence.
Qed.

Lemma set_attendance_same (d : database) : set_attendance d (t_attendance d) = d.
Proof. destruct d; reflexivity. Qed.

Lemma set_student_tasks_same (d : database) :
  set_student_tasks d (t_student_tasks d) = d.
Proof. destruct d; reflexivity. Qed.

Lemma existsb_In (A : Type) (p : A -> bool) (l : list A) (x : A) :
  In x l -> p x = true -> existsb p l = true.
Proof. intros Hin Hp. apply existsb_exists. exists x. split; assumption. Qed.

Lemma existsb_false_In (A : Type) (p : A -> bool) (l : list A) (x : A) :
  existsb p l = false -> In x l -> p x = false.
Proof.
  intros Hex Hin. destruct (p x) eqn:Hp; [|reflexivity].
  rewrite (existsb_In A p l x Hin Hp) in Hex. discriminate.
Qed.

Lemma find_some_of (A : Type) (p : A -> bool) (l : list A) (x : A) :
  In x l -> p x = true -> exists y, find p l = Some y.
Proof.
  intros Hin Hp. destruct (find p l) as [y|] eqn:Hf.
  - exists y. reflexivity.
  - rewrite (find_none p l Hf x Hin) in Hp. discriminate.
Qed.

(* ================================================================= *)
(** ** Students *)

Lemma insert_student_duplicate (c : connection) (r : student_row) (other : Z * student_row) :
  In other (rows (t_students (current c))) ->
  usn (snd other) = usn r \/ email (snd other) = email r ->
  insert_student c r = IntegrityError UNIQUE.
Proof.
  intros Hin Hsame. unfold insert_student.
  rewrite (existsb_In _ _ _ other Hin); [reflexivity|].
  apply orb_true_iff.
  destruct Hsame as [H|H]; [left|right]; apply String.eqb_eq; exact H.
Qed.

Lemma select_other_student_found (c : connection) (u e : string) (id : Z)
      (other : Z * student_row) :
  In other (rows (t_students (current c))) ->
  fst other <> id ->
  usn (snd other) = u \/ email (snd other) = e ->
  exists found, select_other_student c u e id = Some found.
Proof.
  intros Hin Hid Hsame. unfold select_other_student.
  destruct (find_some_of _
                (fun x => ((usn (snd x) =? u) || (email (snd x) =? e))%string
                          && negb (fst x =? id)) _ other Hin) as [y Hy].
  - apply andb_true_iff. split.
    + apply orb_true_iff.
      destruct Hsame as [H|H]; [left|right]; apply String.eqb_eq; exact H.
    + apply negb_true_iff, Z.eqb_neq. exact Hid.
  - rewrite Hy. exists (fst y). reflexivity.
Qed.

(** C9. For a form of ASCII text that passes validation: creating a
    student whose usn or email (as stored, stripped) is that of an
    existing student is answered with the duplicate message and leaves
    the store, and so the first student, as it was; editing the student
    of an id within 64 bits to a usn or email held by a student with
    another id is rejected the same way. *)
Theorem student_usn_email_duplicate_rejected :
  forall (d : database) (f : form) (u e : string),
    ascii_form f = true ->
    student_form_ok f u e ->
    (forall other,
        In other (rows (t_students d)) ->
        usn (snd other) = u \/ email (snd other) = e ->
        serve (add_student f) d
        = (d, [("USN or Email already exists.", "danger")], Redirect "students"))
    /\
    (forall id other,
        int64 id = true ->
        In other (rows (t_students d)) ->
        fst other <> id ->
        usn (snd other) = u \/ email (snd other) = e ->
        serve (edit_student id f) d
        = (d, [("USN or Email already in use by another student.", "danger")],
           Redirect "students")).
Proof.
  intros d f u e _ (usn_ & name_ & email_ & phone_ & cls & dept & Hu & Hn & He & Hp & Hc
                    & Hd & Su & Se & Tu & Tn & Te & Tc & Td).
  split.
  - intros other Hin Hsame.
    unfold serve, add_student. rewrite Hu, Hn, He, Hp, Hc, Hd.
    cbv beta iota zeta. cbn [usn name email class_ department].
    rewrite Su, Se, Tu, Tn, Te, Tc, Td. cbn [negb orb].
    erewrite insert_student_duplicate;
      [reflexivity | exact Hin | cbn [usn email]; exact Hsame].
  - intros id other _ Hin Hid Hsame.
    unfold serve, edit_student. rewrite Hu, Hn, He, Hp, Hc, Hd.
    cbv beta iota zeta. cbn [usn name email class_ department].
    rewrite Su, Se, Tu, Tn, Te, Tc, Td. cbn [negb orb].
    destruct (select_other_student_found (get_db d) u e id other Hin Hid Hsame) as [y Hy].
    rewrite Hy. reflexivity.
Qed.

(* ================================================================= *)
(** ** Subjects *)

Section Subjects.

Variable integer_affinity : string -> value.

Lemma same_subject_intro (n co : string) (sem : value) (x : Z * subject_row) :
  s_name (snd x) = n -> s_course (snd x) = co -> s_semester (snd x) = sem ->
  same_subject n co sem x = true.
Proof.
  intros Hn Hc Hs. unfold same_subject.
  rewrite (proj2 (String.eqb_eq _ _) Hn), (proj2 (String.eqb_eq _ _) Hc).
  destruct (value_eqb_spec (s_semester (snd x)) sem); [reflexivity | contradiction].
Qed.

Lemma same_subject_elim (n co : string) (sem : value) (x : Z * subject_row) :
  same_subject n co sem x = true ->
  s_name (snd x) = n /\ s_course (snd x) = co /\ s_semester (snd x) = sem.
Proof.
  unfold same_subject. intros H.
  apply andb_true_iff in H. destruct H as [H Hs].
  apply andb_true_iff in H. destruct H as [Hn Hc].
  apply String.eqb_eq in Hn. apply String.eqb_eq in Hc.
  destruct (value_eqb_spec (s_semester (snd x)) sem); [auto | discriminate].
Qed.


End Subjects.

(* ================================================================= *)
(** ** Single attendance marks *)

Lemma same_mark_iff (sid : value) (date : string) (x : Z * attendance_row) :
  same_mark sid date x = true <-> a_student_id (snd x) = sid /\ a_date (snd x) = date.
Proof.
  unfold same_mark. rewrite andb_true_iff, String.eqb_eq.
  destruct (value_eqb_spec (a_student_id (snd x)) sid); intuition congruence.
Qed.

Lemma filter_none (A : Type) (p : A -> bool) (l : list A) :
  existsb p l = false -> filter p l = [].
Proof.
  induction l as [|x l IH]; simpl; [reflexivity|].
  intros H. apply orb_false_iff in H. destruct H as [Hx Hl].
  rewrite Hx. exact (IH Hl).
Qed.

Lemma unique_mark_once (l : list (Z * attendance_row)) (sid : value) (date : string) :
  distinct (fun x => same_mark (a_student_id (snd x)) (a_date (snd x))) l = true ->
  existsb (same_mark sid date) l = true ->
  List.length (filter (same_mark sid date) l) = 1%nat.
Proof.
  induction l as [|x l IH]; simpl; [discriminate|].
  intros Hd Hex. apply andb_true_iff in Hd. destruct Hd as [Hx Hd].
  apply negb_true_iff in Hx.
  destruct (same_mark sid date x) eqn:Hm.
  - apply same_mark_iff in Hm. destruct Hm as [Hs Hdt]. rewrite Hs, Hdt in Hx.
    rewrite (filter_none _ _ _ Hx). reflexivity.
  - simpl in Hex. exact (IH Hd Hex).
Qed.

Section Attendance.

Variable integer_affinity : string -> value.

(** C5. When the store already holds a record for the student and the
    date of a single mark, the handler answers with the duplicate
    message and leaves the store as it was, whatever status is
    submitted; the pair then has exactly one record. *)
Theorem attendance_duplicate_rejected :
  forall (d : database) (today : string) (f : form) (student_id status : string),
    form_item f "student_id" = Some student_id ->
    form_item f "status" = Some status ->
    attendance_unique d ->
    let sid := integer_affinity student_id in
    let date := form_get f "date" today in
    existsb (same_mark sid date) (rows (t_attendance d)) = true ->
    let '(d', msgs, r) := serve (attendance integer_affinity today f) d in
    d' = d
    /\ msgs = [("Attendance for this student on this date already exists.", "danger")]
    /\ r = Redirect "attendance"
    /\ List.length (filter (same_mark sid date) (rows (t_attendance d'))) = 1%nat.
Proof.
  intros d today f student_id status Hsid Hst Huniq sid date Hex.
  unfold serve, attendance. rewrite Hsid, Hst. cbv zeta.
  unfold insert_attendance. fresh_connection.
  fold sid. fold date. rewrite Hex.
  destruct (negb (valid_status status)); cbn;
    (repeat split; try reflexivity; exact (unique_mark_once _ _ _ Huniq Hex)).
Qed.

(** Marking a pair that has no record yet, with a status the CHECK
    admits, stores the record. *)
Lemma attendance_first_mark :
  forall (d : database) (today : string) (f : form) (student_id status : string),
    form_item f "student_id" = Some student_id ->
    form_item f "status" = Some status ->
    valid_status status = true ->
    let sid := integer_affinity student_id in
    let date := form_get f "date" today in
    existsb (same_mark sid date) (rows (t_attendance d)) = false ->
    serve (attendance integer_affinity today f) d
    = (set_attendance d
         (append_row (t_attendance d)
            {| a_student_id := sid; a_date := date; a_status := status |}),
       [("Attendance marked successfully.", "success")], Redirect "attendance").
Proof.
  intros d today f student_id status Hsid Hst Hv sid date Hex.
  unfold serve, attendance. rewrite Hsid, Hst. cbv zeta.
  unfold insert_attendance. fresh_connection.
  fold sid. fold date. rewrite Hex, Hv. reflexivity.
Qed.

(** Marking the same pair twice in a row: the first mark is stored, the
    second is refused, and the pair has one record, with the status of
    the first mark. *)
Lemma attendance_marked_twice :
  forall (d : database) (today : string) (f g : form) (student_id status status' : string),
    form_item f "student_id" = Some student_id ->
    form_item f "status" = Some status ->
    form_item g "student_id" = Some student_id ->
    form_item g "status" = Some status' ->
    form_get g "date" today = form_get f "date" today ->
    valid_status status = true ->
    attendance_unique d ->
    let sid := integer_affinity student_id in
    let date := form_get f "date" today in
    existsb (same_mark sid date) (rows (t_attendance d)) = false ->
    let d1 := fst (fst (serve (attendance integer_affinity today f) d)) in
    serve (attendance integer_affinity today g) d1
    = (d1, [("Attendance for this student on this date already exists.", "danger")],
       Redirect "attendance")
    /\ filter (same_mark sid date) (rows (t_attendance d1))
       = [(next_rowid (t_attendance d),
           {| a_student_id := sid; a_date := date; a_status := status |})].
Proof.
  intros d today f g student_id status status' Hsid Hst Hsid' Hst' Hdate Hv Huniq
         sid date Hex d1.
  assert (Hd1 : d1 = set_attendance d
                       (append_row (t_attendance d)
                          {| a_student_id := sid; a_date := date; a_status := status |})).
  { unfold d1. rewrite (attendance_first_mark d today f student_id status Hsid Hst Hv Hex).
    reflexivity. }
  assert (Hrows : rows (t_attendance d1)
                  = rows (t_attendance d)
                    ++ [(next_rowid (t_attendance d),
                         {| a_student_id := sid; a_date := date; a_status := status |})])
    by (rewrite Hd1; reflexivity).
  assert (Hmine : same_mark sid date
                            (next_rowid (t_attendance d),
                             {| a_student_id := sid; a_date := date; a_status := status |})
                  = true)
    by (apply same_mark_iff; split; reflexivity).
  assert (Hnow : existsb (same_mark sid date) (rows (t_attendance d1)) = true).
  { rewrite Hrows, existsb_app. apply orb_true_iff. right. cbn [existsb].
    rewrite Hmine. reflexivity. }
  split.
  - unfold serve, attendance. rewrite Hsid', Hst'. cbv zeta.
    unfold insert_attendance. fresh_connection.
    rewrite Hdate. fold sid. fold date. rewrite Hnow.
    destruct (negb (valid_status status')); reflexivity.
  - rewrite Hrows, filter_app, (filter_none _ _ _ Hex). cbn [filter app].
    rewrite Hmine. reflexivity.
Qed.

End Attendance.

(* ================================================================= *)
(** ** Bulk attendance *)

Lemma with_current_same (c : connection) : with_current c (current c) = c.
Proof. destruct c; reflexivity. Qed.

Lemma table_eta (R : Type) (t : table R) :
  {| rows := rows t; autoinc := autoinc t |} = t.
Proof. destruct t; reflexivity. Qed.

Lemma distinct_snoc (A : Type) (same : A -> A -> bool) (l : list A) (x : A) :
  distinct same l = true ->
  (forall y, In y l -> same y x = false) ->
  distinct same (l ++ [x]) = true.
Proof.
  induction l as [|y l IH]; simpl; [reflexivity|].
  intros Hd Hx. apply andb_true_iff in Hd. destruct Hd as [Hy Hd].
  apply negb_true_iff in Hy.
  rewrite existsb_app, Hy. simpl. rewrite (Hx y (or_introl eq_refl)). simpl.
  apply IH; [exact Hd|]. intros z Hz. apply Hx. right. exact Hz.
Qed.

Lemma unique_after_insert (l : list (Z * attendance_row)) (i : Z) (r : attendance_row) :
  distinct (fun x => same_mark (a_student_id (snd x)) (a_date (snd x))) l = true ->
  existsb (same_mark (a_student_id r) (a_date r)) l = false ->
  distinct (fun x => same_mark (a_student_id (snd x)) (a_date (snd x))) (l ++ [(i, r)])
  = true.
Proof.
  intros Hd Hnew. apply distinct_snoc; [exact Hd|].
  intros y Hy.
  destruct (same_mark (a_student_id (snd y)) (a_date (snd y)) (i, r)) eqn:Hs;
    [|reflexivity].
  apply same_mark_iff in Hs. simpl in Hs. destruct Hs as [Hs Hdt].
  assert (Hm : same_mark (a_student_id r) (a_date r) y = true)
    by (apply same_mark_iff; split; congruence).
  rewrite (existsb_In _ _ _ y Hy Hm) in Hnew. discriminate.
Qed.

Lemma marked_after_other (l : list (Z * attendance_row)) (i sid sid' : Z)
      (date status : string) :
  sid <> sid' ->
  existsb (same_mark (VInt sid') date)
          (l ++ [(i, {| a_student_id := VInt sid; a_date := date; a_status := status |})])
  = existsb (same_mark (VInt sid') date) l.
Proof.
  intros Hne. rewrite existsb_app. simpl. unfold same_mark at 2. simpl.
  rewrite (proj2 (Z.eqb_neq sid sid') Hne). simpl.
  rewrite !orb_false_r. reflexivity.
Qed.

Lemma mark_each_spec (f : form) (date : string) :
  forall (student_ids : list Z) (c : connection) (s e : nat),
    foreign_keys c = false ->
    distinct Z.eqb student_ids = true ->
    (forall sid, In sid student_ids ->
                 valid_status (form_get f ("status_" ++ str_of_Z sid)%string "Present") = true) ->
    attendance_unique (current c) ->
    exists new a',
      mark_each f date student_ids c s e
      = (with_current c
           (set_attendance (current c)
              {| rows := rows (t_attendance (current c)) ++ new; autoinc := a' |}),
         (s + List.length (filter (fun sid => negb (marked (current c) date sid))
                                  student_ids))%nat,
         (e + List.length (filter (marked (current c) date) student_ids))%nat)
      /\ map snd new
         = map (bulk_row f date)
               (filter (fun sid => negb (marked (current c) date sid)) student_ids)
      /\ distinct (fun x => same_mark (a_student_id (snd x)) (a_date (snd x)))
                  (rows (t_attendance (current c)) ++ new) = true.
Proof.
  induction student_ids as [|sid rest IH]; intros c s e Hfk Hd Hv Hu.
  - exists [], (autoinc (t_attendance (current c))). simpl.
    rewrite app_nil_r, table_eta, set_attendance_same, with_current_same, !Nat.add_0_r.
    repeat split. exact Hu.
  - simpl in Hd. apply andb_true_iff in Hd. destruct Hd as [Hsid Hd].
    apply negb_true_iff in Hsid.
    assert (Hne : forall sid', In sid' rest -> sid <> sid').
    { intros sid' Hin Heq.
      rewrite (existsb_In _ _ _ sid' Hin (proj2 (Z.eqb_eq _ _) Heq)) in Hsid.
      discriminate. }
    cbn [mark_each filter]. unfold insert_attendance.
    rewrite Hfk, (Hv sid (or_introl eq_refl)).
    cbn [negb andb].
    fold (marked (current c) date sid).
    destruct (marked (current c) date sid) eqn:Hm; cbn [negb].
    + destruct (IH c s (S e) Hfk Hd (fun x Hx => Hv x (or_intror Hx)) Hu)
        as (new & a' & Heq & Hnew & Hdist).
      exists new, a'. rewrite Heq. simpl. rewrite Nat.add_succ_r.
      repeat split; assumption.
    + set (row := {| a_student_id := VInt sid; a_date := date;
                     a_status := form_get f ("status_" ++ str_of_Z sid)%string "Present" |}).
      set (i := next_rowid (t_attendance (current c))).
      set (c1 := with_current c
                   (set_attendance (current c) (append_row (t_attendance (current c)) row))).
      assert (Hrows : rows (t_attendance (current c1))
                      = rows (t_attendance (current c)) ++ [(i, row)]) by reflexivity.
      assert (Hsame : forall sid', In sid' rest ->
                                   marked (current c1) date sid' = marked (current c) date sid').
      { intros sid' Hin. unfold marked. rewrite Hrows.
        apply marked_after_other. exact (Hne sid' Hin). }
      assert (Hu1 : attendance_unique (current c1)).
      { unfold attendance_unique. rewrite Hrows.
        apply unique_after_insert; [exact Hu | exact Hm]. }
      destruct (IH c1 (S s) e Hfk Hd (fun x Hx => Hv x (or_intror Hx)) Hu1)
        as (new & a' & Heq & Hnew & Hdist).
      exists ((i, row) :: new), a'. rewrite Heq.
      rewrite (filter_ext_in _ (fun sid' => negb (marked (current c) date sid')) rest)
        by (intros x Hx; rewrite (Hsame x Hx); reflexivity).
      rewrite (filter_ext_in (marked (current c1) date) (marked (current c) date) rest)
        by (intros x Hx; exact (Hsame x Hx)).
      rewrite (filter_ext_in _ (fun sid' => negb (marked (current c) date sid')) rest)
        in Hnew by (intros x Hx; rewrite (Hsame x Hx); reflexivity).
      rewrite Hrows, <- app_assoc in Hdist. simpl in Hdist.
      repeat split.
      * rewrite Hrows, <- app_assoc. simpl. rewrite Nat.add_succ_r.
        destruct c as [st cur fk]; destruct cur; reflexivity.
      * simpl. rewrite Hnew. reflexivity.
      * exact Hdist.
Qed.

Lemma distinct_filter (A : Type) (same : A -> A -> bool) (p : A -> bool) (l : list A) :
  distinct same l = true -> distinct same (filter p l) = true.
Proof.
  induction l as [|x l IH]; simpl; [reflexivity|].
  intros Hd. apply andb_true_iff in Hd. destruct Hd as [Hx Hd].
  apply negb_true_iff in Hx.
  destruct (p x); [|exact (IH Hd)].
  simpl. rewrite (IH Hd), andb_true_r. apply negb_true_iff.
  destruct (existsb (same x) (filter p l)) eqn:Hex; [|reflexivity].
  apply existsb_exists in Hex. destruct Hex as (y & Hy & Hs).
  apply filter_In in Hy. destruct Hy as [Hy _].
  rewrite (existsb_In _ _ _ y Hy Hs) in Hx. discriminate.
Qed.

Lemma distinct_ids_filter (R : Type) (p : Z * R -> bool) (l : list (Z * R)) :
  distinct Z.eqb (map fst l) = true -> distinct Z.eqb (map fst (filter p l)) = true.
Proof.
  induction l as [|x l IH]; simpl; [reflexivity|].
  intros Hd. apply andb_true_iff in Hd. destruct Hd as [Hx Hd].
  apply negb_true_iff in Hx.
  destruct (p x); [|exact (IH Hd)].
  simpl. rewrite (IH Hd), andb_true_r. apply negb_true_iff.
  destruct (existsb (Z.eqb (fst x)) (map fst (filter p l))) eqn:Hex; [|reflexivity].
  apply existsb_exists in Hex. destruct Hex as (y & Hy & Hs).
  apply in_map_iff in Hy. destruct Hy as (z & Hz & Hin).
  apply filter_In in Hin. destruct Hin as [Hin _].
  assert (Hin' : In y (map fst l)) by (apply in_map_iff; exists z; auto).
  rewrite (existsb_In _ _ _ y Hin' Hs) in Hx. discriminate.
Qed.

Lemma filter_split_length (A : Type) (p q : A -> bool) (l : list A) :
  (forall x, In x l -> q x = true -> p x = true) ->
  List.length (filter p l)
  = (List.length (filter q l)
     + List.length (filter p (filter (fun x => negb (q x)) l)))%nat.
Proof.
  induction l as [|x l IH]; simpl; [reflexivity|].
  intros H.
  assert (IH' := IH (fun y Hy => H y (or_intror Hy))).
  destruct (q x) eqn:Hq; simpl.
  - rewrite (H x (or_introl eq_refl) Hq). simpl. rewrite IH'. reflexivity.
  - destruct (p x); simpl; rewrite IH'; lia.
Qed.

Lemma existsb_filter_same (A : Type) (p q : A -> bool) (l : list A) :
  (forall x, In x l -> p x = true -> q x = true) ->
  existsb p (filter q l) = existsb p l.
Proof.
  induction l as [|x l IH]; simpl; [reflexivity|].
  intros H.
  assert (IH' := IH (fun y Hy => H y (or_intror Hy))).
  destruct (q x) eqn:Hq; simpl.
  - rewrite IH'. reflexivity.
  - destruct (p x) eqn:Hp.
    + rewrite (H x (or_introl eq_refl) Hp) in Hq. discriminate.
    + simpl. exact IH'.
Qed.

Lemma filter_nothing (A : Type) (p : A -> bool) (l : list A) :
  (forall x, In x l -> p x = false) -> filter p l = [].
Proof.
  induction l as [|x l IH]; simpl; [reflexivity|].
  intros H. rewrite (H x (or_introl eq_refl)).
  apply IH. intros y Hy. apply H. right. exact Hy.
Qed.

(** When every record of the date belongs to one of the (distinct)
    students, the records of the date are as many as the students that
    are marked. *)
Lemma marked_count (date : string) :
  forall (student_ids : list Z) (l : list (Z * attendance_row)),
    distinct Z.eqb student_ids = true ->
    distinct (fun x => same_mark (a_student_id (snd x)) (a_date (snd x))) l = true ->
    (forall x, In x l -> a_date (snd x) = date ->
               exists sid, In sid student_ids /\ a_student_id (snd x) = VInt sid) ->
    List.length (filter (fun x => (a_date (snd x) =? date)%string) l)
    = List.length (filter (fun sid => existsb (same_mark (VInt sid) date) l) student_ids).
Proof.
  induction student_ids as [|sid rest IH]; intros l Hd Hu Hall.
  - simpl. rewrite filter_nothing; [reflexivity|].
    intros x Hx. destruct (String.eqb_spec (a_date (snd x)) date) as [E|E]; [|reflexivity].
    destruct (Hall x Hx E) as (s & [] & _).
  - simpl in Hd. apply andb_true_iff in Hd. destruct Hd as [Hsid Hd].
    apply negb_true_iff in Hsid.
    set (l' := filter (fun x => negb (same_mark (VInt sid) date x)) l).
    rewrite (filter_split_length _ _ (same_mark (VInt sid) date) l).
    2:{ intros x _ Hx. apply same_mark_iff in Hx. apply String.eqb_eq. apply Hx. }
    fold l'.
    rewrite (IH l' Hd (distinct_filter _ _ _ _ Hu)).
    2:{ intros x Hx Hdate. apply filter_In in Hx. destruct Hx as [Hx Hn].
        destruct (Hall x Hx Hdate) as (s & [Hs|Hs] & Hstu).
        - subst s. apply negb_true_iff in Hn.
          rewrite (proj2 (same_mark_iff _ _ _) (conj Hstu Hdate)) in Hn. discriminate.
        - exists s. split; assumption. }
    rewrite (filter_ext_in (fun s => existsb (same_mark (VInt s) date) l')
                           (fun s => existsb (same_mark (VInt s) date) l) rest).
    2:{ intros s Hs. apply existsb_filter_same. intros x _ Hx.
        apply negb_true_iff.
        destruct (same_mark (VInt sid) date x) eqn:Hsx; [|reflexivity].
        apply same_mark_iff in Hx. apply same_mark_iff in Hsx.
        destruct Hx as [Hx _], Hsx as [Hsx _].
        assert (E : sid = s) by congruence.
        rewrite (existsb_In _ _ _ s Hs (proj2 (Z.eqb_eq _ _) E)) in Hsid.
        discriminate. }
    simpl.
    destruct (existsb (same_mark (VInt sid) date) l) eqn:Hex.
    + rewrite (unique_mark_once _ _ _ Hu Hex). reflexivity.
    + rewrite (filter_none _ _ _ Hex). reflexivity.
Qed.

Lemma filter_complement_length (A : Type) (p : A -> bool) (l : list A) :
  List.length (filter (fun x => negb (p x)) l)
  = (List.length l - List.length (filter p l))%nat.
Proof.
  induction l as [|x l IH]; [reflexivity|].
  assert (Hle := filter_length_le p l).
  cbn [filter]. destruct (p x); cbn [negb List.length]; rewrite IH; lia.
Qed.

Lemma new_rows_on_date (f : form) (date : string) (sids : list Z)
      (new : list (Z * attendance_row)) :
  map snd new = map (bulk_row f date) sids ->
  filter (fun x => (a_date (snd x) =? date)%string) new = new
  /\ List.length new = List.length sids.
Proof.
  revert sids. induction new as [|x new IH]; intros sids H.
  - destruct sids; [split; reflexivity | discriminate].
  - destruct sids as [|sid sids]; [discriminate|].
    simpl in H. injection H as Hx Hrest.
    destruct (IH sids Hrest) as [Hf Hl].
    simpl. rewrite Hx. simpl. rewrite String.eqb_refl, Hf, Hl. split; reflexivity.
Qed.

(** C2, amended. For a bulk form with a date, on a store whose student
    ids and (student, date) pairs are unique, and with every submitted
    status one the CHECK admits: of the N selected students, the N - K
    that have no record for the date each get one appended, with the
    submitted status or Present; the message reports N - K new records
    and K existing ones; the date then has its prior records plus N - K,
    which is max(N, prior) when every prior record of the date belongs
    to a selected student; and the pairs stay unique.  The records
    appended are stated up to their order, which is that in which the
    engine returns the students. *)
Theorem bulk_attendance_counts :
  forall (d : database) (f : form) (date : string),
    form_item f "date" = Some date ->
    student_ids_unique d ->
    attendance_unique d ->
    let student_ids :=
      select_student_ids (get_db d) (form_item f "class_filter")
                         (form_item f "dept_filter") in
    (forall sid, In sid student_ids ->
                 valid_status (form_get f ("status_" ++ str_of_Z sid)%string "Present")
                 = true) ->
    let N := List.length student_ids in
    let K := List.length (filter (marked d date) student_ids) in
    let '(d', msgs, r) := serve (bulk_attendance f) d in
    (exists new,
        rows (t_attendance d') = rows (t_attendance d) ++ new
        /\ Permutation
             (map snd new)
             (map (bulk_row f date)
                  (filter (fun sid => negb (marked d date sid)) student_ids))
        /\ List.length new = (N - K)%nat)
    /\ msgs = [(("Bulk attendance marked: " ++ str_of_nat (N - K) ++ " new records, "
                 ++ str_of_nat K ++ " already existed.")%string, "success")]
    /\ r = Redirect "attendance"
    /\ List.length (records_on date d')
       = (List.length (records_on date d) + (N - K))%nat
    /\ ((forall x, In x (records_on date d) ->
                   exists sid, In sid student_ids /\ a_student_id (snd x) = VInt sid) ->
        List.length (records_on date d') = Nat.max N (List.length (records_on date d)))
    /\ attendance_unique d'.
Proof.
  intros d f date Hdate Hids Huniq student_ids Hvalid N K.
  assert (Hdist : distinct Z.eqb student_ids = true).
  { unfold student_ids, select_student_ids. apply distinct_ids_filter. exact Hids. }
  destruct (mark_each_spec f date student_ids (get_db d) 0 0 eq_refl Hdist Hvalid Huniq)
    as (new & a' & Heq & Hnew & Hu').
  unfold serve, bulk_attendance. rewrite Hdate. fold student_ids. rewrite Heq.
  cbn [conn flashed resp redirect commit close_connection stored current with_current
       t_attendance set_attendance Nat.add].
  change (current (get_db d)) with d in *.
  destruct (new_rows_on_date f date _ new Hnew) as [Hfilter Hlen].
  assert (Hfresh : List.length (filter (fun sid => negb (marked d date sid)) student_ids)
                   = (N - K)%nat)
    by (apply filter_complement_length).
  assert (Hrec : List.length (filter (fun x => (a_date (snd x) =? date)%string)
                                     (rows (t_attendance d) ++ new))
                 = (List.length (records_on date d) + (N - K))%nat).
  { rewrite filter_app, length_app, Hfilter, Hlen, Hfresh. reflexivity. }
  split; [|split; [|split; [|split; [|split]]]].
  - exists new. repeat split; [rewrite Hnew; apply Permutation_refl | congruence].
  - rewrite Hfresh. reflexivity.
  - reflexivity.
  - exact Hrec.
  - intros Hall. etransitivity; [exact Hrec|].
    assert (HK : List.length (records_on date d) = K).
    { unfold records_on, K, marked.
      apply marked_count; [exact Hdist | exact Huniq |].
      intros x Hx Hd. apply Hall. unfold records_on. apply filter_In.
      split; [exact Hx | apply String.eqb_eq; exact Hd]. }
    assert (HKN : (K <= N)%nat) by (apply filter_length_le).
    rewrite HK. lia.
  - exact Hu'.
Qed.

(** C2 as stated fails: with the class filter selecting student 1 only
    (N = 1, K = 0) while student 2 already has a record of the date
    (prior count 1), the date ends with 2 records, not max(1, 1). *)
Lemma bulk_attendance_total_not_max :
  student_ids_unique Sample.store
  /\ attendance_unique Sample.store
  /\ select_student_ids (get_db Sample.store)
                        (form_item Sample.class_a_form "class_filter")
                        (form_item Sample.class_a_form "dept_filter") = [1]
  /\ List.length (records_on "2024-01-01" Sample.store) = 1%nat
  /\ List.length
       (records_on "2024-01-01"
                   (fst (fst (serve (bulk_attendance Sample.class_a_form) Sample.store))))
     <> Nat.max 1 1.
Proof.
  repeat split; try reflexivity. vm_compute. discriminate.
Qed.

(** A status outside the CHECK is refused by the engine and the loop
    counts the refusal among the records that already existed. *)
Lemma bulk_attendance_refused_status_counted_existing :
  serve (bulk_attendance Sample.late_form) Sample.store
  = (Sample.store,
     [("Bulk attendance marked: 0 new records, 2 already existed.", "success")],
     Redirect "attendance").
Proof. vm_compute. reflexivity. Qed.

(** The constraints of [attendance] are an invariant of the handlers
    that write to it. *)
Lemma insert_attendance_keeps_constraints (c c' : connection) (sid : value)
      (date status : string) :
  insert_attendance c sid date status = Done c' ->
  attendance_unique (current c) /\ statuses_valid (current c) ->
  attendance_unique (current c') /\ statuses_valid (current c').
Proof.
  unfold insert_attendance. intros Hins [Hu Hv].
  destruct (valid_status status) eqn:Hs; cbn [negb] in Hins; [|discriminate].
  destruct (existsb (same_mark sid date) (rows (t_attendance (current c)))) eqn:Hex;
    [discriminate|].
  destruct (foreign_keys c && negb (refers_to (t_students (current c)) sid));
    [discriminate|].
  injection Hins as <-. split.
  - unfold attendance_unique. cbn [current with_current t_attendance set_attendance].
    apply unique_after_insert; assumption.
  - unfold statuses_valid. cbn [current with_current t_attendance set_attendance].
    cbn [append_row rows]. rewrite forallb_app. cbn [forallb snd a_status].
    unfold statuses_valid in Hv. rewrite Hv, Hs. reflexivity.
Qed.

Lemma mark_each_keeps_constraints (f : form) (date : string) :
  forall (student_ids : list Z) (c : connection) (s e : nat),
    attendance_unique (current c) /\ statuses_valid (current c) ->
    attendance_unique (current (fst (fst (mark_each f date student_ids c s e))))
    /\ statuses_valid (current (fst (fst (mark_each f date student_ids c s e)))).
Proof.
  induction student_ids as [|sid rest IH]; intros c s e Hc; [exact Hc|].
  cbn [mark_each].
  destruct (insert_attendance c (VInt sid) date
              (form_get f ("status_" ++ str_of_Z sid)%string "Present")) as [c'|k] eqn:Hins.
  - apply IH. exact (insert_attendance_keeps_constraints _ _ _ _ _ Hins Hc).
  - apply IH. exact Hc.
Qed.

(** X14. At most one record per student and date, and no status outside
    Present and Absent: both hold after a single mark, after a bulk
    mark and after the deletion of a student, whatever the form. *)
Lemma attendance_constraints_invariant (integer_affinity : string -> value)
      (d : database) (today : string) (f : form) (id : Z) :
  attendance_unique d /\ statuses_valid d ->
  let after handler := fst (fst (serve handler d)) in
  (attendance_unique (after (attendance integer_affinity today f))
   /\ statuses_valid (after (attendance integer_affinity today f)))
  /\ (attendance_unique (after (bulk_attendance f))
      /\ statuses_valid (after (bulk_attendance f)))
  /\ (attendance_unique (after (delete_student id))
      /\ statuses_valid (after (delete_student id))).
Proof.
  intros Hc after. subst after. cbv beta. split; [|split].
  - unfold serve, attendance.
    destruct (form_item f "student_id") as [student_id|]; [|exact Hc].
    destruct (form_item f "status") as [status|]; [|exact Hc].
    destruct (insert_attendance (get_db d) (integer_affinity student_id)
                                (form_get f "date" today) status) as [c'|k] eqn:Hins;
      [|exact Hc].
    exact (insert_attendance_keeps_constraints _ _ _ _ _ Hins Hc).
  - unfold serve, bulk_attendance.
    destruct (form_item f "date") as [date|]; [|exact Hc].
    pose proof (mark_each_keeps_constraints f date
                  (select_student_ids (get_db d) (form_item f "class_filter")
                                      (form_item f "dept_filter"))
                  (get_db d) 0 0 Hc) as H.
    destruct (mark_each f date _ (get_db d) 0 0) as [[c' s] e]. exact H.
  - exact Hc.
Qed.

(* ================================================================= *)
(** ** Deleting a student *)

(** On the connection that [get_db] opens, deleting a student leaves
    the three child tables as they were. *)
Lemma delete_student_keeps_children (d : database) (id : Z) :
  let d' := fst (fst (serve (delete_student id) d)) in
  t_students d' = delete_where (fun x => fst x =? id) (t_students d)
  /\ t_attendance d' = t_attendance d
  /\ t_student_tasks d' = t_student_tasks d
  /\ t_marks d' = t_marks d.
Proof. repeat split. Qed.

(** With [PRAGMA foreign_keys = ON] the same statement removes every
    child row of the deleted student. *)
Lemma delete_cascades_when_enforced (d : database) (id : Z) :
  has_rowid (t_students d) id = true ->
  let d' := current (delete_from_students (pragma_foreign_keys_on (get_db d)) id) in
  filter (fun x => value_eqb (a_student_id (snd x)) (VInt id)) (rows (t_attendance d')) = []
  /\ filter (fun x => st_student_id (snd x) =? id) (rows (t_student_tasks d')) = []
  /\ filter (fun x => value_eqb (m_student_id (snd x)) (VInt id)) (rows (t_marks d')) = [].
Proof.
  intros Hrow. unfold delete_from_students, pragma_foreign_keys_on.
  cbn [foreign_keys current get_db connect andb]. rewrite Hrow.
  cbn [with_current current set_marks set_student_tasks set_attendance set_students
       t_attendance t_student_tasks t_marks delete_where rows].
  repeat split; apply filter_nothing; intros x Hx;
    apply filter_In in Hx; destruct Hx as [_ Hx];
    apply negb_true_iff in Hx; exact Hx.
Qed.

(** C1. Deleting student 2 of the sample store removes the student and
    nothing else: the attendance record, the task assignment and the
    mark of student 2 are all still stored, and the report of student 2
    is the not-found redirect. *)
Theorem delete_student_orphans_children :
  fst (fst (serve (delete_student 2) Sample.store))
  = set_students Sample.store
      {| rows := [(1, Sample.student "U1" "a@x.org" "A" "BCA")]; autoinc := 2 |}
  /\ filter (fun x => value_eqb (a_student_id (snd x)) (VInt 2))
            (rows (t_attendance (fst (fst (serve (delete_student 2) Sample.store)))))
     = [(1, Sample.mark_of 2 "2024-01-01" "Present")]
  /\ List.length
       (filter (fun x => st_student_id (snd x) =? 2)
               (rows (t_student_tasks (fst (fst (serve (delete_student 2) Sample.store))))))
     = 1%nat
  /\ List.length
       (filter (fun x => value_eqb (m_student_id (snd x)) (VInt 2))
               (rows (t_marks (fst (fst (serve (delete_student 2) Sample.store))))))
     = 1%nat
  /\ serve (student_report 2) (fst (fst (serve (delete_student 2) Sample.store)))
     = (fst (fst (serve (delete_student 2) Sample.store)),
        [("Student not found.", "danger")], Redirect "students").
Proof. repeat split. Qed.

(* ================================================================= *)
(** ** Assignment reconciliation *)

Lemma mem_In (x : Z) (l : list Z) : mem x l = true <-> In x l.
Proof.
  unfold mem. rewrite existsb_exists. split.
  - intros (y & Hy & E). apply Z.eqb_eq in E. subst y. exact Hy.
  - intros H. exists x. split; [exact H | apply Z.eqb_refl].
Qed.

Lemma mem_false (x : Z) (l : list Z) : mem x l = false <-> ~ In x l.
Proof.
  rewrite <- mem_In. destruct (mem x l); split; intros H; try congruence;
    try reflexivity.
Qed.

Lemma same_assignment_iff (task_id sid : Z) (x : Z * student_task_row) :
  same_assignment task_id sid x = true <-> task_of x = task_id /\ student_of x = sid.
Proof.
  unfold same_assignment, task_of, student_of.
  rewrite andb_true_iff, !Z.eqb_eq. reflexivity.
Qed.

Lemma assigned_iff (d : database) (task_id sid : Z) :
  assigned d task_id sid = true
  <-> exists x, In x (rows (t_student_tasks d)) /\ task_of x = task_id /\ student_of x = sid.
Proof.
  unfold assigned. rewrite existsb_exists.
  split; intros (x & Hx & H); exists x; (split; [exact Hx|]);
    apply same_assignment_iff; exact H.
Qed.

Lemma mem_select_assigned (c : connection) (task_id sid : Z) :
  mem sid (select_assigned c task_id) = assigned (current c) task_id sid.
Proof.
  unfold select_assigned, assigned, mem.
  induction (rows (t_student_tasks (current c))) as [|x l IH]; [reflexivity|].
  cbn [filter existsb]. unfold same_assignment at 1.
  destruct (st_task_id (snd x) =? task_id) eqn:Ht; cbn [map existsb andb].
  - rewrite IH, (Z.eqb_sym sid). reflexivity.
  - exact IH.
Qed.

Lemma filter_all (A : Type) (p : A -> bool) (l : list A) :
  (forall x, In x l -> p x = true) -> filter p l = l.
Proof.
  induction l as [|x l IH]; simpl; [reflexivity|].
  intros H. rewrite (H x (or_introl eq_refl)). f_equal.
  apply IH. intros y Hy. apply H. right. exact Hy.
Qed.

Lemma filter_twice (A : Type) (p q : A -> bool) (l : list A) :
  filter p (filter q l) = filter (fun x => q x && p x) l.
Proof.
  induction l as [|x l IH]; simpl; [reflexivity|].
  destruct (q x); simpl; [destruct (p x)|]; rewrite IH; reflexivity.
Qed.

Lemma filter_of_map (A B : Type) (g : A -> B) (p : B -> bool) (l : list A) :
  filter p (map g l) = map g (filter (fun x => p (g x)) l).
Proof.
  induction l as [|x l IH]; simpl; [reflexivity|].
  destruct (p (g x)); simpl; rewrite IH; reflexivity.
Qed.

Lemma assign_each_spec (task_id : Z) :
  forall (to_assign : list Z) (c : connection) (n : nat),
    foreign_keys c = false ->
    exists new a',
      assign_each task_id to_assign c n
      = (with_current c
           (set_student_tasks (current c)
              {| rows := rows (t_student_tasks (current c)) ++ new; autoinc := a' |}),
         (n + List.length new)%nat)
      /\ (forall x, In x new -> snd x = pending_row task_id (student_of x))
      /\ NoDup (map student_of new)
      /\ (forall sid, In sid (map student_of new)
                      <-> In sid to_assign /\ assigned (current c) task_id sid = false).
Proof.
  induction to_assign as [|sid rest IH]; intros c n Hfk.
  - exists [], (autoinc (t_student_tasks (current c))). cbn [assign_each].
    rewrite app_nil_r, table_eta, set_student_tasks_same, with_current_same, Nat.add_0_r.
    split; [reflexivity|]. split; [intros x []|]. split; [constructor|].
    intros sid. simpl. tauto.
  - cbn [assign_each]. unfold insert_student_task. rewrite Hfk. cbn [andb].
    fold (assigned (current c) task_id sid).
    destruct (assigned (current c) task_id sid) eqn:Ha.
    + destruct (IH c n Hfk) as (new & a' & Heq & Hp & Hnd & Hin).
      exists new, a'. rewrite Heq.
      split; [reflexivity|]. split; [exact Hp|]. split; [exact Hnd|].
      intros s. rewrite Hin. cbn [In]. split.
      * intros [H1 H2]. split; [right; exact H1 | exact H2].
      * intros [[H1|H1] H2]; [congruence | split; assumption].
    + set (i := next_rowid (t_student_tasks (current c))).
      set (c1 := with_current c
                   (set_student_tasks (current c)
                      (append_row (t_student_tasks (current c))
                                  (pending_row task_id sid)))).
      assert (Hrows : rows (t_student_tasks (current c1))
                      = rows (t_student_tasks (current c))
                             ++ [(i, pending_row task_id sid)]) by reflexivity.
      assert (Hass : forall s, assigned (current c1) task_id s
                               = assigned (current c) task_id s || (sid =? s)).
      { intros s. unfold assigned. rewrite Hrows, existsb_app. cbn [existsb].
        unfold same_assignment at 2. cbn [snd st_task_id st_student_id pending_row].
        rewrite Z.eqb_refl, orb_false_r. reflexivity. }
      destruct (IH c1 (S n) Hfk) as (new & a' & Heq & Hp & Hnd & Hin).
      exists ((i, pending_row task_id sid) :: new), a'.
      fold (pending_row task_id sid). fold c1. rewrite Heq.
      split; [|split; [|split]].
      * rewrite Hrows, <- app_assoc. cbn [app List.length]. rewrite Nat.add_succ_r.
        destruct c as [st cur fk]; destruct cur; reflexivity.
      * intros x [Hx|Hx]; [subst x; reflexivity | exact (Hp x Hx)].
      * cbn [map]. constructor; [|exact Hnd].
        intros Hsid. apply Hin in Hsid. destruct Hsid as [_ Hsid].
        rewrite Hass, Z.eqb_refl, orb_true_r in Hsid. discriminate.
      * intros s. cbn [map In]. change (student_of (i, pending_row task_id sid)) with sid.
        rewrite Hin, Hass, orb_false_iff, Z.eqb_neq.
        destruct (Z.eq_dec sid s) as [E|E].
        -- subst s. tauto.
        -- tauto.
Qed.

Lemma unassign_each_spec (task_id : Z) :
  forall (to_unassign : list Z) (c : connection) (n : nat),
    unassign_each task_id to_unassign c n
    = (with_current c
         (set_student_tasks (current c)
            {| rows := filter (fun x => negb ((task_of x =? task_id)
                                              && mem (student_of x) to_unassign))
                              (rows (t_student_tasks (current c)));
               autoinc := autoinc (t_student_tasks (current c)) |}),
       (n + List.length to_unassign)%nat).
Proof.
  induction to_unassign as [|sid rest IH]; intros c n.
  - cbn [unassign_each List.length]. rewrite Nat.add_0_r, filter_all.
    + rewrite table_eta, set_student_tasks_same, with_current_same. reflexivity.
    + intros x _. unfold mem. cbn [existsb]. rewrite andb_false_r. reflexivity.
  - cbn [unassign_each List.length]. rewrite IH, Nat.add_succ_r.
    unfold delete_student_task.
    cbn [current with_current t_student_tasks set_student_tasks delete_where rows autoinc].
    rewrite filter_twice.
    rewrite (filter_ext
               (fun x => negb (same_assignment task_id sid x)
                         && negb ((task_of x =? task_id) && mem (student_of x) rest))
               (fun x => negb ((task_of x =? task_id) && mem (student_of x) (sid :: rest)))).
    + destruct c as [st cur fk]; destruct cur; reflexivity.
    + intros x. unfold same_assignment, mem, task_of, student_of. cbn [existsb].
      destruct (st_task_id (snd x) =? task_id), (st_student_id (snd x) =? sid),
        (existsb (Z.eqb (st_student_id (snd x))) rest); reflexivity.
Qed.

(** What one reconciliation does to the store and what it reports. *)
Lemma reconcile_spec (d : database) (task_id : Z) (f : form) (selected : list Z) :
  py_int_list (form_getlist f "student_ids") = Some selected ->
  exists new a',
    serve (update_task_assignments task_id f) d
    = (set_student_tasks d
         {| rows := filter (kept task_id selected) (rows (t_student_tasks d)) ++ new;
            autoinc := a' |},
       assignment_messages
         (List.length new)
         (List.length (filter (dropped task_id selected) (rows (t_student_tasks d)))),
       Redirect "task_detail")
    /\ (forall x, In x new -> snd x = pending_row task_id (student_of x))
    /\ NoDup (map student_of new)
    /\ (forall sid, In sid (map student_of new)
                    <-> In sid selected /\ assigned d task_id sid = false).
Proof.
  intros Hsel.
  set (c := get_db d).
  set (cur := select_assigned c task_id).
  set (to_assign := filter (fun sid => negb (mem sid cur)) selected).
  set (to_unassign := filter (fun sid => negb (mem sid selected)) cur).
  destruct (assign_each_spec task_id to_assign c 0 eq_refl)
    as (new & a' & Heq & Hp & Hnd & Hin).
  assert (Hnew : forall sid, In sid (map student_of new)
                             <-> In sid selected /\ assigned d task_id sid = false).
  { intros sid. rewrite Hin. unfold to_assign. rewrite filter_In, negb_true_iff.
    unfold cur. rewrite mem_select_assigned. change (current c) with d. tauto. }
  exists new, a'.
  split; [|split; [exact Hp | split; [exact Hnd | exact Hnew]]].
  unfold serve, update_task_assignments. rewrite Hsel.
  fold c. fold cur. fold to_assign. fold to_unassign.
  rewrite Heq, unassign_each_spec.
  cbn [conn flashed resp commit close_connection stored current with_current
       t_student_tasks set_student_tasks rows autoinc Nat.add].
  change (current c) with d.
  assert (Hkept : filter (fun x => negb ((task_of x =? task_id)
                                         && mem (student_of x) to_unassign))
                         (rows (t_student_tasks d) ++ new)
                  = filter (kept task_id selected) (rows (t_student_tasks d)) ++ new).
  { rewrite filter_app. f_equal.
    - apply filter_ext_in. intros x Hx. unfold kept, dropped. f_equal.
      destruct (task_of x =? task_id) eqn:Ht; [|reflexivity]. cbn [andb].
      apply Z.eqb_eq in Ht.
      assert (Hcur : mem (student_of x) cur = true).
      { unfold cur. rewrite mem_select_assigned. apply assigned_iff.
        exists x. auto. }
      destruct (mem (student_of x) selected) eqn:Hs; cbn [negb].
      + apply mem_false. unfold to_unassign. rewrite filter_In, Hs.
        intros [_ H]. discriminate.
      + apply mem_In. unfold to_unassign. rewrite filter_In, Hs.
        split; [apply mem_In; exact Hcur | reflexivity].
    - apply filter_all. intros x Hx.
      assert (Hs : In (student_of x) selected)
        by (apply (Hnew (student_of x)), in_map; exact Hx).
      apply negb_true_iff, andb_false_iff. right.
      apply mem_false. unfold to_unassign. rewrite filter_In.
      intros [_ H]. apply negb_true_iff, mem_false in H. contradiction. }
  assert (Hcount : List.length to_unassign
                   = List.length (filter (dropped task_id selected)
                                         (rows (t_student_tasks d)))).
  { unfold to_unassign, cur, select_assigned. change (current c) with d.
    rewrite filter_of_map, length_map, filter_twice. reflexivity. }
  rewrite Hkept, Hcount.
  destruct d; reflexivity.
Qed.

Lemma singleton_of_NoDup (l : list Z) (x : Z) :
  NoDup l -> (forall y, In y l <-> y = x) -> l = [x].
Proof.
  intros Hnd H. destruct l as [|a l].
  - exfalso. apply (proj2 (H x) eq_refl).
  - assert (Ea : a = x) by (apply H; left; reflexivity). subst a.
    destruct l as [|b l]; [reflexivity|].
    assert (Eb : b = x) by (apply H; right; left; reflexivity). subst b.
    inversion Hnd as [|? ? Hnot _]. exfalso. apply Hnot. left. reflexivity.
Qed.

(** C3. Given a selection of ASCII texts that parse as ids within 64
    bits, for a task id within 64 bits, reconciliation keeps the join
    rows of other tasks and of selected students, deletes exactly the
    rows of the task whose student is not selected, and appends one
    Pending row, with no completion date, for exactly the selected
    students that were not assigned; it flashes "Task assigned to A new
    student(s)." when A > 0 rows were appended, "Task unassigned from U
    student(s)." when U > 0 rows were deleted, and "No changes made to
    assignments." when both are 0.  When the selection is the assigned
    students and one student X besides, the one row appended is X's, no
    row is deleted and the one message is "Task assigned to 1 new
    student(s).". *)
Theorem update_task_assignments_delta :
  forall (d : database) (task_id : Z) (f : form) (selected : list Z),
    forallb int_text (form_getlist f "student_ids") = true ->
    py_int_list (form_getlist f "student_ids") = Some selected ->
    int64 task_id = true ->
    forallb int64 selected = true ->
    let '(d', msgs, r) := serve (update_task_assignments task_id f) d in
    exists new,
      rows (t_student_tasks d')
      = filter (kept task_id selected) (rows (t_student_tasks d)) ++ new
      /\ (forall x, In x new -> snd x = pending_row task_id (student_of x))
      /\ NoDup (map student_of new)
      /\ (forall sid, In sid (map student_of new)
                      <-> In sid selected /\ assigned d task_id sid = false)
      /\ (let assign_count := List.length new in
          let unassign_count :=
            List.length (filter (dropped task_id selected) (rows (t_student_tasks d))) in
          msgs
          = (if (0 <? assign_count)%nat
             then [(("Task assigned to " ++ str_of_nat assign_count
                     ++ " new student(s).")%string, "success")]
             else [])
            ++ (if (0 <? unassign_count)%nat
                then [(("Task unassigned from " ++ str_of_nat unassign_count
                        ++ " student(s).")%string, "info")]
                else [])
            ++ (if (assign_count =? 0)%nat && (unassign_count =? 0)%nat
                then [("No changes made to assignments.", "info")]
                else []))
      /\ r = Redirect "task_detail"
      /\ (forall X,
             assigned d task_id X = false ->
             (forall sid, In sid selected <-> assigned d task_id sid = true \/ sid = X) ->
             (exists i, new = [(i, pending_row task_id X)])
             /\ rows (t_student_tasks d') = rows (t_student_tasks d) ++ new
             /\ msgs = [("Task assigned to 1 new student(s).", "success")]).
Proof.
  intros d task_id f selected _ Hsel _ _.
  destruct (reconcile_spec d task_id f selected Hsel)
    as (new & a' & Heq & Hp & Hnd & Hin).
  rewrite Heq. exists new.
  cbn [t_student_tasks set_student_tasks rows].
  split; [reflexivity|]. split; [exact Hp|]. split; [exact Hnd|].
  split; [exact Hin|]. split; [reflexivity|]. split; [reflexivity|].
  intros X HX Hset.
  assert (Hone : map student_of new = [X]).
  { apply singleton_of_NoDup; [exact Hnd|].
    intros sid. rewrite Hin, Hset. split.
    - intros [[H|H] H']; [congruence | exact H].
    - intros ->. split; [right; reflexivity | exact HX]. }
  assert (Hall : filter (kept task_id selected) (rows (t_student_tasks d))
                 = rows (t_student_tasks d)).
  { apply filter_all. intros x Hx. unfold kept, dropped.
    destruct (task_of x =? task_id) eqn:Ht; [|reflexivity]. cbn [andb].
    rewrite negb_involutive. apply mem_In, Hset. left.
    apply assigned_iff. exists x. apply Z.eqb_eq in Ht. auto. }
  assert (Hnone : filter (dropped task_id selected) (rows (t_student_tasks d)) = []).
  { apply filter_nothing. intros x Hx.
    assert (Hk : kept task_id selected x = true).
    { assert (H : In x (filter (kept task_id selected) (rows (t_student_tasks d))))
        by (rewrite Hall; exact Hx).
      apply filter_In in H. apply H. }
    unfold kept in Hk. apply negb_true_iff in Hk. exact Hk. }
  destruct new as [|[i row] [|y new]]; try discriminate.
  split; [|split].
  - exists i.
    pose proof (Hp (i, row) (or_introl eq_refl)) as Hrow. cbn [snd] in Hrow.
    cbn [map] in Hone. injection Hone as Hone.
    rewrite Hrow, Hone. reflexivity.
  - rewrite Hall. reflexivity.
  - rewrite Hnone. reflexivity.
Qed.

(** C4. Running reconciliation a second time with the same selection
    (ASCII texts that parse as ids within 64 bits, for a task id within
    64 bits) reports that nothing changed and leaves the store as the
    first run left it. *)
Theorem update_task_assignments_idempotent :
  forall (d : database) (task_id : Z) (f : form) (selected : list Z),
    forallb int_text (form_getlist f "student_ids") = true ->
    py_int_list (form_getlist f "student_ids") = Some selected ->
    int64 task_id = true ->
    forallb int64 selected = true ->
    let d1 := fst (fst (serve (update_task_assignments task_id f) d)) in
    serve (update_task_assignments task_id f) d1
    = (d1, [("No changes made to assignments.", "info")], Redirect "task_detail").
Proof.
  intros d task_id f selected _ Hsel _ _.
  destruct (reconcile_spec d task_id f selected Hsel)
    as (new & a' & Heq & Hp & Hnd & Hin).
  rewrite Heq. cbn [fst]. clear Heq.
  set (d1 := set_student_tasks d _).
  assert (Hrows : rows (t_student_tasks d1)
                  = filter (kept task_id selected) (rows (t_student_tasks d)) ++ new)
    by reflexivity.
  assert (Hsub : forall x, In x (rows (t_student_tasks d1)) -> task_of x = task_id ->
                           In (student_of x) selected).
  { intros x Hx Ht. rewrite Hrows in Hx. apply in_app_or in Hx.
    destruct Hx as [Hx|Hx].
    - apply filter_In in Hx. destruct Hx as [_ Hk].
      unfold kept, dropped in Hk. rewrite (proj2 (Z.eqb_eq _ _) Ht) in Hk.
      cbn [andb] in Hk. rewrite negb_involutive in Hk. apply mem_In. exact Hk.
    - apply (Hin (student_of x)), in_map. exact Hx. }
  assert (Hsup : forall sid, In sid selected -> assigned d1 task_id sid = true).
  { intros sid Hs. apply assigned_iff.
    destruct (assigned d task_id sid) eqn:Ha.
    - apply assigned_iff in Ha. destruct Ha as (x & Hx & Ht & Hst).
      exists x. split; [|auto]. rewrite Hrows. apply in_or_app. left.
      apply filter_In. split; [exact Hx|].
      unfold kept, dropped. rewrite Hst, (proj2 (mem_In _ _) Hs), andb_false_r.
      reflexivity.
    - assert (Hn : In sid (map student_of new)) by (apply Hin; auto).
      apply in_map_iff in Hn. destruct Hn as (x & Hst & Hx).
      exists x. split; [rewrite Hrows; apply in_or_app; right; exact Hx|].
      split; [|exact Hst]. unfold task_of. rewrite (Hp x Hx). reflexivity. }
  unfold serve, update_task_assignments. rewrite Hsel.
  rewrite (filter_nothing _ (fun sid => negb (mem sid (select_assigned (get_db d1) task_id)))
                          selected).
  2:{ intros sid Hs. rewrite mem_select_assigned. change (current (get_db d1)) with d1.
      rewrite (Hsup sid Hs). reflexivity. }
  rewrite (filter_nothing _ (fun sid => negb (mem sid selected))
                          (select_assigned (get_db d1) task_id)).
  2:{ intros sid Hs. apply negb_false_iff, mem_In.
      unfold select_assigned in Hs. apply in_map_iff in Hs.
      destruct Hs as (x & Hst & Hx). apply filter_In in Hx. destruct Hx as [Hx Ht].
      apply Z.eqb_eq in Ht. rewrite <- Hst. exact (Hsub x Hx Ht). }
  reflexivity.
Qed.

(** C10. For a selection of ASCII texts that parse as ids within 64
    bits and a task id within 64 bits, reconciliation leaves every join
    row of another task, and every join row of the task whose student
    is selected, in the table exactly as it was (id, status and
    completion date); a row of the task whose student is not selected
    is deleted whatever its status, and the student has no assignment
    to the task afterwards; no other table changes. *)
Theorem update_task_assignments_frame :
  forall (d : database) (task_id : Z) (f : form) (selected : list Z),
    forallb int_text (form_getlist f "student_ids") = true ->
    py_int_list (form_getlist f "student_ids") = Some selected ->
    int64 task_id = true ->
    forallb int64 selected = true ->
    let d' := fst (fst (serve (update_task_assignments task_id f) d)) in
    (forall x, In x (rows (t_student_tasks d)) ->
               task_of x <> task_id \/ In (student_of x) selected ->
               In x (rows (t_student_tasks d')))
    /\ (forall x, In x (rows (t_student_tasks d)) ->
                  task_of x = task_id -> ~ In (student_of x) selected ->
                  ~ In x (rows (t_student_tasks d'))
                  /\ assigned d' task_id (student_of x) = false)
    /\ t_students d' = t_students d /\ t_attendance d' = t_attendance d
    /\ t_tasks d' = t_tasks d /\ t_subjects d' = t_subjects d
    /\ t_marks d' = t_marks d.
Proof.
  intros d task_id f selected _ Hsel _ _.
  destruct (reconcile_spec d task_id f selected Hsel)
    as (new & a' & Heq & Hp & Hnd & Hin).
  rewrite Heq. cbn [fst]. cbn [t_student_tasks set_student_tasks rows].
  split; [|split; [|repeat split]].
  - intros x Hx Hkeep. apply in_or_app. left. apply filter_In.
    split; [exact Hx|]. unfold kept, dropped.
    destruct Hkeep as [Ht|Hs].
    + rewrite (proj2 (Z.eqb_neq _ _) Ht). reflexivity.
    + rewrite (proj2 (mem_In _ _) Hs), andb_false_r. reflexivity.
  - intros x Hx Ht Hs.
    assert (Hgone : forall y, In y (filter (kept task_id selected)
                                           (rows (t_student_tasks d)) ++ new) ->
                              task_of y = task_id -> student_of y <> student_of x).
    { intros y Hy Hty Hsy. apply in_app_or in Hy. destruct Hy as [Hy|Hy].
      - apply filter_In in Hy. destruct Hy as [_ Hk].
        unfold kept, dropped in Hk.
        rewrite (proj2 (Z.eqb_eq _ _) Hty), Hsy, (proj2 (mem_false _ _) Hs) in Hk.
        discriminate.
      - apply Hs. rewrite <- Hsy. apply (Hin (student_of y)), in_map. exact Hy. }
    split.
    + intros Hx'. exact (Hgone x Hx' Ht eq_refl).
    + destruct (assigned _ task_id (student_of x)) eqn:Ha; [|reflexivity].
      apply assigned_iff in Ha. destruct Ha as (y & Hy & Hty & Hsy).
      exfalso. exact (Hgone y Hy Hty Hsy).
Qed.

(* ================================================================= *)
(** ** Bulk marks *)

Lemma set_marks_same (d : database) : set_marks d (t_marks d) = d.
Proof. destruct d; reflexivity. Qed.

Lemma in_enumerate_from (A : Type) (l : list A) :
  forall (i j : nat) (x : A),
    In (j, x) (enumerate_from i l)
    <-> (i <= j)%nat /\ nth_error l (j - i) = Some x.
Proof.
  induction l as [|a l IH]; intros i j x; cbn [enumerate_from In].
  - split; [tauto|]. intros [_ H]. destruct (j - i)%nat; discriminate.
  - rewrite IH. split.
    + intros [E|[Hle Hn]].
      * injection E as <- <-. rewrite Nat.sub_diag. split; [lia | reflexivity].
      * split; [lia|]. replace (j - i)%nat with (S (j - S i)) by lia. exact Hn.
    + intros [Hle Hn]. destruct (Nat.eq_dec i j) as [E|E].
      * subst j. rewrite Nat.sub_diag in Hn. injection Hn as <-. left. reflexivity.
      * right. split; [lia|].
        replace (j - i)%nat with (S (j - S i)) in Hn by lia. exact Hn.
Qed.

Section Marks.

Variable integer_affinity : string -> value.

Lemma insert_each_spec (subject_id exam_type : string) (exam_date : option string)
      (remarks : string) (marks_obtained_list max_marks_list : list string) :
  forall (student_ids : list string) (i : nat) (c : connection) (n : nat),
    foreign_keys c = false ->
    exists new a',
      insert_each integer_affinity subject_id exam_type exam_date remarks
                  marks_obtained_list max_marks_list i student_ids c n
      = (with_current c
           (set_marks (current c)
              {| rows := rows (t_marks (current c)) ++ new; autoinc := a' |}),
         (n + List.length new)%nat)
      /\ map snd new
         = map (bulk_mark_row integer_affinity subject_id exam_type exam_date remarks
                              marks_obtained_list max_marks_list)
               (filter (has_scores marks_obtained_list max_marks_list)
                       (enumerate_from i student_ids)).
Proof.
  induction student_ids as [|student_id rest IH]; intros i c n Hfk.
  - exists [], (autoinc (t_marks (current c))). cbn [insert_each].
    rewrite app_nil_r, table_eta, set_marks_same, with_current_same, Nat.add_0_r.
    split; reflexivity.
  - cbn [insert_each enumerate_from filter]. unfold has_scores at 1. cbn [fst].
    destruct (truthy (nth i marks_obtained_list "")%string
              && truthy (nth i max_marks_list "")%string) eqn:Hs.
    + apply andb_true_iff in Hs. destruct Hs as [Hs1 Hs2]. rewrite Hs1, Hs2.
      cbn [negb orb]. unfold insert_mark. rewrite Hfk. cbn [andb].
      set (row := {| m_student_id := integer_affinity student_id;
                     m_subject_id := integer_affinity subject_id;
                     m_exam_type := exam_type;
                     m_marks_obtained := nth i marks_obtained_list ""%string;
                     m_max_marks := nth i max_marks_list ""%string;
                     m_exam_date := exam_date; m_remarks := remarks |}).
      set (c1 := with_current c (set_marks (current c) (append_row (t_marks (current c)) row))).
      destruct (IH (S i) c1 (S n) Hfk) as (new & a' & Heq & Hnew).
      exists ((next_rowid (t_marks (current c)), row) :: new), a'. rewrite Heq.
      split.
      * change (rows (t_marks (current c1)))
          with (rows (t_marks (current c)) ++ [(next_rowid (t_marks (current c)), row)]).
        rewrite <- app_assoc. cbn [app List.length]. rewrite Nat.add_succ_r.
        destruct c as [st cur fk]; destruct cur; reflexivity.
      * cbn [map]. rewrite Hnew. reflexivity.
    + assert (Hskip : negb (truthy (nth i marks_obtained_list "")%string)
                      || negb (truthy (nth i max_marks_list "")%string) = true).
      { apply andb_false_iff in Hs. apply orb_true_iff.
        destruct Hs as [Hs|Hs]; rewrite Hs; auto. }
      rewrite Hskip. exact (IH (S i) c n Hfk).
Qed.

(** C8. For a form of ASCII text with a subject and an exam type, bulk
    marks entry appends one mark row for each index position of the
    student ids at which both score lists have a non-empty entry, in
    order, built from the student id and the two scores of that
    position; positions without both scores add nothing; and the
    message is "Bulk marks added: N records inserted." with N the
    number of rows appended. *)
Theorem bulk_marks_inserts_scored_positions :
  forall (d : database) (f : form) (subject_id exam_type_ : string),
    ascii_form f = true ->
    form_item f "subject_id" = Some subject_id ->
    form_item f "exam_type" = Some exam_type_ ->
    truthy subject_id = true ->
    truthy (strip exam_type_) = true ->
    let student_ids := form_getlist f "student_ids" in
    let marks_obtained_list := form_getlist f "marks_obtained" in
    let max_marks_list := form_getlist f "max_marks" in
    let entries := scored_entries student_ids marks_obtained_list max_marks_list in
    let '(d', msgs, r) := serve (bulk_marks integer_affinity f) d in
    (exists new,
        rows (t_marks d') = rows (t_marks d) ++ new
        /\ map snd new
           = map (bulk_mark_row integer_affinity subject_id (strip exam_type_)
                                (or_none (form_item f "exam_date"))
                                (strip (form_get f "remarks" ""))
                                marks_obtained_list max_marks_list)
                 entries
        /\ List.length new = List.length entries)
    /\ msgs = [(("Bulk marks added: " ++ str_of_nat (List.length entries)
                 ++ " records inserted.")%string, "success")]
    /\ r = Redirect "marks"
    /\ (forall j student_id,
           In (j, student_id) entries
           <-> nth_error student_ids j = Some student_id
               /\ nth j marks_obtained_list ""%string <> ""%string
               /\ nth j max_marks_list ""%string <> ""%string).
Proof.
  intros d f subject_id exam_type_ _ Hsub Hexam Tsub Texam
         student_ids marks_obtained_list max_marks_list entries.
  destruct (insert_each_spec subject_id (strip exam_type_)
              (or_none (form_item f "exam_date")) (strip (form_get f "remarks" ""))
              marks_obtained_list max_marks_list student_ids 0 (get_db d) 0 eq_refl)
    as (new & a' & Heq & Hnew).
  assert (Hlen : List.length new = List.length entries).
  { rewrite <- (length_map snd new), Hnew, length_map. reflexivity. }
  unfold serve, bulk_marks. rewrite Hsub, Hexam. cbv zeta.
  rewrite Tsub, Texam. cbn [negb orb].
  fold student_ids. fold marks_obtained_list. fold max_marks_list.
  rewrite Heq.
  cbn [conn flashed resp redirect commit close_connection stored current with_current
       t_marks set_marks rows Nat.add].
  fresh_connection. rewrite Hlen.
  split; [|split; [|split]]; try reflexivity.
  - exists new. repeat split; assumption.
  - intros j student_id. unfold entries, scored_entries.
    rewrite filter_In, in_enumerate_from, Nat.sub_0_r.
    unfold has_scores. cbn [fst]. rewrite andb_true_iff.
    assert (Ht : forall s, truthy s = true <-> s <> ""%string)
      by (intros [|a s]; simpl; split; congruence).
    rewrite !Ht. split; [tauto|]. intros H. split; [split; [lia | tauto] | tauto].
Qed.

End Marks.

(* ================================================================= *)
(** ** Attendance aggregates *)

(** [round_half_even] returns an integer nearest to the quotient. *)
Lemma round_half_even_nearest (num den : Z) :
  0 < den -> Z.abs (2 * (round_half_even num den * den - num)) <= den.
Proof.
  intros Hden. unfold round_half_even.
  pose proof (Z.div_mod num den ltac:(lia)) as Hdm.
  pose proof (Z.mod_pos_bound num den Hden) as Hr.
  destruct (2 * (num mod den) ?= den) eqn:Hc.
  - apply Z.compare_eq in Hc. destruct (Z.even (num / den)); nia.
  - rewrite Z.compare_lt_iff in Hc. nia.
  - rewrite Z.compare_gt_iff in Hc. nia.
Qed.

(** The hundredths that [round2] keeps of a double of magnitude
    [m * 2^e] are exact when the double is a multiple of a hundredth
    and within half a hundredth of it otherwise. *)
Lemma hundredths_nearest (m : positive) (e : Z) :
  match e with
  | Zneg k => Z.abs (2 * (hundredths m e * 2 ^ Zpos k - Zpos m * 100)) <= 2 ^ Zpos k
  | _ => hundredths m e = Zpos m * 100 * 2 ^ e
  end.
Proof.
  destruct e as [|k|k]; try reflexivity.
  unfold hundredths. apply round_half_even_nearest. apply Z.pow_pos_nonneg; lia.
Qed.

(** [round2] of a finite double of magnitude [m * 2^e] is the quotient,
    as a double, of a number of hundredths [h] by 100, where [h] is
    within one half of [100 * m * 2^e]; any other double is returned as
    it is. *)
Lemma round2_nearest_hundredth (x : spec_float) :
  match x with
  | S754_finite sign m e =>
      exists h : Z,
        round2 x
        = SFdiv 53 1024 (binary_normalize 53 1024 (cond_Zopp sign h) 0 sign)
                (binary64_of_Z 100)
        /\ match e with
           | Zneg k => Z.abs (2 * (h * 2 ^ Zpos k - Zpos m * 100)) <= 2 ^ Zpos k
           | _ => h = Zpos m * 100 * 2 ^ e
           end
  | _ => round2 x = x
  end.
Proof.
  destruct x as [sg|sg| |sg m e]; try reflexivity.
  exists (hundredths m e). split; [reflexivity | apply hundredths_nearest].
Qed.

Lemma sum_case_count (status : string) (l : list (Z * attendance_row)) :
  or_zero (sum_case status l)
  = Z.of_nat (List.length (filter (fun x => (a_status (snd x) =? status)%string) l)).
Proof.
  assert (H : forall l' : list (Z * attendance_row),
             fold_right (fun x n => (if (a_status (snd x) =? status)%string
                                     then 1 else 0) + n) 0 l'
             = Z.of_nat (List.length
                           (filter (fun x => (a_status (snd x) =? status)%string) l'))).
  { induction l' as [|x l' IH]; [reflexivity|].
    cbn [fold_right filter]. rewrite IH.
    destruct (a_status (snd x) =? status)%string; cbn [List.length]; lia. }
  destruct l as [|x l]; [reflexivity|].
  unfold sum_case, or_zero. apply H.
Qed.

Lemma present_or_absent (l : list (Z * attendance_row)) :
  forallb (fun x => valid_status (a_status (snd x))) l = true ->
  List.length l
  = (List.length (filter (fun x => (a_status (snd x) =? "Present")%string) l)
     + List.length (filter (fun x => (a_status (snd x) =? "Absent")%string) l))%nat.
Proof.
  induction l as [|x l IH]; [reflexivity|].
  cbn [forallb filter]. intros H. apply andb_true_iff in H. destruct H as [Hx Hl].
  specialize (IH Hl). unfold valid_status in Hx.
  destruct (String.eqb_spec (a_status (snd x)) "Present") as [E|E].
  - rewrite E. cbn [String.eqb Ascii.eqb Bool.eqb andb List.length]. lia.
  - cbn [orb] in Hx. rewrite Hx. cbn [List.length]. lia.
Qed.

Lemma forallb_filter (A : Type) (p q : A -> bool) (l : list A) :
  forallb p l = true -> forallb p (filter q l) = true.
Proof.
  rewrite !forallb_forall. intros H x Hx. apply filter_In in Hx. apply H, Hx.
Qed.

(** C6. The report of a student that exists carries the number of the
    student's attendance records as total days, the number of those
    with status Present and with status Absent as present and absent
    days, and as percentage the integer 0 when there is no record and
    otherwise the double [present / total * 100] rounded to two places:
    when that double is finite, of magnitude [m * 2^e], the percentage
    is the double nearest to [h / 100] for a number of hundredths [h]
    within one half of [100 * m * 2^e].  On a store whose statuses
    satisfy the CHECK the total is the sum of present and absent days;
    three present days with one absent day give 75.0, one present day
    with two absent days 33.33, two present days with one absent day
    66.67, and one present day among 800, where the double is the tie
    0.125, gives 0.12. *)
Theorem student_report_attendance :
  forall (d : database) (student_id : Z) (student : Z * student_row),
    select_student (get_db d) student_id = Some student ->
    statuses_valid d ->
    let mine := filter (fun x => value_eqb (a_student_id (snd x)) (VInt student_id))
                       (rows (t_attendance d)) in
    let days status :=
      Z.of_nat (List.length (filter (fun x => (a_status (snd x) =? status)%string) mine)) in
    exists s,
      serve (student_report student_id) d = (d, [], StudentReport student s)
      /\ total_days s = Z.of_nat (List.length mine)
      /\ present s = days "Present"%string
      /\ absent s = days "Absent"%string
      /\ total_days s = present s + absent s
      /\ (total_days s = 0 -> attendance_percent s = PyInt 0)
      /\ (0 < total_days s ->
          attendance_percent s
          = PyFloat (round2 (float_mul (truediv (present s) (total_days s))
                                       (binary64_of_Z 100))))
      /\ (0 < total_days s ->
          match float_mul (truediv (present s) (total_days s)) (binary64_of_Z 100) with
          | S754_finite sign m e =>
              exists h : Z,
                attendance_percent s
                = PyFloat (SFdiv 53 1024
                                 (binary_normalize 53 1024 (cond_Zopp sign h) 0 sign)
                                 (binary64_of_Z 100))
                /\ match e with
                   | Zneg k =>
                       Z.abs (2 * (h * 2 ^ Zpos k - Zpos m * 100)) <= 2 ^ Zpos k
                   | _ => h = Zpos m * 100 * 2 ^ e
                   end
          | x => attendance_percent s = PyFloat x
          end)
      /\ (present s = 3 -> absent s = 1 ->
          attendance_percent s = PyFloat (binary64_of_Z 75))
      /\ (present s = 1 -> absent s = 2 ->
          attendance_percent s = PyFloat (S754_finite false 4690780486883082 (-47)))
      /\ (present s = 2 -> absent s = 1 ->
          attendance_percent s = PyFloat (S754_finite false 4691484174324859 (-46)))
      /\ (present s = 1 -> absent s = 799 ->
          attendance_percent s = PyFloat (S754_finite false 8646911284551352 (-56))).
Proof.
  intros d student_id student Hstu Hvalid mine days.
  exists (attendance_of (get_db d) student_id).
  assert (Hp : present (attendance_of (get_db d) student_id) = days "Present"%string)
    by (apply sum_case_count).
  assert (Ha : absent (attendance_of (get_db d) student_id) = days "Absent"%string)
    by (apply sum_case_count).
  assert (Ht : total_days (attendance_of (get_db d) student_id)
               = Z.of_nat (List.length mine)) by reflexivity.
  assert (Hsum : total_days (attendance_of (get_db d) student_id)
                 = present (attendance_of (get_db d) student_id)
                   + absent (attendance_of (get_db d) student_id)).
  { rewrite Ht, Hp, Ha. unfold days.
    rewrite (present_or_absent mine (forallb_filter _ _ _ _ Hvalid)). lia. }
  assert (Hpct : attendance_percent (attendance_of (get_db d) student_id)
                 = percentage (present (attendance_of (get_db d) student_id))
                              (total_days (attendance_of (get_db d) student_id)))
    by reflexivity.
  split; [unfold serve, student_report; rewrite Hstu; reflexivity|].
  split; [exact Ht|]. split; [exact Hp|]. split; [exact Ha|]. split; [exact Hsum|].
  split; [|split; [|split; [|split; [|split; [|split]]]]].
  - intros H0. rewrite Hpct, H0. reflexivity.
  - intros Hpos. rewrite Hpct. unfold percentage.
    rewrite (proj2 (Z.ltb_lt _ _) Hpos). reflexivity.
  - intros Hpos. rewrite Hpct. unfold percentage.
    rewrite (proj2 (Z.ltb_lt _ _) Hpos).
    pose proof (round2_nearest_hundredth
                  (float_mul (truediv (present (attendance_of (get_db d) student_id))
                                      (total_days (attendance_of (get_db d) student_id)))
                             (binary64_of_Z 100))) as Hround.
    destruct (float_mul _ _) as [sg|sg| |sg m e]; try (rewrite Hround; reflexivity).
    destruct Hround as (h & Hh & Hnear). exists h. rewrite Hh. split; [reflexivity|exact Hnear].
  - intros H3 H1. rewrite Hpct, Hsum, H3, H1. vm_compute. reflexivity.
  - intros H3 H1. rewrite Hpct, Hsum, H3, H1. vm_compute. reflexivity.
  - intros H3 H1. rewrite Hpct, Hsum, H3, H1. vm_compute. reflexivity.
  - intros H3 H1. rewrite Hpct, Hsum, H3, H1. vm_compute. reflexivity.
Qed.

(** The loop of [reports] does the same arithmetic on the columns of
    its grouped query. *)
Lemma report_row_percent (total_days_ present_count absent_count : option Z) :
  let s := report_row total_days_ present_count absent_count in
  attendance_percent s = percentage (present s) (total_days s)
  /\ (total_days s = 0 -> attendance_percent s = PyInt 0)
  /\ (present s = 3 -> total_days s = 4 ->
      attendance_percent s = PyFloat (binary64_of_Z 75)).
Proof.
  cbv zeta. split; [reflexivity|]. split.
  - intros H. unfold report_row in *. cbn [attendance_percent total_days] in *.
    rewrite H. reflexivity.
  - intros H3 H4. unfold report_row in *.
    cbn [attendance_percent total_days present] in *.
    rewrite H3, H4. vm_compute. reflexivity.
Qed.

(* ================================================================= *)
(** ** The theorems at the sample stores *)

Lemma student_usn_email_duplicate_rejected_witness :
  ascii_form (Sample.student_form " U2 " "c@x.org") = true
  /\ int64 1 = true
  /\ student_form_ok (Sample.student_form " U2 " "c@x.org") "U2" "c@x.org"
  /\ serve (add_student (Sample.student_form " U2 " "c@x.org")) Sample.store
     = (Sample.store, [("USN or Email already exists.", "danger")], Redirect "students")
  /\ serve (edit_student 1 (Sample.student_form " U2 " "c@x.org")) Sample.store
     = (Sample.store, [("USN or Email already in use by another student.", "danger")],
        Redirect "students").
Proof.
  assert (Hok : student_form_ok (Sample.student_form " U2 " "c@x.org") "U2" "c@x.org").
  { exists " U2 "%string, "Ravi"%string, "c@x.org"%string, ""%string, "A"%string,
      "BCA"%string.
    repeat split; reflexivity. }
  split; [reflexivity|]. split; [reflexivity|]. split; [exact Hok|]. split.
  - apply (proj1 (student_usn_email_duplicate_rejected
                    Sample.store (Sample.student_form " U2 " "c@x.org") _ _ eq_refl Hok))
      with (other := (2, Sample.student "U2" "b@x.org" "B" "BCA")).
    + simpl. right. left. reflexivity.
    + left. reflexivity.
  - apply (proj2 (student_usn_email_duplicate_rejected
                    Sample.store (Sample.student_form " U2 " "c@x.org") _ _ eq_refl Hok))
      with (other := (2, Sample.student "U2" "b@x.org" "B" "BCA")).
    + reflexivity.
    + simpl. right. left. reflexivity.
    + simpl. lia.
    + left. reflexivity.
Defined.


Lemma attendance_duplicate_rejected_witness :
  attendance_unique Sample.store
  /\ serve (attendance literal_affinity "2024-01-01" Sample.mark_form) Sample.store
     = (Sample.store,
        [("Attendance for this student on this date already exists.", "danger")],
        Redirect "attendance").
Proof.
  split; [reflexivity|].
  pose proof (attendance_duplicate_rejected literal_affinity Sample.store "2024-01-01"
                Sample.mark_form "2" "Absent" eq_refl eq_refl eq_refl eq_refl) as W.
  destruct (serve (attendance literal_affinity "2024-01-01" Sample.mark_form) Sample.store)
    as [[d' msgs] r].
  destruct W as (Hd & Hm & Hr & _). rewrite Hd, Hm, Hr. reflexivity.
Defined.

Lemma bulk_attendance_counts_witness :
  student_ids_unique Sample.store
  /\ attendance_unique Sample.store
  /\ snd (fst (serve (bulk_attendance Sample.bulk_form) Sample.store))
     = [("Bulk attendance marked: 1 new records, 1 already existed.", "success")]
  /\ List.length
       (records_on "2024-01-01"
                   (fst (fst (serve (bulk_attendance Sample.bulk_form) Sample.store))))
     = Nat.max 2 1.
Proof.
  split; [reflexivity|]. split; [reflexivity|].
  assert (Hvalid : forall sid,
             In sid (select_student_ids (get_db Sample.store)
                                        (form_item Sample.bulk_form "class_filter")
                                        (form_item Sample.bulk_form "dept_filter")) ->
             valid_status (form_get Sample.bulk_form ("status_" ++ str_of_Z sid)%string
                                    "Present") = true).
  { intros sid [<-|[<-|[]]]; reflexivity. }
  pose proof (bulk_attendance_counts Sample.store Sample.bulk_form "2024-01-01"
                eq_refl eq_refl eq_refl Hvalid) as W.
  cbv zeta in W.
  destruct (serve (bulk_attendance Sample.bulk_form) Sample.store) as [[d' msgs] r].
  destruct W as (_ & Hm & _ & _ & Hmax & _).
  split; [exact Hm|].
  apply Hmax. intros x [<-|[]]. exists 2. split; [right; left|]; reflexivity.
Defined.

Lemma update_task_assignments_delta_witness :
  forallb int_text (form_getlist Sample.both_selected "student_ids") = true
  /\ py_int_list (form_getlist Sample.both_selected "student_ids") = Some [2; 1]
  /\ int64 1 = true
  /\ forallb int64 [2; 1] = true
  /\ snd (fst (serve (update_task_assignments 1 Sample.both_selected) Sample.store))
     = [("Task assigned to 1 new student(s).", "success")].
Proof.
  split; [reflexivity|]. split; [reflexivity|]. split; [reflexivity|].
  split; [reflexivity|].
  pose proof (update_task_assignments_delta Sample.store 1 Sample.both_selected [2; 1]
                eq_refl eq_refl eq_refl eq_refl) as W.
  destruct (serve (update_task_assignments 1 Sample.both_selected) Sample.store)
    as [[d' msgs] r].
  destruct W as (new & _ & _ & _ & _ & _ & _ & Hone).
  apply (Hone 1); [reflexivity|].
  intros sid. split.
  - intros [<-|[<-|[]]]; [left; reflexivity | right; reflexivity].
  - intros [H| ->]; [|right; left; reflexivity].
    apply assigned_iff in H. destruct H as (x & [<-|[]] & _ & H). left. exact H.
Defined.

Lemma update_task_assignments_idempotent_witness :
  forallb int_text (form_getlist Sample.first_selected "student_ids") = true
  /\ py_int_list (form_getlist Sample.first_selected "student_ids") = Some [1]
  /\ int64 1 = true
  /\ forallb int64 [1] = true
  /\ serve (update_task_assignments 1 Sample.first_selected)
           (fst (fst (serve (update_task_assignments 1 Sample.first_selected) Sample.store)))
     = (fst (fst (serve (update_task_assignments 1 Sample.first_selected) Sample.store)),
        [("No changes made to assignments.", "info")], Redirect "task_detail").
Proof.
  split; [reflexivity|]. split; [reflexivity|]. split; [reflexivity|].
  split; [reflexivity|].
  exact (update_task_assignments_idempotent Sample.store 1 Sample.first_selected [1]
           eq_refl eq_refl eq_refl eq_refl).
Defined.

Lemma update_task_assignments_frame_witness :
  forallb int_text (form_getlist Sample.first_selected "student_ids") = true
  /\ py_int_list (form_getlist Sample.first_selected "student_ids") = Some [1]
  /\ int64 1 = true
  /\ forallb int64 [1] = true
  /\ assigned (fst (fst (serve (update_task_assignments 1 Sample.first_selected)
                               Sample.store))) 1 2 = false.
Proof.
  split; [reflexivity|]. split; [reflexivity|]. split; [reflexivity|].
  split; [reflexivity|].
  pose proof (update_task_assignments_frame Sample.store 1 Sample.first_selected [1]
                eq_refl eq_refl eq_refl eq_refl) as W.
  cbv zeta in W. destruct W as (_ & Hdel & _).
  apply (Hdel (1, {| st_task_id := 1; st_student_id := 2; st_status := "Completed";
                     st_completed_date := Some "2024-01-15"%string |})).
  - simpl. left. reflexivity.
  - reflexivity.
  - intros [H|[]]. discriminate H.
Defined.

Lemma bulk_marks_inserts_scored_positions_witness :
  ascii_form Sample.marks_form = true
  /\ scored_entries (form_getlist Sample.marks_form "student_ids")
                    (form_getlist Sample.marks_form "marks_obtained")
                    (form_getlist Sample.marks_form "max_marks") = [(0%nat, "1"%string)]
  /\ snd (fst (serve (bulk_marks literal_affinity Sample.marks_form) Sample.store))
     = [("Bulk marks added: 1 records inserted.", "success")].
Proof.
  split; [reflexivity|]. split; [reflexivity|].
  pose proof (bulk_marks_inserts_scored_positions literal_affinity Sample.store
                Sample.marks_form "1" " Quiz " eq_refl eq_refl eq_refl eq_refl eq_refl)
    as W.
  cbv zeta in W.
  destruct (serve (bulk_marks literal_affinity Sample.marks_form) Sample.store)
    as [[d' msgs] r].
  destruct W as (_ & Hm & _). exact Hm.
Defined.

Lemma student_report_attendance_witness :
  statuses_valid Sample.four_days
  /\ statuses_valid Sample.three_days
  /\ (exists s,
         serve (student_report 1) Sample.four_days
         = (Sample.four_days, [],
            StudentReport (1, Sample.student "U1" "a@x.org" "A" "BCA") s)
         /\ total_days s = 4 /\ present s = 3 /\ absent s = 1
         /\ attendance_percent s = PyFloat (binary64_of_Z 75))
  /\ (exists s,
         serve (student_report 1) Sample.three_days
         = (Sample.three_days, [],
            StudentReport (1, Sample.student "U1" "a@x.org" "A" "BCA") s)
         /\ total_days s = 3 /\ present s = 1 /\ absent s = 2
         /\ attendance_percent s
            = PyFloat (S754_finite false 4690780486883082 (-47))).
Proof.
  split; [reflexivity|]. split; [reflexivity|]. split.
  - destruct (student_report_attendance Sample.four_days 1
                (1, Sample.student "U1" "a@x.org" "A" "BCA") eq_refl eq_refl)
      as (s & Hs & Ht & Hp & Ha & _ & _ & _ & _ & H75 & _).
    exists s. split; [exact Hs|].
    split; [exact Ht|]. split; [exact Hp|]. split; [exact Ha|].
    apply H75; [exact Hp | exact Ha].
  - destruct (student_report_attendance Sample.three_days 1
                (1, Sample.student "U1" "a@x.org" "A" "BCA") eq_refl eq_refl)
      as (s & Hs & Ht & Hp & Ha & _ & _ & _ & _ & _ & H33 & _).
    exists s. split; [exact Hs|].
    split; [exact Ht|]. split; [exact Hp|]. split; [exact Ha|].
    apply H33; [exact Hp | exact Ha].
Defined.

(* ================================================================= *)
(** ** Creating tasks *)

Lemma assign_all_each_counted (task_id : Z) :
  forall (students : list Z) (c : connection) (n : nat),
    assign_all_each task_id students c = fst (assign_each task_id students c n).
Proof.
  induction students as [|sid rest IH]; intros c n; [reflexivity|].
  cbn [assign_all_each assign_each].
  destruct (insert_student_task c task_id sid) as [c'|k]; apply IH.
Qed.

(** X1. A task submitted, in a form of ASCII text, without the
    assign-to-all box is answered with the success message, which names
    the Assign button in double quotes, but its insert is never
    committed: the store is what it was. *)
Theorem tasks_without_assign_all_stores_nothing :
  forall (d : database) (f : form) (title_ description_ due_date_ : string),
    ascii_form f = true ->
    form_item f "title" = Some title_ ->
    form_item f "description" = Some description_ ->
    form_item f "due_date" = Some due_date_ ->
    truthy (strip title_) = true ->
    truthy due_date_ = true ->
    checked f "assign_all" = false ->
    serve (tasks f) d
    = (d,
       [(("Task added. Use " ++ String "034"%char "Assign"
          ++ String "034"%char " to assign to students.")%string, "success")],
       Redirect "tasks").
Proof.
  intros d f title_ description_ due_date_ _ Ht Hd Hdue Tt Tdue Hall.
  unfold serve, tasks. rewrite Ht, Hd, Hdue, Tt, Tdue. cbn [negb orb].
  unfold insert_task. rewrite Hall. reflexivity.
Qed.

(** X2. With the box checked, in a form of ASCII text, the task is stored
    under the next id of the table, every student of the store is
    assigned to it afterwards, and the join rows added are Pending rows
    of that task for students of the store. *)
Theorem tasks_assign_all_assigns_every_student :
  forall (d : database) (f : form) (title_ description_ due_date_ : string),
    ascii_form f = true ->
    form_item f "title" = Some title_ ->
    form_item f "description" = Some description_ ->
    form_item f "due_date" = Some due_date_ ->
    truthy (strip title_) = true ->
    truthy due_date_ = true ->
    checked f "assign_all" = true ->
    let task_id := next_rowid (t_tasks d) in
    let '(d', msgs, r) := serve (tasks f) d in
    rows (t_tasks d')
    = rows (t_tasks d)
      ++ [(task_id, {| title := strip title_; t_description := strip description_;
                       due_date := due_date_ |})]
    /\ (forall sid, In sid (ids (t_students d)) -> assigned d' task_id sid = true)
    /\ (exists new,
           rows (t_student_tasks d') = rows (t_student_tasks d) ++ new
           /\ forall x, In x new ->
                        snd x = pending_row task_id (student_of x)
                        /\ In (student_of x) (ids (t_students d)))
    /\ t_students d' = t_students d
    /\ msgs = [("Task added and assigned to all students.", "success")]
    /\ r = Redirect "tasks".
Proof.
  intros d f title_ description_ due_date_ _ Ht Hd Hdue Tt Tdue Hall task_id.
  unfold serve, tasks. rewrite Ht, Hd, Hdue, Tt, Tdue. cbn [negb orb].
  unfold insert_task. rewrite Hall.
  set (row := {| title := strip title_; t_description := strip description_;
                 due_date := due_date_ |}).
  set (c1 := with_current (get_db d)
               (set_tasks (current (get_db d)) (append_row (t_tasks (current (get_db d))) row))).
  rewrite (assign_all_each_counted (next_rowid (t_tasks (current (get_db d))))
             (map fst (rows (t_students (current c1)))) c1 0).
  destruct (assign_each_spec (next_rowid (t_tasks (current (get_db d))))
              (map fst (rows (t_students (current c1)))) c1 0 eq_refl)
    as (new & a' & Heq & Hp & _ & Hin).
  rewrite Heq.
  cbn [fst conn flashed resp redirect commit close_connection stored current with_current
       t_tasks t_student_tasks t_students set_student_tasks rows].
  change (current c1) with (set_tasks d (append_row (t_tasks d) row)) in *.
  cbn [t_tasks t_student_tasks t_students set_tasks] in *.
  fold task_id in Hp, Hin |- *.
  split; [reflexivity|]. split; [|split; [|repeat split]].
  - intros sid Hsid. unfold assigned.
    cbn [t_student_tasks set_student_tasks rows]. rewrite existsb_app.
    destruct (existsb (same_assignment task_id sid) (rows (t_student_tasks d))) eqn:Ha;
      [reflexivity|].
    cbn [orb].
    assert (Hn : In sid (map student_of new)).
    { apply Hin. split; [exact Hsid|]. exact Ha. }
    apply in_map_iff in Hn. destruct Hn as (x & Hst & Hx).
    apply (existsb_In _ _ _ x Hx). apply same_assignment_iff.
    split; [|exact Hst]. unfold task_of. rewrite (Hp x Hx). reflexivity.
  - exists new. split; [reflexivity|]. intros x Hx. split; [exact (Hp x Hx)|].
    apply (Hin (student_of x)). apply in_map. exact Hx.
Qed.

(* ================================================================= *)
(** ** Completing and resetting assignments *)

Lemma student_task_row_eta (r : student_task_row) :
  {| st_task_id := st_task_id r; st_student_id := st_student_id r;
     st_status := st_status r; st_completed_date := st_completed_date r |} = r.
Proof. destruct r; reflexivity. Qed.

Lemma map_unchanged (A : Type) (g : A -> A) (l : list A) :
  (forall x, In x l -> g x = x) -> map g l = l.
Proof.
  intros H. rewrite <- (map_id l) at 2. apply map_ext_in. exact H.
Qed.

(** X3. Completing an assignment and resetting it: in between, the rows of
    the pair are Completed and carry the date; afterwards they are
    Pending without a date whatever they were before, and every other
    row and table is untouched, so that an assignment that was Pending
    is back to what it was.  For a pair that is not assigned neither
    handler creates a row. *)
Theorem complete_then_reset :
  forall (d : database) (today : string) (task_id student_id : Z),
    let d1 := fst (fst (serve (complete_task today task_id student_id) d)) in
    let d2 := fst (fst (serve (reset_task task_id student_id) d1)) in
    rows (t_student_tasks d1)
    = map (fun x => if same_assignment task_id student_id x
                    then (fst x, {| st_task_id := task_id; st_student_id := student_id;
                                    st_status := "Completed";
                                    st_completed_date := Some today |})
                    else x)
          (rows (t_student_tasks d))
    /\ rows (t_student_tasks d2)
       = map (fun x => if same_assignment task_id student_id x
                       then (fst x, pending_row task_id student_id)
                       else x)
             (rows (t_student_tasks d))
    /\ ((forall x, In x (rows (t_student_tasks d)) ->
                   same_assignment task_id student_id x = true ->
                   st_status (snd x) = "Pending"%string /\ st_completed_date (snd x) = None) ->
        d2 = d)
    /\ (assigned d task_id student_id = false -> d1 = d /\ d2 = d).
Proof.
  intros d today task_id student_id d1 d2.
  assert (H1 : rows (t_student_tasks d1)
               = map (fun x => if same_assignment task_id student_id x
                               then (fst x, {| st_task_id := task_id;
                                               st_student_id := student_id;
                                               st_status := "Completed";
                                               st_completed_date := Some today |})
                               else x)
                     (rows (t_student_tasks d))).
  { unfold d1, serve, complete_task, update_student_tasks.
    cbn [fst conn redirect commit close_connection stored current with_current get_db connect
         t_student_tasks set_student_tasks update_where rows].
    apply map_ext. intros x.
    destruct (same_assignment task_id student_id x) eqn:Hs; [|reflexivity].
    apply same_assignment_iff in Hs. unfold task_of, student_of in Hs.
    destruct Hs as [-> ->]. reflexivity. }
  assert (H2 : rows (t_student_tasks d2)
               = map (fun x => if same_assignment task_id student_id x
                               then (fst x, pending_row task_id student_id)
                               else x)
                     (rows (t_student_tasks d))).
  { unfold d2, serve, reset_task, update_student_tasks.
    cbn [fst conn redirect commit close_connection stored current with_current get_db connect
         t_student_tasks set_student_tasks update_where rows].
    rewrite H1, map_map. apply map_ext. intros x.
    destruct (same_assignment task_id student_id x) eqn:Hs.
    - assert (Hs' : same_assignment task_id student_id
                      (fst x, {| st_task_id := task_id; st_student_id := student_id;
                                 st_status := "Completed";
                                 st_completed_date := Some today |}) = true)
        by (apply same_assignment_iff; split; reflexivity).
      rewrite Hs'. reflexivity.
    - rewrite Hs. reflexivity. }
  assert (Hd1 : d1 = set_student_tasks d {| rows := rows (t_student_tasks d1);
                                            autoinc := autoinc (t_student_tasks d) |})
    by reflexivity.
  assert (Hd2 : d2 = set_student_tasks d {| rows := rows (t_student_tasks d2);
                                            autoinc := autoinc (t_student_tasks d) |}).
  { unfold d2, serve, reset_task, update_student_tasks.
    cbn [fst conn redirect commit close_connection stored current with_current get_db connect
         t_student_tasks set_student_tasks update_where rows autoinc].
    rewrite Hd1. reflexivity. }
  split; [exact H1|]. split; [exact H2|]. split.
  - intros Hpending. rewrite Hd2, H2, map_unchanged.
    + rewrite table_eta. apply set_student_tasks_same.
    + intros x Hx. destruct (same_assignment task_id student_id x) eqn:Hs; [|reflexivity].
      destruct (Hpending x Hx Hs) as [Hst Hdt].
      apply same_assignment_iff in Hs. unfold task_of, student_of in Hs.
      destruct Hs as [Ht Hsid].
      destruct x as [i r]. cbn [fst snd] in *. f_equal.
      unfold pending_row. rewrite <- Ht, <- Hsid, <- Hst, <- Hdt.
      apply student_task_row_eta.
  - intros Hnot.
    assert (Hno : forall x, In x (rows (t_student_tasks d)) ->
                            same_assignment task_id student_id x = false)
      by (intros x Hx; exact (existsb_false_In _ _ _ x Hnot Hx)).
    split.
    + rewrite Hd1, H1, map_unchanged.
      * rewrite table_eta. apply set_student_tasks_same.
      * intros x Hx. rewrite (Hno x Hx). reflexivity.
    + rewrite Hd2, H2, map_unchanged.
      * rewrite table_eta. apply set_student_tasks_same.
      * intros x Hx. rewrite (Hno x Hx). reflexivity.
Qed.

Lemma pending_of_iff (task_id : Z) (x : Z * student_task_row) :
  pending_of task_id x = true
  <-> task_of x = task_id /\ st_status (snd x) = "Pending"%string.
Proof.
  unfold pending_of, task_of. rewrite andb_true_iff, Z.eqb_eq, String.eqb_eq. reflexivity.
Qed.

(** X4. Completing a task in bulk: afterwards the task has no Pending
    assignment; the rows that were Pending are Completed with the date;
    every other row, a Completed one with its earlier date included,
    is in the table as it was; the ids stay as they were; and, for a
    task id within 64 bits, completing in bulk once more, on any date,
    is answered with the same message and changes nothing. *)
Theorem bulk_complete_task_completes_pending :
  forall (d : database) (today later : string) (task_id : Z),
    let d1 := fst (fst (serve (bulk_complete_task today task_id) d)) in
    (forall x, In x (rows (t_student_tasks d1)) ->
               task_of x = task_id -> st_status (snd x) <> "Pending"%string)
    /\ (forall x, In x (rows (t_student_tasks d)) ->
                  pending_of task_id x = true ->
                  In (fst x, {| st_task_id := task_id; st_student_id := student_of x;
                                st_status := "Completed";
                                st_completed_date := Some today |})
                     (rows (t_student_tasks d1)))
    /\ (forall x, In x (rows (t_student_tasks d)) ->
                  pending_of task_id x = false -> In x (rows (t_student_tasks d1)))
    /\ map fst (rows (t_student_tasks d1)) = map fst (rows (t_student_tasks d))
    /\ (int64 task_id = true ->
        serve (bulk_complete_task later task_id) d1
        = (d1, [("All pending students marked as completed.", "success")],
           Redirect "task_detail")).
Proof.
  intros d today later task_id d1.
  set (upd := fun x : Z * student_task_row =>
                if pending_of task_id x
                then (fst x, {| st_task_id := st_task_id (snd x);
                                st_student_id := st_student_id (snd x);
                                st_status := "Completed";
                                st_completed_date := Some today |})
                else x).
  assert (H1 : rows (t_student_tasks d1) = map upd (rows (t_student_tasks d)))
    by reflexivity.
  assert (Hnone : forall x, In x (rows (t_student_tasks d1)) -> pending_of task_id x = false).
  { intros x Hx. rewrite H1 in Hx. apply in_map_iff in Hx. destruct Hx as (y & <- & Hy).
    unfold upd. destruct (pending_of task_id y) eqn:Hp; [|exact Hp].
    unfold pending_of. cbn [snd st_status]. apply andb_false_r. }
  split; [|split; [|split; [|split]]].
  - intros x Hx Ht Hst. specialize (Hnone x Hx).
    rewrite (proj2 (pending_of_iff task_id x) (conj Ht Hst)) in Hnone. discriminate.
  - intros x Hx Hp. rewrite H1. apply in_map_iff. exists x. split; [|exact Hx].
    unfold upd. rewrite Hp. apply pending_of_iff in Hp. destruct Hp as [Ht _].
    unfold task_of in Ht. unfold student_of. rewrite Ht. reflexivity.
  - intros x Hx Hp. rewrite H1. apply in_map_iff. exists x. split; [|exact Hx].
    unfold upd. rewrite Hp. reflexivity.
  - rewrite H1, map_map. apply map_ext. intros x. unfold upd.
    destruct (pending_of task_id x); reflexivity.
  - intros _. clearbody d1. clear H1.
    unfold serve, bulk_complete_task, update_student_tasks, update_where.
    fresh_connection.
    cbn [conn flashed resp redirect commit close_connection stored current with_current].
    rewrite map_unchanged.
    + rewrite table_eta, set_student_tasks_same. reflexivity.
    + intros x Hx. rewrite (Hnone x Hx). reflexivity.
Qed.

(** X5. Assigning a task to one student, both ids within 64 bits:
    afterwards the student is assigned; a pair that was not assigned
    gets one Pending row; a pair that was assigned is answered with the
    warning and nothing changes; and assigning the same pair once more
    always ends in the warning with the store as the first attempt left
    it. *)
Theorem assign_task_to_student_once :
  forall (d : database) (task_id student_id : Z),
    int64 task_id = true ->
    int64 student_id = true ->
    let d1 := fst (fst (serve (assign_task_to_student task_id student_id) d)) in
    assigned d1 task_id student_id = true
    /\ (assigned d task_id student_id = false ->
        serve (assign_task_to_student task_id student_id) d
        = (set_student_tasks d
             (append_row (t_student_tasks d) (pending_row task_id student_id)),
           [("Task assigned to student.", "success")], Redirect "task_detail"))
    /\ (assigned d task_id student_id = true ->
        serve (assign_task_to_student task_id student_id) d
        = (d, [("Task already assigned to this student.", "warning")],
           Redirect "task_detail"))
    /\ serve (assign_task_to_student task_id student_id) d1
       = (d1, [("Task already assigned to this student.", "warning")],
          Redirect "task_detail").
Proof.
  intros d task_id student_id _ _ d1.
  assert (Hyes : forall d0, assigned d0 task_id student_id = true ->
                            serve (assign_task_to_student task_id student_id) d0
                            = (d0, [("Task already assigned to this student.", "warning")],
                               Redirect "task_detail")).
  { intros d0 Ha. unfold serve, assign_task_to_student, insert_student_task.
    fresh_connection. unfold assigned in Ha. rewrite Ha. reflexivity. }
  assert (Hno : assigned d task_id student_id = false ->
                serve (assign_task_to_student task_id student_id) d
                = (set_student_tasks d
                     (append_row (t_student_tasks d) (pending_row task_id student_id)),
                   [("Task assigned to student.", "success")], Redirect "task_detail")).
  { intros Ha. unfold serve, assign_task_to_student, insert_student_task.
    fresh_connection. unfold assigned in Ha. rewrite Ha. reflexivity. }
  assert (H1 : assigned d1 task_id student_id = true).
  { unfold d1. destruct (assigned d task_id student_id) eqn:Ha.
    - rewrite (Hyes d Ha). exact Ha.
    - rewrite (Hno eq_refl). cbn [fst]. unfold assigned.
      cbn [t_student_tasks set_student_tasks append_row rows].
      rewrite existsb_app. apply orb_true_iff. right. cbn [existsb].
      unfold same_assignment, pending_row. cbn [snd st_task_id st_student_id].
      rewrite !Z.eqb_refl. reflexivity. }
  split; [exact H1|]. split; [exact Hno|]. split; [exact (Hyes d)|]. exact (Hyes d1 H1).
Qed.

(* ================================================================= *)
(** ** Row ids *)

Lemma max_rowid_ge (R : Type) (l : list (Z * R)) (x : Z * R) :
  In x l -> fst x <= max_rowid l.
Proof.
  induction l as [|y l IH]; intros Hx; [destruct Hx|].
  cbn [max_rowid fold_right]. fold (max_rowid l).
  destruct Hx as [->|Hx]; [lia|]. specialize (IH Hx). lia.
Qed.

Lemma next_rowid_fresh (R : Type) (t : table R) (x : Z * R) :
  In x (rows t) -> fst x < next_rowid t.
Proof.
  intros Hx. unfold next_rowid. pose proof (max_rowid_ge R (rows t) x Hx). lia.
Qed.

Lemma sequenced_iff (R : Type) (t : table R) :
  sequenced t <-> forall x, In x (rows t) -> fst x <= autoinc t.
Proof.
  unfold sequenced. rewrite forallb_forall.
  split; intros H x Hx; [apply Z.leb_le | apply Z.leb_le]; apply H; exact Hx.
Qed.

Lemma sequenced_append (R : Type) (t : table R) (r : R) : sequenced (append_row t r).
Proof.
  apply sequenced_iff. cbn [append_row rows autoinc]. intros x Hx.
  apply in_app_or in Hx. destruct Hx as [Hx|[<-|[]]].
  - pose proof (next_rowid_fresh R t x Hx). lia.
  - cbn [fst]. lia.
Qed.

Lemma sequenced_delete (R : Type) (p : Z * R -> bool) (t : table R) :
  sequenced t -> sequenced (delete_where p t).
Proof.
  rewrite !sequenced_iff. cbn [delete_where rows autoinc]. intros H x Hx.
  apply filter_In in Hx. apply H, Hx.
Qed.

Lemma sequenced_update (R : Type) (p : Z * R -> bool) (g : R -> R) (t : table R) :
  sequenced t -> sequenced (update_where p g t).
Proof.
  rewrite !sequenced_iff. cbn [update_where rows autoinc]. intros H x Hx.
  apply in_map_iff in Hx. destruct Hx as (y & <- & Hy).
  destruct (p y); cbn [fst]; exact (H y Hy).
Qed.

(** The id of a deleted row stays below the next id of the table. *)
Lemma deleted_id_below_next (R : Type) (p : Z * R -> bool) (t : table R) (x : Z * R) :
  sequenced t -> In x (rows t) -> fst x < next_rowid (delete_where p t).
Proof.
  intros Hs Hx. unfold next_rowid. cbn [delete_where autoinc].
  pose proof (proj1 (sequenced_iff R t) Hs x Hx). lia.
Qed.

(* ================================================================= *)
(** ** Uniqueness constraints as lists without repetition *)

Lemma distinct_NoDup (A K : Type) (key : A -> K) (same : A -> A -> bool) :
  (forall x y, same x y = true <-> key x = key y) ->
  forall l, distinct same l = true <-> NoDup (map key l).
Proof.
  intros Hsame. induction l as [|x l IH]; cbn [distinct map].
  - split; [constructor | reflexivity].
  - rewrite andb_true_iff, negb_true_iff, IH. split.
    + intros [Hx Hl]. constructor; [|exact Hl].
      intros Hin. apply in_map_iff in Hin. destruct Hin as (y & Hk & Hy).
      rewrite (existsb_In _ _ _ y Hy (proj2 (Hsame x y) (eq_sym Hk))) in Hx. discriminate.
    + intros Hnd. inversion Hnd as [|? ? Hnot Hl]; subst. split; [|exact Hl].
      destruct (existsb (same x) l) eqn:Hex; [|reflexivity].
      apply existsb_exists in Hex. destruct Hex as (y & Hy & Hs).
      exfalso. apply Hnot. apply in_map_iff. exists y.
      split; [symmetry; apply Hsame; exact Hs | exact Hy].
Qed.

Lemma NoDup_snoc (K : Type) (l : list K) (a : K) :
  NoDup l -> ~ In a l -> NoDup (l ++ [a]).
Proof.
  induction l as [|b l IH]; intros Hnd Hnot; cbn [app].
  - constructor; [intros [] | constructor].
  - inversion Hnd as [|? ? Hb Hl]; subst. constructor.
    + intros Hin. apply in_app_or in Hin. destruct Hin as [Hin|[->|[]]].
      * exact (Hb Hin).
      * apply Hnot. left. reflexivity.
    + apply IH; [exact Hl|]. intros Hin. apply Hnot. right. exact Hin.
Qed.

Lemma NoDup_map_filter (A K : Type) (key : A -> K) (p : A -> bool) (l : list A) :
  NoDup (map key l) -> NoDup (map key (filter p l)).
Proof.
  induction l as [|x l IH]; cbn [map filter]; [tauto|].
  intros Hnd. inversion Hnd as [|? ? Hx Hl]; subst.
  destruct (p x); [|exact (IH Hl)].
  cbn [map]. constructor; [|exact (IH Hl)].
  intros Hin. apply Hx. apply in_map_iff in Hin. destruct Hin as (y & Hk & Hy).
  apply filter_In in Hy. apply in_map_iff. exists y. split; [exact Hk | apply Hy].
Qed.

(** Replacing the payload of the row with a given id keeps a key
    unique when no row with another id carries the new key. *)
Lemma NoDup_map_update (R K : Type) (key : R -> K) (i : Z) (r : R) (l : list (Z * R)) :
  NoDup (map fst l) ->
  NoDup (map (fun x => key (snd x)) l) ->
  (forall y, In y l -> fst y <> i -> key (snd y) <> key r) ->
  NoDup (map (fun x => key (snd x))
             (map (fun x => if fst x =? i then (fst x, r) else x) l)).
Proof.
  induction l as [|x l IH]; cbn [map]; [constructor|].
  intros Hid Hk Hother.
  inversion Hid as [|? ? Hxid Hlid]; subst. inversion Hk as [|? ? Hxk Hlk]; subst.
  assert (IH' := IH Hlid Hlk (fun y Hy => Hother y (or_intror Hy))).
  constructor; [|exact IH'].
  intros Hin. apply in_map_iff in Hin. destruct Hin as (z & Hz & Hzin).
  apply in_map_iff in Hzin. destruct Hzin as (y & <- & Hy).
  destruct (Z.eqb_spec (fst y) i) as [Ey|Ey]; destruct (Z.eqb_spec (fst x) i) as [Ex|Ex];
    cbn [snd] in Hz.
  - apply Hxid. apply in_map_iff. exists y. split; [congruence | exact Hy].
  - exact (Hother x (or_introl eq_refl) Ex (eq_sym Hz)).
  - exact (Hother y (or_intror Hy) Ey Hz).
  - apply Hxk. apply in_map_iff. exists y. split; [exact Hz | exact Hy].
Qed.

Lemma map_fst_update (R : Type) (p : Z * R -> bool) (g : R -> R) (l : list (Z * R)) :
  map fst (map (fun x => if p x then (fst x, g (snd x)) else x) l) = map fst l.
Proof.
  rewrite map_map. apply map_ext. intros x. destruct (p x); reflexivity.
Qed.

(* ================================================================= *)
(** ** The constraints of students *)

Lemma students_ok_iff (d : database) :
  students_ok d
  <-> NoDup (map fst (rows (t_students d)))
      /\ NoDup (map (fun x => usn (snd x)) (rows (t_students d)))
      /\ NoDup (map (fun x => email (snd x)) (rows (t_students d)))
      /\ sequenced (t_students d).
Proof.
  unfold students_ok, student_ids_unique, usn_unique, email_unique, ids.
  rewrite (distinct_NoDup Z Z (fun z => z) Z.eqb (fun x y => Z.eqb_eq x y)), map_id.
  rewrite (distinct_NoDup _ _ (fun x : Z * student_row => usn (snd x)) _
             (fun x y => String.eqb_eq (usn (snd x)) (usn (snd y)))).
  rewrite (distinct_NoDup _ _ (fun x : Z * student_row => email (snd x)) _
             (fun x y => String.eqb_eq (email (snd x)) (email (snd y)))).
  reflexivity.
Qed.

Lemma append_student_ok (d : database) (r : student_row) :
  students_ok d ->
  (forall y, In y (rows (t_students d)) -> usn (snd y) <> usn r /\ email (snd y) <> email r) ->
  students_ok (set_students d (append_row (t_students d) r)).
Proof.
  rewrite !students_ok_iff. intros (Hid & Hu & He & _) Hfresh.
  cbn [t_students set_students]. split; [|split; [|split]].
  - cbn [append_row rows]. rewrite map_app. apply NoDup_snoc; [exact Hid|].
    cbn [map fst]. intros Hin. apply in_map_iff in Hin. destruct Hin as (y & Hy & Hin).
    pose proof (next_rowid_fresh _ _ y Hin). lia.
  - cbn [append_row rows]. rewrite map_app. apply NoDup_snoc; [exact Hu|].
    cbn [map snd]. intros Hin. apply in_map_iff in Hin. destruct Hin as (y & Hy & Hin).
    exact (proj1 (Hfresh y Hin) Hy).
  - cbn [append_row rows]. rewrite map_app. apply NoDup_snoc; [exact He|].
    cbn [map snd]. intros Hin. apply in_map_iff in Hin. destruct Hin as (y & Hy & Hin).
    exact (proj2 (Hfresh y Hin) Hy).
  - apply sequenced_append.
Qed.

Lemma update_student_ok (d : database) (id : Z) (r : student_row) :
  students_ok d ->
  (forall y, In y (rows (t_students d)) -> fst y <> id ->
             usn (snd y) <> usn r /\ email (snd y) <> email r) ->
  students_ok (set_students d (update_where (fun x => fst x =? id) (fun _ => r)
                                            (t_students d))).
Proof.
  rewrite !students_ok_iff. intros (Hid & Hu & He & Hs) Hother.
  cbn [t_students set_students]. split; [|split; [|split]].
  - cbn [update_where rows].
    rewrite (map_fst_update _ (fun x => fst x =? id) (fun _ => r)). exact Hid.
  - cbn [update_where rows].
    apply (NoDup_map_update _ _ usn id r); [exact Hid | exact Hu |].
    intros y Hy Hne. exact (proj1 (Hother y Hy Hne)).
  - cbn [update_where rows].
    apply (NoDup_map_update _ _ email id r); [exact Hid | exact He |].
    intros y Hy Hne. exact (proj2 (Hother y Hy Hne)).
  - apply sequenced_update. exact Hs.
Qed.

Lemma delete_student_ok (d : database) (id : Z) :
  students_ok d ->
  students_ok (set_students d (delete_where (fun x => fst x =? id) (t_students d))).
Proof.
  rewrite !students_ok_iff. intros (Hid & Hu & He & Hs).
  cbn [t_students set_students delete_where rows].
  split; [|split; [|split]]; try (apply NoDup_map_filter; assumption).
  apply (sequenced_delete _ (fun x => fst x =? id)). exact Hs.
Qed.

(** X7. The uniqueness of student ids, usns and emails, and the bound of
    the ids by the counter of the table, hold after each of the three
    handlers that write to [students], whatever the form and the id. *)
Theorem students_constraints_invariant :
  forall (d : database) (f : form) (id : Z),
    students_ok d ->
    students_ok (fst (fst (serve (add_student f) d)))
    /\ students_ok (fst (fst (serve (edit_student id f) d)))
    /\ students_ok (fst (fst (serve (delete_student id) d))).
Proof.
  intros d f id Hok. split; [|split].
  - unfold serve, add_student.
    destruct (form_item f "usn") as [v1|]; [|exact Hok].
    destruct (form_item f "name") as [v2|]; [|exact Hok].
    destruct (form_item f "email") as [v3|]; [|exact Hok].
    destruct (form_item f "phone") as [v4|]; [|exact Hok].
    destruct (form_item f "class") as [v5|]; [|exact Hok].
    destruct (form_item f "department") as [v6|]; [|exact Hok].
    cbv zeta. cbn [usn name email class_ department].
    match goal with |- context [if ?b then _ else _] => destruct b end; [exact Hok|].
    unfold insert_student. fresh_connection. cbn [usn email].
    match goal with |- context [existsb ?p ?l] => destruct (existsb p l) eqn:Hex end;
      [exact Hok|].
    cbn [fst conn redirect commit close_connection stored current with_current].
    apply append_student_ok; [exact Hok|].
    intros y Hy. pose proof (existsb_false_In _ _ _ y Hex Hy) as Hn. cbv beta in Hn.
    apply orb_false_iff in Hn. destruct Hn as [Hu He].
    apply String.eqb_neq in Hu. apply String.eqb_neq in He. split; assumption.
  - unfold serve, edit_student.
    destruct (form_item f "usn") as [v1|]; [|exact Hok].
    destruct (form_item f "name") as [v2|]; [|exact Hok].
    destruct (form_item f "email") as [v3|]; [|exact Hok].
    destruct (form_item f "phone") as [v4|]; [|exact Hok].
    destruct (form_item f "class") as [v5|]; [|exact Hok].
    destruct (form_item f "department") as [v6|]; [|exact Hok].
    cbv zeta. cbn [usn name email class_ department].
    match goal with |- context [if ?b then _ else _] => destruct b end; [exact Hok|].
    unfold select_other_student. fresh_connection.
    match goal with |- context [find ?p ?l] => destruct (find p l) eqn:Hfind end;
      [exact Hok|].
    cbn [option_map].
    unfold update_student. fresh_connection. cbn [usn email].
    match goal with |- context [if ?b then _ else _] => destruct b end; [exact Hok|].
    cbn [fst conn redirect commit close_connection stored current with_current].
    apply update_student_ok; [exact Hok|].
    cbn [usn email]. intros y Hy Hne.
    pose proof (find_none _ _ Hfind y Hy) as Hn. cbv beta in Hn.
    rewrite (proj2 (Z.eqb_neq _ _) Hne) in Hn. cbn [negb] in Hn. rewrite andb_true_r in Hn.
    apply orb_false_iff in Hn. destruct Hn as [Hu He].
    apply String.eqb_neq in Hu. apply String.eqb_neq in He. split; assumption.
  - unfold serve, delete_student, delete_from_students. fresh_connection.
    cbn [andb fst conn redirect commit close_connection stored current with_current].
    apply delete_student_ok. exact Hok.
Qed.

(** X8. The id of a deleted student is not handed out again: a student
    added after the deletion gets an id above it, so the records that
    the deletion left behind under the old id are not taken for the new
    student's. *)
Theorem deleted_student_id_not_reused :
  forall (d : database) (f : form) (u e : string) (gone : Z * student_row),
    ascii_form f = true ->
    student_form_ok f u e ->
    sequenced (t_students d) ->
    In gone (rows (t_students d)) ->
    let d1 := fst (fst (serve (delete_student (fst gone)) d)) in
    (forall y, In y (rows (t_students d1)) -> usn (snd y) <> u /\ email (snd y) <> e) ->
    exists i r,
      rows (t_students (fst (fst (serve (add_student f) d1))))
      = rows (t_students d1) ++ [(i, r)]
      /\ fst gone < i /\ usn r = u /\ email r = e
      /\ (forall y, In y (rows (t_students d)) -> fst y < i).
Proof.
  intros d f u e gone _
         (usn_ & name_ & email_ & phone_ & cls & dept & Hu & Hn & He & Hp & Hc
          & Hd & Su & Se & Tu & Tn & Te & Tc & Td) Hseq Hgone d1 Hfresh.
  assert (Hd1 : t_students d1 = delete_where (fun x => fst x =? fst gone) (t_students d))
    by reflexivity.
  exists (next_rowid (t_students d1)).
  eexists. split; [|split; [|split; [|split]]].
  - unfold serve, add_student. rewrite Hu, Hn, He, Hp, Hc, Hd.
    cbv beta iota zeta. cbn [usn name email class_ department].
    rewrite Su, Se, Tu, Tn, Te, Tc, Td. cbn [negb orb].
    unfold insert_student. fresh_connection. cbn [usn email].
    match goal with |- context [existsb ?p ?l] => destruct (existsb p l) eqn:Hex end.
    + exfalso. apply existsb_exists in Hex. destruct Hex as (y & Hy & Hsame).
      destruct (Hfresh y Hy) as [Hyu Hye]. apply orb_true_iff in Hsame.
      destruct Hsame as [H|H]; apply String.eqb_eq in H; contradiction.
    + reflexivity.
  - rewrite Hd1. apply deleted_id_below_next; assumption.
  - reflexivity.
  - reflexivity.
  - intros y Hy. rewrite Hd1. apply deleted_id_below_next; assumption.
Qed.

(* ================================================================= *)
(** ** Deleting tasks and subjects *)

(** X6. Deleting a task removes the row of the task and nothing else: its
    assignments stay in [student_tasks]; deleting a subject likewise
    leaves its marks.  The id of a deleted task or subject lies below
    the next id of its table, so a later row does not take it over. *)
Theorem delete_task_and_subject_leave_children :
  forall (d : database) (id : Z),
    let d1 := fst (fst (serve (delete_task id) d)) in
    let d2 := fst (fst (serve (delete_subject id) d)) in
    (rows (t_tasks d1) = filter (fun x => negb (fst x =? id)) (rows (t_tasks d))
     /\ t_student_tasks d1 = t_student_tasks d
     /\ (forall sid, assigned d1 id sid = assigned d id sid)
     /\ (sequenced (t_tasks d) -> has_rowid (t_tasks d) id = true ->
         id < next_rowid (t_tasks d1)))
    /\ (rows (t_subjects d2) = filter (fun x => negb (fst x =? id)) (rows (t_subjects d))
        /\ t_marks d2 = t_marks d
        /\ (sequenced (t_subjects d) -> has_rowid (t_subjects d) id = true ->
            id < next_rowid (t_subjects d2))).
Proof.
  intros d id d1 d2. split.
  - split; [reflexivity|]. split; [reflexivity|]. split; [reflexivity|].
    intros Hs Hrow. unfold has_rowid in Hrow. apply existsb_exists in Hrow.
    destruct Hrow as (x & Hx & E). apply Z.eqb_eq in E. rewrite <- E.
    exact (deleted_id_below_next _ (fun y => fst y =? id) (t_tasks d) x Hs Hx).
  - split; [reflexivity|]. split; [reflexivity|].
    intros Hs Hrow. unfold has_rowid in Hrow. apply existsb_exists in Hrow.
    destruct Hrow as (x & Hx & E). apply Z.eqb_eq in E. rewrite <- E.
    exact (deleted_id_below_next _ (fun y => fst y =? id) (t_subjects d) x Hs Hx).
Qed.

(* ================================================================= *)
(** ** The constraint of assignments *)

Lemma assignments_unique_iff (d : database) :
  assignments_unique d <-> NoDup (map pair_of (rows (t_student_tasks d))).
Proof.
  unfold assignments_unique. apply distinct_NoDup.
  intros x y. rewrite same_assignment_iff. unfold pair_of, task_of, student_of.
  split; [intros [-> ->]; reflexivity | intros E; injection E as -> ->; auto].
Qed.

Lemma insert_student_task_keeps_unique (c c' : connection) (task_id sid : Z) :
  insert_student_task c task_id sid = Done c' ->
  assignments_unique (current c) -> assignments_unique (current c').
Proof.
  unfold insert_student_task. intros Hins Hu.
  destruct (existsb (same_assignment task_id sid) (rows (t_student_tasks (current c))))
    eqn:Hex; [discriminate|].
  match type of Hins with (if ?b then _ else _) = _ => destruct b end; [discriminate|].
  injection Hins as <-. apply assignments_unique_iff.
  apply assignments_unique_iff in Hu.
  cbn [current with_current t_student_tasks set_student_tasks append_row rows].
  rewrite map_app. apply NoDup_snoc; [exact Hu|].
  cbn [map]. intros Hin. apply in_map_iff in Hin. destruct Hin as (y & Hy & Hin).
  unfold pair_of in Hy. cbn [task_of student_of snd st_task_id st_student_id] in Hy.
  injection Hy as Ht Hs.
  rewrite (existsb_In _ _ _ y Hin (proj2 (same_assignment_iff task_id sid y) (conj Ht Hs)))
    in Hex.
  discriminate.
Qed.

Lemma assign_each_keeps_unique (task_id : Z) :
  forall (l : list Z) (c : connection) (n : nat),
    assignments_unique (current c) ->
    assignments_unique (current (fst (assign_each task_id l c n))).
Proof.
  induction l as [|sid rest IH]; intros c n Hu; [exact Hu|].
  cbn [assign_each].
  destruct (insert_student_task c task_id sid) as [c'|k] eqn:Hins.
  - apply IH. exact (insert_student_task_keeps_unique _ _ _ _ Hins Hu).
  - apply IH. exact Hu.
Qed.

Lemma update_student_tasks_keeps_unique (c : connection) (p : Z * student_task_row -> bool)
      (status : string) (completed_date : option string) :
  assignments_unique (current c) ->
  assignments_unique (current (update_student_tasks c p status completed_date)).
Proof.
  rewrite !assignments_unique_iff. intros Hu.
  unfold update_student_tasks.
  cbn [current with_current t_student_tasks set_student_tasks update_where rows].
  rewrite map_map.
  rewrite (map_ext _ pair_of); [exact Hu|].
  intros x. destruct (p x); reflexivity.
Qed.

(** X11. At most one join row per task and student: the constraint holds
    after every handler that writes to [student_tasks] or deletes one
    of its parents. *)
Theorem assignments_unique_invariant :
  forall (d : database) (f : form) (today : string) (task_id student_id : Z),
    assignments_unique d ->
    let after handler := fst (fst (serve handler d)) in
    assignments_unique (after (update_task_assignments task_id f))
    /\ assignments_unique (after (assign_task_to_student task_id student_id))
    /\ assignments_unique (after (tasks f))
    /\ assignments_unique (after (complete_task today task_id student_id))
    /\ assignments_unique (after (reset_task task_id student_id))
    /\ assignments_unique (after (bulk_complete_task today task_id))
    /\ assignments_unique (after (delete_task task_id))
    /\ assignments_unique (after (delete_student student_id)).
Proof.
  intros d f today task_id student_id Hu after. subst after. cbv beta.
  split; [|split; [|split; [|split; [|split; [|split; [|split]]]]]].
  - unfold serve, update_task_assignments.
    destruct (py_int_list (form_getlist f "student_ids")) as [selected|]; [|exact Hu].
    pose proof (assign_each_keeps_unique task_id
                  (filter (fun sid => negb (mem sid (select_assigned (get_db d) task_id)))
                          selected) (get_db d) 0 Hu) as H1.
    destruct (assign_each task_id _ (get_db d) 0) as [c1 n1]. cbn [fst] in H1.
    rewrite unassign_each_spec.
    cbn [fst conn commit close_connection stored current with_current].
    apply assignments_unique_iff. apply assignments_unique_iff in H1.
    cbn [t_student_tasks set_student_tasks rows].
    apply NoDup_map_filter. exact H1.
  - unfold serve, assign_task_to_student.
    destruct (insert_student_task (get_db d) task_id student_id) as [c'|k] eqn:Hins;
      [|exact Hu].
    exact (insert_student_task_keeps_unique _ _ _ _ Hins Hu).
  - unfold serve, tasks.
    destruct (form_item f "title") as [v1|]; [|exact Hu].
    destruct (form_item f "description") as [v2|]; [|exact Hu].
    destruct (form_item f "due_date") as [v3|]; [|exact Hu].
    match goal with |- context [if ?b then _ else _] => destruct b end; [exact Hu|].
    unfold insert_task.
    destruct (checked f "assign_all"); [|exact Hu].
    cbn [fst conn redirect commit close_connection stored].
    match goal with
    | |- context [assign_all_each ?t ?l ?c] =>
        rewrite (assign_all_each_counted t l c 0);
        apply (assign_each_keeps_unique t l c 0)
    end.
    exact Hu.
  - exact (update_student_tasks_keeps_unique (get_db d) _ _ _ Hu).
  - exact (update_student_tasks_keeps_unique (get_db d) _ _ _ Hu).
  - exact (update_student_tasks_keeps_unique (get_db d) _ _ _ Hu).
  - exact Hu.
  - exact Hu.
Qed.

(* ================================================================= *)
(** ** The constraints of subjects *)

Lemma subjects_ok_iff (d : database) :
  subjects_ok d
  <-> NoDup (map fst (rows (t_subjects d)))
      /\ NoDup (map (fun x => triple_of (snd x)) (rows (t_subjects d))).
Proof.
  unfold subjects_ok, subjects_unique, ids.
  rewrite (distinct_NoDup Z Z (fun z => z) Z.eqb (fun x y => Z.eqb_eq x y)), map_id.
  rewrite (distinct_NoDup _ _ (fun x : Z * subject_row => triple_of (snd x))).
  - reflexivity.
  - intros x y. unfold triple_of. cbn [snd]. split.
    + intros H. apply same_subject_elim in H. destruct H as (-> & -> & ->). reflexivity.
    + intros E. injection E as E1 E2 E3. apply same_subject_intro; congruence.
Qed.

Section SubjectConstraints.

Variable integer_affinity : string -> value.

(** X13. Unique ids and at most one subject per (name, course, semester):
    both hold after each of the three handlers that write to
    [subjects], whatever the form and the id. *)
Theorem subjects_constraints_invariant :
  forall (d : database) (f : form) (id : Z),
    subjects_ok d ->
    subjects_ok (fst (fst (serve (subjects integer_affinity f) d)))
    /\ subjects_ok (fst (fst (serve (edit_subject integer_affinity id f) d)))
    /\ subjects_ok (fst (fst (serve (delete_subject id) d))).
Proof.
  intros d f id Hok. split; [|split].
  - unfold serve, subjects.
    destruct (form_item f "name") as [v1|]; [|exact Hok].
    destruct (form_item f "course") as [v2|]; [|exact Hok].
    destruct (form_item f "semester") as [v3|]; [|exact Hok].
    destruct (form_item f "description") as [v4|]; [|exact Hok].
    cbv zeta. cbn [s_name s_course s_semester].
    match goal with |- context [if ?b then _ else _] => destruct b end; [exact Hok|].
    unfold insert_subject. fresh_connection. cbn [s_name s_course s_semester].
    match goal with |- context [existsb ?p ?l] => destruct (existsb p l) eqn:Hex end;
      [exact Hok|].
    cbn [fst conn redirect commit close_connection stored current with_current].
    apply subjects_ok_iff. apply subjects_ok_iff in Hok. destruct Hok as [Hid Htr].
    cbn [t_subjects set_subjects append_row rows]. rewrite !map_app. split.
    + apply NoDup_snoc; [exact Hid|]. cbn [map fst]. intros Hin.
      apply in_map_iff in Hin. destruct Hin as (y & Hy & Hin).
      pose proof (next_rowid_fresh _ _ y Hin). lia.
    + apply NoDup_snoc; [exact Htr|]. cbn [map]. intros Hin.
      apply in_map_iff in Hin. destruct Hin as (y & Hy & Hin).
      unfold triple_of in Hy. cbn [snd s_name s_course s_semester] in Hy.
      injection Hy as E1 E2 E3.
      rewrite (existsb_In _ _ _ y Hin (same_subject_intro _ _ _ y E1 E2 E3)) in Hex.
      discriminate.
  - unfold serve, edit_subject.
    destruct (form_item f "name") as [v1|]; [|exact Hok].
    destruct (form_item f "course") as [v2|]; [|exact Hok].
    destruct (form_item f "semester") as [v3|]; [|exact Hok].
    destruct (form_item f "description") as [v4|]; [|exact Hok].
    cbv zeta. cbn [s_name s_course s_semester].
    match goal with |- context [if ?b then _ else _] => destruct b end; [exact Hok|].
    unfold select_other_subject. fresh_connection.
    match goal with |- context [find ?p ?l] => destruct (find p l) eqn:Hfind end;
      [exact Hok|].
    cbn [option_map].
    unfold update_subject. fresh_connection.
    match goal with |- context [if ?b then _ else _] => destruct b end; [exact Hok|].
    cbn [fst conn redirect commit close_connection stored current with_current].
    apply subjects_ok_iff. apply subjects_ok_iff in Hok. destruct Hok as [Hid Htr].
    cbn [t_subjects set_subjects update_where rows]. split.
    + rewrite (map_fst_update _ (fun x => fst x =? id)
                              (fun _ => {| s_name := strip v1; s_course := strip v2;
                                           s_semester := integer_affinity v3;
                                           s_description := strip v4 |})).
      exact Hid.
    + apply (NoDup_map_update _ _ triple_of id); [exact Hid | exact Htr |].
      intros y Hy Hne Htriple.
      pose proof (find_none _ _ Hfind y Hy) as Hn. cbv beta in Hn.
      rewrite (proj2 (Z.eqb_neq _ _) Hne) in Hn. cbn [negb] in Hn. rewrite andb_true_r in Hn.
      unfold triple_of in Htriple. cbn [snd s_name s_course s_semester] in Htriple.
      injection Htriple as E1 E2 E3.
      rewrite (same_subject_intro _ _ _ y E1 E2 E3) in Hn. discriminate.
  - unfold serve, delete_subject, delete_from_subjects. fresh_connection.
    cbn [andb fst conn redirect commit close_connection stored current with_current].
    apply subjects_ok_iff. apply subjects_ok_iff in Hok. destruct Hok as [Hid Htr].
    cbn [t_subjects set_subjects delete_where rows].
    split; apply NoDup_map_filter; assumption.
Qed.

End SubjectConstraints.

(* ================================================================= *)
(** ** The class report and the student report *)

Lemma insert_sorted_perm (A : Type) (le : A -> A -> bool) (x : A) (l : list A) :
  Permutation (insert_sorted le x l) (x :: l).
Proof.
  induction l as [|y l IH]; cbn [insert_sorted]; [apply Permutation_refl|].
  destruct (le x y); [apply Permutation_refl|].
  apply perm_trans with (y :: x :: l); [apply perm_skip; exact IH | apply perm_swap].
Qed.

Lemma order_by_perm (A : Type) (le : A -> A -> bool) (l : list A) :
  Permutation (order_by le l) l.
Proof.
  induction l as [|x l IH]; [apply perm_nil|].
  unfold order_by. cbn [fold_right]. fold (order_by le l).
  apply perm_trans with (x :: order_by le l);
    [apply insert_sorted_perm | apply perm_skip; exact IH].
Qed.

Lemma filter_perm (A : Type) (p : A -> bool) (l l' : list A) :
  Permutation l l' -> Permutation (filter p l) (filter p l').
Proof.
  induction 1 as [|x l l' _ IH|x y l|l l' l'' _ IH1 _ IH2]; cbn [filter].
  - apply perm_nil.
  - destruct (p x); [apply perm_skip|]; exact IH.
  - destruct (p x), (p y); try apply Permutation_refl. apply perm_swap.
  - exact (perm_trans IH1 IH2).
Qed.

Lemma filter_by_id (R : Type) (l : list (Z * R)) (x : Z * R) :
  NoDup (map fst l) -> In x l -> filter (fun y => fst y =? fst x) l = [x].
Proof.
  induction l as [|y l IH]; intros Hnd Hx; [destruct Hx|].
  cbn [map] in Hnd. inversion Hnd as [|? ? Hy Hl]; subst. cbn [filter].
  destruct Hx as [->|Hx].
  - rewrite Z.eqb_refl. f_equal. apply filter_nothing. intros z Hz.
    apply Z.eqb_neq. intros E. apply Hy. rewrite <- E. apply in_map. exact Hz.
  - destruct (Z.eqb_spec (fst y) (fst x)) as [E|E].
    + exfalso. apply Hy. rewrite E. apply in_map. exact Hx.
    + exact (IH Hl Hx).
Qed.

Lemma sum_case_joined_count (status : string) (l : list (Z * attendance_row)) :
  or_zero (sum_case_joined status l) = or_zero (sum_case status l).
Proof. destruct l; reflexivity. Qed.

(** X17. A student that exists and passes the filters of the class report has
    exactly one entry in it, and the entry carries the numbers and the
    percentage of the student's own report; a student that a filter
    excludes has none. *)
Theorem reports_agrees_with_student_report :
  forall (d : database) (args : form) (student_id : Z) (student : Z * student_row),
    select_student (get_db d) student_id = Some student ->
    student_ids_unique d ->
    let passes :=
      matches (filter_on (Some (form_get args "class_filter" "All"))) (class_ (snd student))
      && matches (filter_on (Some (form_get args "dept_filter" "All")))
                 (department (snd student)) in
    (passes = true ->
     filter (fun e => r_id e =? student_id) (reports args (get_db d))
     = [{| r_id := student_id; r_name := name (snd student);
           r_class := class_ (snd student); r_department := department (snd student);
           r_summary := attendance_of (get_db d) student_id |}])
    /\ (passes = false ->
        filter (fun e => r_id e =? student_id) (reports args (get_db d)) = []).
Proof.
  intros d args student_id student Hsel Hids passes.
  unfold select_student in Hsel. fresh_connection.
  destruct (find_some _ _ Hsel) as [Hin Hid]. apply Z.eqb_eq in Hid. subst student_id.
  clear Hsel.
  assert (Hnd : NoDup (map fst (rows (t_students d)))).
  { unfold student_ids_unique, ids in Hids.
    apply (distinct_NoDup Z Z (fun z => z) Z.eqb (fun x y => Z.eqb_eq x y)) in Hids.
    rewrite map_id in Hids. exact Hids. }
  set (pf := fun x : Z * student_row =>
               matches (filter_on (Some (form_get args "class_filter" "All")))
                       (class_ (snd x))
               && matches (filter_on (Some (form_get args "dept_filter" "All")))
                          (department (snd x))).
  assert (Hperm : Permutation
                    (filter (fun x => fst x =? (fst student))
                            (order_by by_class_department_name
                                      (filter pf (rows (t_students d)))))
                    (filter pf (filter (fun x => fst x =? (fst student))
                                       (rows (t_students d))))).
  { eapply perm_trans; [apply filter_perm, order_by_perm|].
    rewrite !filter_twice.
    rewrite (filter_ext (fun x => pf x && (fst x =? (fst student)))
                        (fun x => (fst x =? (fst student)) && pf x))
      by (intros x; apply andb_comm).
    apply Permutation_refl. }
  rewrite (filter_by_id _ _ student Hnd Hin) in Hperm.
  cbn [filter] in Hperm. change (pf student) with passes in Hperm.
  unfold reports. fresh_connection. fold pf.
  rewrite (filter_of_map _ _ _ (fun e => r_id e =? (fst student))). cbn [r_id].
  split; intros Hp; rewrite Hp in Hperm.
  - rewrite (Permutation_length_1_inv (Permutation_sym Hperm)). cbn [map].
    f_equal. f_equal.
    unfold report_row, attendance_of, joined. fresh_connection.
    rewrite !sum_case_joined_count. reflexivity.
  - rewrite (Permutation_nil (Permutation_sym Hperm)). reflexivity.
Qed.

(** X15. A first mark for a student on a date adds one day to the total of
    the student's report and one to the present or to the absent days,
    by its status. *)
Theorem attendance_mark_shows_in_report :
  forall (integer_affinity : string -> value) (d : database) (today : string) (f : form)
         (student_id_ status : string) (student_id : Z),
    form_item f "student_id" = Some student_id_ ->
    form_item f "status" = Some status ->
    integer_affinity student_id_ = VInt student_id ->
    valid_status status = true ->
    marked d (form_get f "date" today) student_id = false ->
    let d1 := fst (fst (serve (attendance integer_affinity today f) d)) in
    let before := attendance_of (get_db d) student_id in
    let after := attendance_of (get_db d1) student_id in
    total_days after = total_days before + 1
    /\ present after = present before + (if (status =? "Present")%string then 1 else 0)
    /\ absent after = absent before + (if (status =? "Absent")%string then 1 else 0).
Proof.
  intros integer_affinity d today f student_id_ status student_id Hsid Hst Haff Hv Hm
         d1 before after.
  assert (Hd1 : d1 = set_attendance d
                       (append_row (t_attendance d)
                          {| a_student_id := VInt student_id;
                             a_date := form_get f "date" today; a_status := status |})).
  { unfold d1.
    rewrite (attendance_first_mark integer_affinity d today f student_id_ status Hsid Hst Hv);
      rewrite Haff; [reflexivity | exact Hm]. }
  unfold after, before, attendance_of. fresh_connection. rewrite Hd1.
  cbn [t_attendance set_attendance append_row rows total_days present absent].
  rewrite filter_app. cbn [filter snd a_student_id value_eqb]. rewrite Z.eqb_refl.
  rewrite !sum_case_count, !filter_app, !length_app. unfold or_zero.
  cbn [filter snd a_status List.length].
  destruct (status =? "Present")%string, (status =? "Absent")%string;
    cbn [List.length]; lia.
Qed.

(* ================================================================= *)
(** ** Running bulk attendance again *)

Lemma mark_each_all_marked (f : form) (date : string) :
  forall (student_ids : list Z) (c : connection) (s e : nat),
    (forall sid, In sid student_ids -> marked (current c) date sid = true) ->
    mark_each f date student_ids c s e = (c, s, (e + List.length student_ids)%nat).
Proof.
  induction student_ids as [|sid rest IH]; intros c s e Hall.
  - cbn [mark_each List.length]. rewrite Nat.add_0_r. reflexivity.
  - cbn [mark_each List.length]. unfold insert_attendance.
    pose proof (Hall sid (or_introl eq_refl)) as Hm. unfold marked in Hm. rewrite Hm.
    rewrite Nat.add_succ_r.
    destruct (negb (valid_status (form_get f ("status_" ++ str_of_Z sid)%string "Present")));
      apply (IH c s (S e)); intros x Hx; apply Hall; right; exact Hx.
Qed.

(** X16. Submitting the same bulk form a second time inserts nothing: the
    message reports 0 new records and all N selected students as
    existing, and the store stays as the first run left it. *)
Theorem bulk_attendance_second_run :
  forall (d : database) (f : form) (date : string),
    form_item f "date" = Some date ->
    student_ids_unique d ->
    attendance_unique d ->
    let student_ids :=
      select_student_ids (get_db d) (form_item f "class_filter")
                         (form_item f "dept_filter") in
    (forall sid, In sid student_ids ->
                 valid_status (form_get f ("status_" ++ str_of_Z sid)%string "Present")
                 = true) ->
    let d1 := fst (fst (serve (bulk_attendance f) d)) in
    (forall sid, In sid student_ids -> marked d1 date sid = true)
    /\ serve (bulk_attendance f) d1
       = (d1, [(bulk_attendance_message 0 (List.length student_ids), "success")],
          Redirect "attendance").
Proof.
  intros d f date Hdate Hids Huniq student_ids Hvalid d1.
  assert (Hdist : distinct Z.eqb student_ids = true).
  { unfold student_ids, select_student_ids. apply distinct_ids_filter. exact Hids. }
  destruct (mark_each_spec f date student_ids (get_db d) 0 0 eq_refl Hdist Hvalid Huniq)
    as (new & a' & Heq & Hnew & _).
  assert (Hd1 : d1 = set_attendance d
                       {| rows := rows (t_attendance d) ++ new; autoinc := a' |}).
  { unfold d1, serve, bulk_attendance. rewrite Hdate. fold student_ids. rewrite Heq.
    reflexivity. }
  assert (Hall : forall sid, In sid student_ids -> marked d1 date sid = true).
  { intros sid Hsid. rewrite Hd1. unfold marked.
    cbn [t_attendance set_attendance rows]. rewrite existsb_app.
    destruct (existsb (same_mark (VInt sid) date) (rows (t_attendance d))) eqn:Hm;
      [reflexivity|].
    cbn [orb]. change (current (get_db d)) with d in Hnew.
    assert (Hin : In (bulk_row f date sid) (map snd new)).
    { rewrite Hnew. apply in_map. apply filter_In. split; [exact Hsid|].
      unfold marked. rewrite Hm. reflexivity. }
    apply in_map_iff in Hin. destruct Hin as (x & Hx & Hxin).
    apply (existsb_In _ _ _ x Hxin). apply same_mark_iff. rewrite Hx. split; reflexivity. }
  split; [exact Hall|].
  assert (Hsame : select_student_ids (get_db d1) (form_item f "class_filter")
                                     (form_item f "dept_filter") = student_ids)
    by (rewrite Hd1; reflexivity).
  unfold serve, bulk_attendance. rewrite Hdate, Hsame.
  rewrite (mark_each_all_marked f date student_ids (get_db d1) 0 0 Hall).
  reflexivity.
Qed.

(* ================================================================= *)
(** ** The selection of a reconciliation at its edges *)

(** X12. For a task id within 64 bits and a selection of ASCII texts: a
    selection with an id that [int] does not parse aborts the request
    before any statement runs; an empty selection removes every
    assignment of the task, leaves the rows of other tasks, and flashes
    "Task unassigned from U student(s)." with the number U of rows
    removed, or "No changes made to assignments." when the task had
    none. *)
Theorem update_task_assignments_edges :
  forall (d : database) (task_id : Z) (f : form),
    forallb int_text (form_getlist f "student_ids") = true ->
    int64 task_id = true ->
    (py_int_list (form_getlist f "student_ids") = None ->
     serve (update_task_assignments task_id f) d = (d, [], InternalServerError))
    /\ (form_getlist f "student_ids" = [] ->
        let unassign_count :=
          List.length (filter (fun x => task_of x =? task_id) (rows (t_student_tasks d))) in
        let '(d', msgs, r) := serve (update_task_assignments task_id f) d in
        rows (t_student_tasks d')
        = filter (fun x => negb (task_of x =? task_id)) (rows (t_student_tasks d))
        /\ (forall sid, assigned d' task_id sid = false)
        /\ msgs = (if (0 <? unassign_count)%nat
                   then [(("Task unassigned from " ++ str_of_nat unassign_count
                           ++ " student(s).")%string, "info")]
                   else [("No changes made to assignments.", "info")])
        /\ r = Redirect "task_detail").
Proof.
  intros d task_id f _ _. split.
  - intros Hnone. unfold serve, update_task_assignments. rewrite Hnone. reflexivity.
  - intros Hempty unassign_count.
    assert (Hsel : py_int_list (form_getlist f "student_ids") = Some [])
      by (rewrite Hempty; reflexivity).
    destruct (reconcile_spec d task_id f [] Hsel) as (new & a' & Heq & _ & _ & Hin).
    assert (Hnew : new = []).
    { destruct new as [|x new]; [reflexivity|].
      exfalso. apply (proj1 (Hin (student_of x))); left; reflexivity. }
    subst new. rewrite Heq, app_nil_r.
    cbn [t_student_tasks set_student_tasks rows List.length].
    assert (Hk : forall x, kept task_id [] x = negb (task_of x =? task_id)).
    { intros x. unfold kept, dropped, mem. cbn [existsb negb]. rewrite andb_true_r.
      reflexivity. }
    assert (Hdr : forall x, dropped task_id [] x = (task_of x =? task_id)).
    { intros x. unfold dropped, mem. cbn [existsb negb]. apply andb_true_r. }
    rewrite (filter_ext _ _ Hk), (filter_ext _ _ Hdr).
    split; [reflexivity|]. split; [|split; [|reflexivity]].
    2:{ fold unassign_count. unfold assignment_messages.
        destruct unassign_count; reflexivity. }
    intros sid. unfold assigned. cbn [t_student_tasks set_student_tasks rows].
    destruct (existsb (same_assignment task_id sid) _) eqn:Hex; [|reflexivity].
    apply existsb_exists in Hex. destruct Hex as (x & Hx & Hs).
    apply filter_In in Hx. destruct Hx as [_ Hx].
    apply same_assignment_iff in Hs. destruct Hs as [Ht _].
    rewrite (proj2 (Z.eqb_eq _ _) Ht) in Hx. discriminate.
Qed.

(* ================================================================= *)
(** ** Marks *)

Lemma max_rowid_nonneg (R : Type) (l : list (Z * R)) : 0 <= max_rowid l.
Proof.
  induction l as [|x l IH]; [unfold max_rowid; cbn [fold_right]; lia|].
  change (max_rowid (x :: l)) with (Z.max (fst x) (max_rowid l)). lia.
Qed.

Lemma max_rowid_app (R : Type) (l l' : list (Z * R)) :
  max_rowid (l ++ l') = Z.max (max_rowid l) (max_rowid l').
Proof.
  induction l as [|x l IH].
  - change (max_rowid ([] ++ l')) with (max_rowid l').
    change (max_rowid (@nil (Z * R))) with 0.
    pose proof (max_rowid_nonneg R l'). lia.
  - change (max_rowid ((x :: l) ++ l')) with (Z.max (fst x) (max_rowid (l ++ l'))).
    change (max_rowid (x :: l)) with (Z.max (fst x) (max_rowid l)).
    rewrite IH. lia.
Qed.

Lemma next_rowid_append (R : Type) (t : table R) (r : R) :
  next_rowid (append_row t r) = next_rowid t + 1.
Proof.
  unfold next_rowid at 1. cbn [append_row rows autoinc].
  rewrite max_rowid_app.
  change (max_rowid [(next_rowid t, r)]) with (Z.max (next_rowid t) 0).
  pose proof (max_rowid_nonneg R (rows t)). unfold next_rowid. lia.
Qed.

Section MarkEntries.

Variable integer_affinity : string -> value.

(** X18. A mark with its five required fields is stored whatever the table
    already holds: entering the same mark twice stores two rows with
    the same content under consecutive ids. *)
Theorem marks_accepts_repeated_entry :
  forall (d : database) (f : form)
         (student_id subject_id exam_type_ marks_obtained max_marks : string),
    ascii_form f = true ->
    form_item f "student_id" = Some student_id ->
    form_item f "subject_id" = Some subject_id ->
    form_item f "exam_type" = Some exam_type_ ->
    form_item f "marks_obtained" = Some marks_obtained ->
    form_item f "max_marks" = Some max_marks ->
    all_given student_id subject_id exam_type_ marks_obtained max_marks = true ->
    let row := mark_of_form integer_affinity f student_id subject_id exam_type_
                            marks_obtained max_marks in
    let d1 := fst (fst (serve (marks integer_affinity f) d)) in
    serve (marks integer_affinity f) d
    = (set_marks d (append_row (t_marks d) row),
       [("Marks added successfully.", "success")], Redirect "marks")
    /\ rows (t_marks (fst (fst (serve (marks integer_affinity f) d1))))
       = rows (t_marks d)
         ++ [(next_rowid (t_marks d), row); (next_rowid (t_marks d) + 1, row)].
Proof.
  intros d f student_id subject_id exam_type_ marks_obtained max_marks
         _ Hsid Hsub Hex Hmo Hmm Hall row d1.
  assert (Hone : forall d0,
             serve (marks integer_affinity f) d0
             = (set_marks d0 (append_row (t_marks d0) row),
                [("Marks added successfully.", "success")], Redirect "marks")).
  { intros d0. unfold serve, marks. rewrite Hsid, Hsub, Hex, Hmo, Hmm, Hall.
    cbn [negb]. unfold insert_mark. fresh_connection. reflexivity. }
  split; [apply Hone|].
  unfold d1. rewrite !Hone. cbn [fst t_marks set_marks].
  cbn [append_row rows]. rewrite <- app_assoc. cbn [app].
  change {| rows := rows (t_marks d) ++ [(next_rowid (t_marks d), row)];
            autoinc := next_rowid (t_marks d) |}
    with (append_row (t_marks d) row).
  rewrite next_rowid_append. reflexivity.
Qed.

(** X19. Editing a mark replaces the content of the row with the id and keeps
    every id and every other row; for an id that no row has, the handler
    still reports success and the store is what it was. *)
Theorem edit_mark_replaces_one_row :
  forall (d : database) (id : Z) (f : form)
         (student_id subject_id exam_type_ marks_obtained max_marks : string),
    ascii_form f = true ->
    int64 id = true ->
    form_item f "student_id" = Some student_id ->
    form_item f "subject_id" = Some subject_id ->
    form_item f "exam_type" = Some exam_type_ ->
    form_item f "marks_obtained" = Some marks_obtained ->
    form_item f "max_marks" = Some max_marks ->
    all_given student_id subject_id exam_type_ marks_obtained max_marks = true ->
    let row := mark_of_form integer_affinity f student_id subject_id exam_type_
                            marks_obtained max_marks in
    let '(d', msgs, r) := serve (edit_mark integer_affinity id f) d in
    map fst (rows (t_marks d')) = map fst (rows (t_marks d))
    /\ (forall x, In x (rows (t_marks d)) -> fst x <> id -> In x (rows (t_marks d')))
    /\ (forall x, In x (rows (t_marks d')) -> fst x = id -> snd x = row)
    /\ (has_rowid (t_marks d) id = false -> d' = d)
    /\ msgs = [("Marks updated successfully.", "success")]
    /\ r = Redirect "marks".
Proof.
  intros d id f student_id subject_id exam_type_ marks_obtained max_marks
         _ _ Hsid Hsub Hex Hmo Hmm Hall row.
  unfold serve, edit_mark. rewrite Hsid, Hsub, Hex, Hmo, Hmm, Hall.
  cbn [negb]. unfold update_mark. fresh_connection. cbn [andb]. fold row.
  cbn [conn flashed resp redirect commit close_connection stored current with_current
       t_marks set_marks update_where rows].
  split; [|split; [|split; [|split; [|split]]]]; try reflexivity.
  - apply (map_fst_update _ (fun x => fst x =? id) (fun _ => row)).
  - intros x Hx Hne. apply in_map_iff. exists x. split; [|exact Hx].
    rewrite (proj2 (Z.eqb_neq _ _) Hne). reflexivity.
  - intros x Hx Hid. apply in_map_iff in Hx. destruct Hx as (y & <- & Hy).
    destruct (Z.eqb_spec (fst y) id) as [E|E]; [reflexivity|].
    exfalso. apply E. exact Hid.
  - intros Hno. unfold update_where. rewrite map_unchanged.
    + rewrite table_eta. apply set_marks_same.
    + intros x Hx. unfold has_rowid in Hno.
      rewrite (existsb_false_In _ _ _ x Hno Hx). reflexivity.
Qed.

End MarkEntries.

(* ================================================================= *)
(** ** Editing a student *)



(** X10. A student form is turned away before any statement runs: with one
    of its six keys missing the request is bad; with all six present,
    in a form of ASCII text, and a required field that is blank once
    stripped, the required-fields message is flashed.  The store is
    untouched either way, for creation and for editing. *)
Theorem student_form_turned_away :
  forall (d : database) (f : form) (id : Z),
    ((form_item f "usn" = None \/ form_item f "name" = None \/ form_item f "email" = None
      \/ form_item f "phone" = None \/ form_item f "class" = None
      \/ form_item f "department" = None) ->
     serve (add_student f) d = (d, [], BadRequest)
     /\ serve (edit_student id f) d = (d, [], BadRequest))
    /\ (forall usn_ name_ email_ phone_ cls dept,
           ascii_form f = true ->
           form_item f "usn" = Some usn_ -> form_item f "name" = Some name_ ->
           form_item f "email" = Some email_ -> form_item f "phone" = Some phone_ ->
           form_item f "class" = Some cls -> form_item f "department" = Some dept ->
           (strip usn_ = ""%string \/ strip name_ = ""%string \/ strip email_ = ""%string
            \/ strip cls = ""%string \/ strip dept = ""%string) ->
           serve (add_student f) d
           = (d, [("USN, Name, Email, Class, and Department are required.", "danger")],
              Redirect "students")
           /\ serve (edit_student id f) d
              = (d, [("All fields except phone and parent details are required.",
                      "danger")], Redirect "students")).
Proof.
  intros d f id. split.
  - intros Hmissing. unfold serve, add_student, edit_student.
    destruct (form_item f "usn"); [|split; reflexivity].
    destruct (form_item f "name"); [|split; reflexivity].
    destruct (form_item f "email"); [|split; reflexivity].
    destruct (form_item f "phone"); [|split; reflexivity].
    destruct (form_item f "class"); [|split; reflexivity].
    destruct (form_item f "department"); [|split; reflexivity].
    exfalso. intuition discriminate.
  - intros usn_ name_ email_ phone_ cls dept _ Hu Hn He Hp Hc Hd Hblank.
    unfold serve, add_student, edit_student. rewrite Hu, Hn, He, Hp, Hc, Hd.
    cbv beta iota zeta. cbn [usn name email class_ department].
    assert (Hb : negb (truthy (strip usn_)) || negb (truthy (strip name_))
                 || negb (truthy (strip email_)) || negb (truthy (strip cls))
                 || negb (truthy (strip dept)) = true).
    { destruct Hblank as [H|[H|[H|[H|H]]]]; rewrite H; cbn [truthy negb orb];
        rewrite ?orb_true_r; reflexivity. }
    rewrite Hb. split; reflexivity.
Qed.

(* ================================================================= *)
(** ** The dashboard *)

Lemma sum_over_ext_in (A : Type) (g h : A -> Z) (l : list A) :
  (forall x, In x l -> g x = h x) -> sum_over g l = sum_over h l.
Proof.
  induction l as [|x l IH]; intros H; [reflexivity|].
  unfold sum_over in *. cbn [fold_right].
  rewrite (H x (or_introl eq_refl)), (IH (fun y Hy => H y (or_intror Hy))). reflexivity.
Qed.

Lemma sum_over_le (A : Type) (g h : A -> Z) (l : list A) :
  (forall x, In x l -> g x <= h x) -> sum_over g l <= sum_over h l.
Proof.
  induction l as [|x l IH]; intros H; [reflexivity|].
  unfold sum_over in *. cbn [fold_right].
  pose proof (H x (or_introl eq_refl)). pose proof (IH (fun y Hy => H y (or_intror Hy))).
  lia.
Qed.

Lemma sum_over_add (A : Type) (g h : A -> Z) (l : list A) :
  sum_over g l + sum_over h l = sum_over (fun x => g x + h x) l.
Proof.
  induction l as [|x l IH]; [reflexivity|].
  unfold sum_over in *. cbn [fold_right]. lia.
Qed.

Lemma sum_over_const (A : Type) (k : Z) (l : list A) :
  sum_over (fun _ => k) l = k * Z.of_nat (List.length l).
Proof.
  induction l as [|x l IH]; [unfold sum_over; cbn; lia|].
  unfold sum_over in *. cbn [fold_right List.length]. lia.
Qed.

Lemma present_absent_le (l : list (Z * attendance_row)) :
  count_status "Present" l + count_status "Absent" l <= Z.of_nat (List.length l).
Proof.
  unfold count_status. induction l as [|x l IH]; [cbn; lia|].
  cbn [filter List.length].
  destruct (String.eqb_spec (a_status (snd x)) "Present") as [E|E].
  - rewrite E. cbn [String.eqb Ascii.eqb Bool.eqb andb List.length]. lia.
  - destruct (a_status (snd x) =? "Absent")%string; cbn [List.length]; lia.
Qed.

Lemma filter_eq_string (l : list string) (a : string) :
  NoDup l -> In a l -> filter (fun b => (b =? a)%string) l = [a].
Proof.
  induction l as [|b l IH]; intros Hnd Ha; [destruct Ha|].
  inversion Hnd as [|? ? Hb Hl]; subst. cbn [filter].
  destruct Ha as [->|Ha].
  - rewrite String.eqb_refl. f_equal. apply filter_nothing. intros c Hc.
    apply String.eqb_neq. intros E. apply Hb. rewrite <- E. exact Hc.
  - destruct (String.eqb_spec b a) as [E|E].
    + exfalso. apply Hb. rewrite E. exact Ha.
    + exact (IH Hl Ha).
Qed.

Lemma marks_on_at_most_one (d : database) (date : string) (sid : Z) :
  attendance_unique d -> (List.length (marks_on (get_db d) date sid) <= 1)%nat.
Proof.
  intros Hu. unfold marks_on. fresh_connection.
  destruct (existsb (same_mark (VInt sid) date) (rows (t_attendance d))) eqn:Hex.
  - rewrite (unique_mark_once _ _ _ Hu Hex). lia.
  - rewrite (filter_none _ _ _ Hex). cbn. lia.
Qed.

(** X20. Every department that has a student has exactly one row in the
    breakdown of a date.  Its student count is at least the number of
    its students and equals it when (student, date) pairs are unique;
    present and absent together never exceed it; and a department none
    of whose students is marked on the date still has its row, with its
    students counted and zero present and absent. *)
Theorem dashboard_department_rows :
  forall (d : database) (date : string) (x : Z * student_row),
    In x (rows (t_students d)) ->
    let dept := department (snd x) in
    let members := filter (in_department dept) (rows (t_students d)) in
    exists row,
      filter (fun r => (dr_department r =? dept)%string) (dept_attendance date (get_db d))
      = [row]
      /\ Z.of_nat (List.length members) <= dr_total_students row
      /\ dr_present row + dr_absent row <= dr_total_students row
      /\ (attendance_unique d -> dr_total_students row = Z.of_nat (List.length members))
      /\ ((forall y, In y members -> marked d date (fst y) = false) ->
          dr_total_students row = Z.of_nat (List.length members)
          /\ dr_present row = 0 /\ dr_absent row = 0).
Proof.
  intros d date x Hx dept members.
  set (c := get_db d).
  set (mk := fun dpt : string =>
               {| dr_department := dpt;
                  dr_total_students :=
                    sum_over (fun y => join_rows c date (fst y))
                             (filter (in_department dpt) (rows (t_students (current c))));
                  dr_present :=
                    sum_over (fun y => count_status "Present" (marks_on c date (fst y)))
                             (filter (in_department dpt) (rows (t_students (current c))));
                  dr_absent :=
                    sum_over (fun y => count_status "Absent" (marks_on c date (fst y)))
                             (filter (in_department dpt) (rows (t_students (current c)))) |}).
  exists (mk dept).
  assert (Hrow : filter (fun r => (dr_department r =? dept)%string) (dept_attendance date c)
                 = [mk dept]).
  { unfold dept_attendance. fold mk.
    rewrite (filter_of_map _ _ mk (fun r => (dr_department r =? dept)%string)).
    cbn [dr_department mk].
    assert (Hperm : Permutation
                      (filter (fun b => (b =? dept)%string) (departments c))
                      [dept]).
    { unfold departments.
      eapply perm_trans; [apply filter_perm, order_by_perm|].
      rewrite filter_eq_string; [apply Permutation_refl | apply NoDup_nodup |].
      apply nodup_In. apply in_map_iff. exists x. split; [reflexivity | exact Hx]. }
    rewrite (Permutation_length_1_inv (Permutation_sym Hperm)). reflexivity. }
  split; [exact Hrow|].
  change (filter (in_department dept) (rows (t_students (current c)))) with members
    in (value of mk).
  assert (Hlen : sum_over (fun _ : Z * student_row => 1) members
                 = Z.of_nat (List.length members))
    by (rewrite sum_over_const; lia).
  cbn [mk dr_total_students dr_present dr_absent].
  change (filter (in_department dept) (rows (t_students (current c)))) with members.
  split; [|split; [|split]].
  - rewrite <- Hlen. apply sum_over_le. intros y _. unfold join_rows. lia.
  - rewrite sum_over_add. apply sum_over_le. intros y _.
    pose proof (present_absent_le (marks_on c date (fst y))). unfold join_rows. lia.
  - intros Hu. rewrite <- Hlen. apply sum_over_ext_in. intros y _.
    pose proof (marks_on_at_most_one d date (fst y) Hu). unfold join_rows. fold c in H. lia.
  - intros Hnone.
    assert (Hempty : forall y, In y members -> marks_on c date (fst y) = []).
    { intros y Hy. apply filter_none. exact (Hnone y Hy). }
    split; [|split].
    + rewrite <- Hlen. apply sum_over_ext_in. intros y Hy.
      unfold join_rows. rewrite (Hempty y Hy). reflexivity.
    + rewrite (sum_over_ext_in _ _ (fun _ => 0)).
      * rewrite sum_over_const. lia.
      * intros y Hy. rewrite (Hempty y Hy). reflexivity.
    + rewrite (sum_over_ext_in _ _ (fun _ => 0)).
      * rewrite sum_over_const. lia.
      * intros y Hy. rewrite (Hempty y Hy). reflexivity.
Qed.

(** X21. Deleting a student lowers the student count of the dashboard by one
    and leaves its attendance totals and percentage as they were: the
    records of the deleted student are still counted. *)
Theorem dashboard_counts_deleted_students_records :
  forall (d : database) (id : Z),
    student_ids_unique d ->
    has_rowid (t_students d) id = true ->
    let before := dashboard_overall (get_db d) in
    let after := dashboard_overall (get_db (fst (fst (serve (delete_student id) d)))) in
    total_students after = total_students before - 1
    /\ total_attendance after = total_attendance before
    /\ present_count after = present_count before
    /\ absent_count after = absent_count before
    /\ overall_percent after = overall_percent before.
Proof.
  intros d id Hids Hrow before after.
  split; [|repeat split].
  unfold after, before, dashboard_overall. cbn [total_students].
  change (rows (t_students (current (get_db (fst (fst (serve (delete_student id) d)))))))
    with (filter (fun x => negb (fst x =? id)) (rows (t_students d))).
  fresh_connection.
  rewrite (filter_complement_length _ (fun x => fst x =? id)).
  unfold has_rowid in Hrow. apply existsb_exists in Hrow. destruct Hrow as (x & Hx & E).
  apply Z.eqb_eq in E. subst id.
  assert (Hnd : NoDup (map fst (rows (t_students d)))).
  { unfold student_ids_unique, ids in Hids.
    apply (distinct_NoDup Z Z (fun z => z) Z.eqb (fun a b => Z.eqb_eq a b)) in Hids.
    rewrite map_id in Hids. exact Hids. }
  rewrite (filter_by_id _ _ x Hnd Hx). cbn [List.length].
  assert (Hpos : (1 <= List.length (rows (t_students d)))%nat).
  { destruct (rows (t_students d)); [destruct Hx | cbn; lia]. }
  lia.
Qed.

(* ================================================================= *)
(** ** The further theorems at the sample store *)

Lemma tasks_without_assign_all_stores_nothing_witness :
  ascii_form Cases.task_form = true
  /\ checked Cases.task_form "assign_all" = false
  /\ serve (tasks Cases.task_form) Sample.store
     = (Sample.store,
        [(("Task added. Use " ++ String "034"%char "Assign"
           ++ String "034"%char " to assign to students.")%string, "success")],
        Redirect "tasks").
Proof.
  split; [reflexivity|]. split; [reflexivity|].
  exact (tasks_without_assign_all_stores_nothing Sample.store Cases.task_form
           " Essay 2 " "" "2024-03-01" eq_refl eq_refl eq_refl eq_refl eq_refl eq_refl
           eq_refl).
Defined.

Lemma tasks_assign_all_assigns_every_student_witness :
  ascii_form Cases.task_form_for_all = true
  /\ checked Cases.task_form_for_all "assign_all" = true
  /\ assigned (fst (fst (serve (tasks Cases.task_form_for_all) Sample.store))) 2 1 = true
  /\ assigned (fst (fst (serve (tasks Cases.task_form_for_all) Sample.store))) 2 2 = true.
Proof.
  split; [reflexivity|]. split; [reflexivity|].
  pose proof (tasks_assign_all_assigns_every_student Sample.store Cases.task_form_for_all
                " Essay 2 " "" "2024-03-01" eq_refl eq_refl eq_refl eq_refl eq_refl eq_refl
                eq_refl)
    as W.
  cbv zeta in W.
  destruct (serve (tasks Cases.task_form_for_all) Sample.store) as [[d' msgs] r].
  destruct W as (_ & Hall & _).
  split; [apply (Hall 1) | apply (Hall 2)]; simpl; auto.
Defined.

Lemma students_constraints_invariant_witness :
  students_ok Sample.store
  /\ students_ok (fst (fst (serve (add_student Cases.new_student) Sample.store)))
  /\ students_ok (fst (fst (serve (edit_student 1 Cases.new_student) Sample.store))).
Proof.
  assert (Hok : students_ok Sample.store) by (repeat split; reflexivity).
  split; [exact Hok|].
  destruct (students_constraints_invariant Sample.store Cases.new_student 1 Hok)
    as (Hadd & Hedit & _).
  split; [exact Hadd | exact Hedit].
Defined.

Lemma deleted_student_id_not_reused_witness :
  ascii_form Cases.new_student = true
  /\ sequenced (t_students Sample.store)
  /\ exists i r,
      rows (t_students
              (fst (fst (serve (add_student Cases.new_student)
                               (fst (fst (serve (delete_student 2) Sample.store)))))))
      = rows (t_students (fst (fst (serve (delete_student 2) Sample.store)))) ++ [(i, r)]
      /\ 2 < i.
Proof.
  split; [reflexivity|]. split; [reflexivity|].
  assert (Hok : student_form_ok Cases.new_student "U9" "z@x.org").
  { exists "U9"%string, "Ravi"%string, "z@x.org"%string, ""%string, "A"%string,
      "BCA"%string.
    repeat split; reflexivity. }
  destruct (deleted_student_id_not_reused Sample.store Cases.new_student "U9" "z@x.org"
              (2, Sample.student "U2" "b@x.org" "B" "BCA") eq_refl Hok eq_refl
              (or_intror (or_introl eq_refl)))
    as (i & r & Hrows & Hlt & _).
  - intros y [<-|[]]. split; discriminate.
  - exists i, r. split; [exact Hrows | exact Hlt].
Defined.

Lemma assignments_unique_invariant_witness :
  assignments_unique Sample.store
  /\ assignments_unique
       (fst (fst (serve (update_task_assignments 1 Sample.both_selected) Sample.store)))
  /\ assignments_unique
       (fst (fst (serve (tasks Sample.both_selected) Sample.store))).
Proof.
  split; [reflexivity|].
  pose proof (assignments_unique_invariant Sample.store Sample.both_selected "2024-01-20"
                1 2 eq_refl) as W.
  cbv zeta beta in W. destruct W as (H1 & _ & H3 & _).
  split; [exact H1 | exact H3].
Defined.

Lemma subjects_constraints_invariant_witness :
  subjects_ok Sample.store
  /\ subjects_ok
       (fst (fst (serve (subjects literal_affinity (Sample.subject_form "Algebra" "BSc" "2"))
                        Sample.store))).
Proof.
  assert (Hok : subjects_ok Sample.store) by (split; reflexivity).
  split; [exact Hok|].
  exact (proj1 (subjects_constraints_invariant literal_affinity Sample.store
                  (Sample.subject_form "Algebra" "BSc" "2") 1 Hok)).
Defined.

Lemma reports_agrees_with_student_report_witness :
  student_ids_unique Sample.four_days
  /\ filter (fun e => r_id e =? 1) (reports [] (get_db Sample.four_days))
     = [{| r_id := 1; r_name := "Asha"; r_class := "A"; r_department := "BCA";
           r_summary := attendance_of (get_db Sample.four_days) 1 |}].
Proof.
  split; [reflexivity|].
  pose proof (reports_agrees_with_student_report Sample.four_days [] 1
                (1, Sample.student "U1" "a@x.org" "A" "BCA") eq_refl eq_refl) as W.
  cbv zeta in W. destruct W as [W _]. apply W. reflexivity.
Defined.

Lemma attendance_mark_shows_in_report_witness :
  marked Sample.four_days "2024-01-05" 1 = false
  /\ total_days
       (attendance_of
          (get_db (fst (fst (serve (attendance literal_affinity "2024-01-09"
                                               Cases.first_present)
                                   Sample.four_days)))) 1) = 5
  /\ present
       (attendance_of
          (get_db (fst (fst (serve (attendance literal_affinity "2024-01-09"
                                               Cases.first_present)
                                   Sample.four_days)))) 1) = 4.
Proof.
  split; [reflexivity|].
  pose proof (attendance_mark_shows_in_report literal_affinity Sample.four_days "2024-01-09"
                Cases.first_present "1" "Present" 1 eq_refl eq_refl eq_refl eq_refl eq_refl)
    as W.
  cbv zeta in W. destruct W as (Ht & Hp & _).
  split; [rewrite Ht | rewrite Hp]; reflexivity.
Defined.

Lemma bulk_attendance_second_run_witness :
  student_ids_unique Sample.store
  /\ attendance_unique Sample.store
  /\ serve (bulk_attendance Sample.bulk_form)
           (fst (fst (serve (bulk_attendance Sample.bulk_form) Sample.store)))
     = (fst (fst (serve (bulk_attendance Sample.bulk_form) Sample.store)),
        [(bulk_attendance_message 0 2, "success")], Redirect "attendance").
Proof.
  split; [reflexivity|]. split; [reflexivity|].
  assert (Hvalid : forall sid,
             In sid (select_student_ids (get_db Sample.store)
                                        (form_item Sample.bulk_form "class_filter")
                                        (form_item Sample.bulk_form "dept_filter")) ->
             valid_status (form_get Sample.bulk_form ("status_" ++ str_of_Z sid)%string
                                    "Present") = true).
  { intros sid [<-|[<-|[]]]; reflexivity. }
  exact (proj2 (bulk_attendance_second_run Sample.store Sample.bulk_form "2024-01-01"
                  eq_refl eq_refl eq_refl Hvalid)).
Defined.

Lemma marks_accepts_repeated_entry_witness :
  ascii_form Cases.mark_entry = true
  /\ all_given "1" "1" "Final" "61" "100" = true
  /\ List.length
       (rows (t_marks
                (fst (fst (serve (marks literal_affinity Cases.mark_entry)
                                 (fst (fst (serve (marks literal_affinity Cases.mark_entry)
                                                  Sample.store))))))))
     = 3%nat.
Proof.
  split; [reflexivity|]. split; [reflexivity|].
  pose proof (marks_accepts_repeated_entry literal_affinity Sample.store Cases.mark_entry
                "1" "1" "Final" "61" "100" eq_refl eq_refl eq_refl eq_refl eq_refl eq_refl
                eq_refl)
    as W.
  cbv zeta in W. destruct W as [_ W]. rewrite W. reflexivity.
Defined.

Lemma edit_mark_replaces_one_row_witness :
  ascii_form Cases.mark_entry = true
  /\ int64 1 = true
  /\ all_given "1" "1" "Final" "61" "100" = true
  /\ snd (fst (serve (edit_mark literal_affinity 1 Cases.mark_entry) Sample.store))
     = [("Marks updated successfully.", "success")].
Proof.
  split; [reflexivity|]. split; [reflexivity|]. split; [reflexivity|].
  pose proof (edit_mark_replaces_one_row literal_affinity Sample.store 1 Cases.mark_entry
                "1" "1" "Final" "61" "100" eq_refl eq_refl eq_refl eq_refl eq_refl eq_refl
                eq_refl eq_refl)
    as W.
  cbv zeta in W.
  destruct (serve (edit_mark literal_affinity 1 Cases.mark_entry) Sample.store)
    as [[d' msgs] r].
  destruct W as (_ & _ & _ & _ & Hm & _). exact Hm.
Defined.


Lemma dashboard_department_rows_witness :
  attendance_unique Sample.store
  /\ exists row,
      filter (fun r => (dr_department r =? "BCA")%string)
             (dept_attendance "2024-01-01" (get_db Sample.store)) = [row]
      /\ dr_total_students row = 2.
Proof.
  split; [reflexivity|].
  destruct (dashboard_department_rows Sample.store "2024-01-01"
              (1, Sample.student "U1" "a@x.org" "A" "BCA") (or_introl eq_refl))
    as (row & Hrow & _ & _ & Hu & _).
  exists row. split; [exact Hrow|]. rewrite (Hu eq_refl). reflexivity.
Defined.

Lemma dashboard_counts_deleted_students_records_witness :
  student_ids_unique Sample.store
  /\ total_students
       (dashboard_overall (get_db (fst (fst (serve (delete_student 2) Sample.store))))) = 1
  /\ total_attendance
       (dashboard_overall (get_db (fst (fst (serve (delete_student 2) Sample.store))))) = 1.
Proof.
  split; [reflexivity|].
  pose proof (dashboard_counts_deleted_students_records Sample.store 2 eq_refl eq_refl) as W.
  cbv zeta in W. destruct W as (Hs & Ht & _).
  split; [rewrite Hs | rewrite Ht]; reflexivity.
Defined.

Lemma attendance_constraints_invariant_witness :
  (attendance_unique Sample.store /\ statuses_valid Sample.store)
  /\ attendance_unique (fst (fst (serve (bulk_attendance Sample.late_form) Sample.store)))
  /\ statuses_valid
       (fst (fst (serve (attendance literal_affinity "2024-01-09" Cases.first_present)
                        Sample.store))).
Proof.
  assert (Hc : attendance_unique Sample.store /\ statuses_valid Sample.store)
    by (split; reflexivity).
  split; [exact Hc|].
  split.
  - pose proof (attendance_constraints_invariant literal_affinity Sample.store "2024-01-09"
                  Sample.late_form 1 Hc) as W.
    cbv zeta beta in W. destruct W as (_ & (Hu & _) & _). exact Hu.
  - pose proof (attendance_constraints_invariant literal_affinity Sample.store "2024-01-09"
                  Cases.first_present 1 Hc) as W.
    cbv zeta beta in W. destruct W as ((_ & Hv) & _). exact Hv.
Defined.

Lemma bulk_complete_task_completes_pending_witness :
  int64 1 = true
  /\ serve (bulk_complete_task "2024-02-02" 1)
           (fst (fst (serve (bulk_complete_task "2024-02-01" 1)
                            (fst (fst (serve (assign_task_to_student 1 1) Sample.store))))))
     = (fst (fst (serve (bulk_complete_task "2024-02-01" 1)
                        (fst (fst (serve (assign_task_to_student 1 1) Sample.store))))),
        [("All pending students marked as completed.", "success")],
        Redirect "task_detail").
Proof.
  split; [reflexivity|].
  exact (proj2 (proj2 (proj2 (proj2
           (bulk_complete_task_completes_pending
              (fst (fst (serve (assign_task_to_student 1 1) Sample.store)))
              "2024-02-01" "2024-02-02" 1)))) eq_refl).
Defined.

Lemma assign_task_to_student_once_witness :
  int64 1 = true
  /\ assigned Sample.store 1 1 = false
  /\ assigned Sample.store 1 2 = true
  /\ snd (fst (serve (assign_task_to_student 1 1) Sample.store))
     = [("Task assigned to student.", "success")]
  /\ serve (assign_task_to_student 1 2) Sample.store
     = (Sample.store, [("Task already assigned to this student.", "warning")],
        Redirect "task_detail").
Proof.
  split; [reflexivity|]. split; [reflexivity|]. split; [reflexivity|]. split.
  - pose proof (assign_task_to_student_once Sample.store 1 1 eq_refl eq_refl) as W.
    cbv zeta in W. destruct W as (_ & Hno & _). rewrite (Hno eq_refl). reflexivity.
  - pose proof (assign_task_to_student_once Sample.store 1 2 eq_refl eq_refl) as W.
    cbv zeta in W. destruct W as (_ & _ & Hyes & _). exact (Hyes eq_refl).
Defined.

Lemma student_form_turned_away_witness :
  ascii_form Cases.blank_usn = true
  /\ strip "   " = ""%string
  /\ serve (add_student Cases.blank_usn) Sample.store
     = (Sample.store,
        [("USN, Name, Email, Class, and Department are required.", "danger")],
        Redirect "students")
  /\ serve (edit_student 1 []) Sample.store = (Sample.store, [], BadRequest).
Proof.
  split; [reflexivity|]. split; [reflexivity|]. split.
  - exact (proj1 (proj2 (student_form_turned_away Sample.store Cases.blank_usn 1)
                        "   "%string "Ravi"%string "z@x.org"%string ""%string "A"%string
                        "BCA"%string eq_refl eq_refl eq_refl eq_refl eq_refl eq_refl
                        eq_refl (or_introl eq_refl))).
  - exact (proj2 (proj1 (student_form_turned_away Sample.store [] 1)
                        (or_introl eq_refl))).
Defined.

Lemma update_task_assignments_edges_witness :
  forallb int_text (form_getlist Cases.unparsed_selection "student_ids") = true
  /\ forallb int_text (form_getlist Cases.nobody_selected "student_ids") = true
  /\ int64 1 = true
  /\ int64 2 = true
  /\ py_int_list (form_getlist Cases.unparsed_selection "student_ids") = None
  /\ serve (update_task_assignments 1 Cases.unparsed_selection) Sample.store
     = (Sample.store, [], InternalServerError)
  /\ snd (fst (serve (update_task_assignments 1 Cases.nobody_selected) Sample.store))
     = [("Task unassigned from 1 student(s).", "info")]
  /\ snd (fst (serve (update_task_assignments 2 Cases.nobody_selected) Sample.store))
     = [("No changes made to assignments.", "info")].
Proof.
  split; [reflexivity|]. split; [reflexivity|]. split; [reflexivity|].
  split; [reflexivity|]. split; [reflexivity|]. split; [|split].
  - exact (proj1 (update_task_assignments_edges Sample.store 1 Cases.unparsed_selection
                    eq_refl eq_refl) eq_refl).
  - pose proof (proj2 (update_task_assignments_edges Sample.store 1 Cases.nobody_selected
                         eq_refl eq_refl) eq_refl) as W.
    cbv zeta in W.
    destruct (serve (update_task_assignments 1 Cases.nobody_selected) Sample.store)
      as [[d' msgs] r].
    destruct W as (_ & _ & Hm & _). exact Hm.
  - pose proof (proj2 (update_task_assignments_edges Sample.store 2 Cases.nobody_selected
                         eq_refl eq_refl) eq_refl) as W.
    cbv zeta in W.
    destruct (serve (update_task_assignments 2 Cases.nobody_selected) Sample.store)
      as [[d' msgs] r].
    destruct W as (_ & _ & Hm & _). exact Hm.
Defined.
